(** * Fraud-detection workflow: a shallow embedding and its verified properties

    The development follows the layout of the Python sources under
    [production-ready-observability/]:

    - [PyText]: Python [str] values as sequences of Unicode code points, with
      the few string operations the sources use;
    - [Re]: the fragment of Python's [re] module used by the risk-score parser
      (a backtracking matcher with greedy quantifiers and capture groups);
    - [Binary64]: the order of Python floats under addition, from the
      specification of binary64 arithmetic;
    - [telemetry]: the [TelemetryManager] of [workflows/telemetry.py];
    - [workflow]: the three executors of [workflows/workflow.py] and the
      message-passing graph that chains them;
    - [risk_analyser_agent], [fraud_alert_agent], [customer_data_agent]: the
      tool functions of the three agents;
    - [multi_transaction_simulator]: the batch runner.

    [PyTextFacts] and [ReFacts] hold the facts about text and about the
    matcher that the later modules share. *)

From Stdlib Require Import ZArith NArith List Lia Bool String Ascii DecimalN.
From Stdlib Require Import Floats Uint63.
From stdpp Require Import base gmap list.
Import ListNotations.

(** ** Python text *)

(** A Python [str] is a sequence of Unicode code points. *)
Abbreviation pystr := (list N).

Module PyText.

(** An ASCII literal of the sources, as code points. *)
Definition py (s : string) : pystr := map N_of_ascii (list_ascii_of_string s).

Arguments py : simpl never.

(** The newline character of the sources' string literals. *)
Definition nl : pystr := [10%N].

(** The tables of the Unicode character database that [str.lower], [re]'s
    [\s], [\d], [\w] and [int] consult.  They belong to the Python runtime,
    so every definition below takes them as a parameter. *)
Class Unicode := {
  str_lower : pystr -> pystr;
  isspace : N -> bool;
  isdecimal : N -> bool;
  decimal_value : N -> Z;
  isword : N -> bool
}.

(** [int(s)] on a string of decimal digits. *)
Definition int_of_digits `{Unicode} (s : pystr) : Z :=
  fold_left (fun acc c => (10 * acc + decimal_value c)%Z) s 0%Z.

(** [s.startswith(p)] *)
Fixpoint startswith (s p : pystr) : bool :=
  match p, s with
  | [], _ => true
  | c :: p', d :: s' => (c =? d)%N && startswith s' p'
  | _ :: _, [] => false
  end.

(** [sub in s] *)
Fixpoint contains (s sub : pystr) : bool :=
  startswith s sub ||
  match s with
  | [] => false
  | _ :: s' => contains s' sub
  end.

(** [sep.join(parts)] *)
Fixpoint join (sep : pystr) (parts : list pystr) : pystr :=
  match parts with
  | [] => []
  | [p] => p
  | p :: rest => p ++ sep ++ join sep rest
  end.

(** [str(n)] for a non-negative integer: its decimal digits. *)
Fixpoint uint_digits (d : Decimal.uint) : pystr :=
  match d with
  | Decimal.Nil => []
  | Decimal.D0 d' => 48%N :: uint_digits d'
  | Decimal.D1 d' => 49%N :: uint_digits d'
  | Decimal.D2 d' => 50%N :: uint_digits d'
  | Decimal.D3 d' => 51%N :: uint_digits d'
  | Decimal.D4 d' => 52%N :: uint_digits d'
  | Decimal.D5 d' => 53%N :: uint_digits d'
  | Decimal.D6 d' => 54%N :: uint_digits d'
  | Decimal.D7 d' => 55%N :: uint_digits d'
  | Decimal.D8 d' => 56%N :: uint_digits d'
  | Decimal.D9 d' => 57%N :: uint_digits d'
  end.

Definition str_of_N (n : N) : pystr := uint_digits (N.to_uint n).

(** [str(z)] for a Python [int]. *)
Definition str_of_Z (z : Z) : pystr :=
  if (z <? 0)%Z then 45%N :: str_of_N (Z.to_N (- z)) else str_of_N (Z.to_N z).

(** [repr] of a list of plain strings (no quote, backslash or control
    character inside), as an f-string prints the enumeration constants. *)
Definition repr_str_list (l : list pystr) : pystr :=
  py "[" ++ join (py ", ") (map (fun s => py "'" ++ s ++ py "'") l) ++ py "]".

(** The ASCII rows of the Unicode tables: what Python does on 7-bit text.
    Code points from 128 on are left caseless and classless here; the
    theorems never depend on this instance, only the worked examples do. *)
Definition ascii_lower_char (c : N) : N :=
  if (65 <=? c)%N && (c <=? 90)%N then (c + 32)%N else c.

Definition ascii_isspace (c : N) : bool :=
  ((9 <=? c)%N && (c <=? 13)%N) || ((28 <=? c)%N && (c <=? 32)%N).

Definition ascii_isdecimal (c : N) : bool := (48 <=? c)%N && (c <=? 57)%N.

Definition ascii_isword (c : N) : bool :=
  ascii_isdecimal c || ((65 <=? c)%N && (c <=? 90)%N)
  || ((97 <=? c)%N && (c <=? 122)%N) || (c =? 95)%N.

Definition ascii_tables : Unicode := {|
  str_lower := map ascii_lower_char;
  isspace := ascii_isspace;
  isdecimal := ascii_isdecimal;
  decimal_value := fun c => (Z.of_N c - 48)%Z;
  isword := ascii_isword
|}.

End PyText.
Import PyText.


(** ** Facts about Python text *)

Module PyTextFacts.

(** The character before a position that follows the text [s]. *)
Definition prev_after (pv : option N) (s : pystr) : option N :=
  foldl (fun _ c => Some c) pv s.

(** 7-bit text. *)
Definition is_ascii (s : pystr) : Prop := Forall (fun c => (c < 128)%N) s.

(** What the Unicode tables do on 7-bit characters: [str.lower] maps each
    of them by the ASCII rule wherever it stands, and the classes and digit
    values are the ASCII ones. *)
Class AsciiCompatible (U : Unicode) : Prop := {
  lower_ascii : forall a p b, is_ascii p ->
    exists a' b', str_lower (a ++ p ++ b) = a' ++ map ascii_lower_char p ++ b' /\
                  (a = [] -> a' = []) /\ (b = [] -> b' = []);
  isspace_ascii : forall c, (c < 128)%N -> isspace c = ascii_isspace c;
  isdecimal_ascii : forall c, (c < 128)%N -> isdecimal c = ascii_isdecimal c;
  decimal_value_ascii : forall c,
    ascii_isdecimal c = true -> decimal_value c = (Z.of_N c - 48)%Z
}.

Lemma ascii_tables_compatible : AsciiCompatible ascii_tables.
Proof.
  split; try done.
  intros a p b _. exists (map ascii_lower_char a), (map ascii_lower_char b).
  split_and!; [by rewrite <- !map_app|by intros ->..].
Qed.

Lemma startswith_spec (s p : pystr) :
  startswith s p = true <-> exists b, s = p ++ b.
Proof.
  revert s. induction p as [|c p IH]; intros [|d s]; simpl.
  - split; [intros _; by exists []|done].
  - split; [intros _; by exists (d :: s)|done].
  - split; [done|intros [b Hb]; discriminate].
  - rewrite andb_true_iff, N.eqb_eq, IH. split.
    + intros [-> [b ->]]. eauto.
    + intros [b [= -> ->]]. eauto.
Qed.

Lemma contains_spec (s sub : pystr) :
  contains s sub = true <-> exists a b, s = a ++ sub ++ b.
Proof.
  induction s as [|c s IH].
  - cbn [contains]. rewrite orb_false_r, startswith_spec. split.
    + intros [b Hb]. by exists [], b.
    + intros (a & b & Hab). destruct a; [by exists b|discriminate].
  - cbn [contains]. rewrite orb_true_iff, startswith_spec, IH. split.
    + intros [[b Hb]|(a & b & ->)]; [by exists [], b|by exists (c :: a), b].
    + intros ([|d a] & b & Hab); [left; by exists b|].
      injection Hab as -> ->. right. eauto.
Qed.

(** The decimal digits of a score in [[0,100]]: one to three ASCII digits
    that read back as the score. *)
Lemma score_digits (z : Z) :
  (0 <= z <= 100)%Z ->
  Forall (fun c => ascii_isdecimal c = true) (str_of_Z z) /\
  (1 <= length (str_of_Z z) <= 3)%nat /\
  @int_of_digits ascii_tables (str_of_Z z) = z.
Proof.
  intros Hz.
  assert (Hall : forallb (fun n =>
            let s := str_of_Z (Z.of_nat n) in
            forallb ascii_isdecimal s && (1 <=? length s)%nat && (length s <=? 3)%nat
            && (@int_of_digits ascii_tables s =? Z.of_nat n)%Z) (List.seq 0 101) = true)
    by (vm_compute; reflexivity).
  rewrite forallb_forall in Hall.
  specialize (Hall (Z.to_nat z)). rewrite Z2Nat.id in Hall by lia.
  cbn zeta in Hall.
  rewrite !andb_true_iff, forallb_forall, Z.eqb_eq, !Nat.leb_le in Hall.
  destruct Hall as [[[Hd ?] ?] ?]; [apply in_seq; lia|].
  split_and!; try done. apply List.Forall_forall, Hd.
Qed.

Lemma int_of_digits_ascii {U : Unicode} `{!AsciiCompatible U} (s : pystr) :
  Forall (fun c => ascii_isdecimal c = true) s ->
  @int_of_digits U s = @int_of_digits ascii_tables s.
Proof.
  unfold int_of_digits. generalize 0%Z.
  induction s as [|c s IH]; intros acc Hs; [done|].
  apply Forall_cons in Hs as [Hc Hs]. simpl.
  rewrite (decimal_value_ascii c Hc). by apply IH.
Qed.

Lemma digit_is_ascii (c : N) : ascii_isdecimal c = true -> (c < 128)%N.
Proof. unfold ascii_isdecimal. rewrite andb_true_iff, !N.leb_le. lia. Qed.

Lemma digit_lower (s : pystr) :
  Forall (fun c => ascii_isdecimal c = true) s -> map ascii_lower_char s = s.
Proof.
  induction 1 as [|c s Hc _ IH]; [done|]. simpl. rewrite IH. f_equal.
  unfold ascii_isdecimal in Hc. unfold ascii_lower_char.
  apply andb_true_iff in Hc as [H1%N.leb_le H2%N.leb_le].
  replace (65 <=? c)%N with false by (symmetry; apply N.leb_gt; lia). done.
Qed.

End PyTextFacts.

(** ** Exceptions *)

(** A computation that either raises [Exception(msg)] or returns a value. *)
Definition Exc (A : Type) : Type := pystr + A.

Definition exc_bind {A B} (c : Exc A) (k : A -> Exc B) : Exc B :=
  match c with
  | inl e => inl e
  | inr a => k a
  end.

(** [try: body except Exception as e: handler(str(e))] *)
Definition exc_try {A} (body : Exc A) (handler : pystr -> Exc A) : Exc A :=
  match body with
  | inl e => handler e
  | inr a => inr a
  end.

(** ** The fragment of [re] used by the sources *)

Module Re.

(** Character sets: a literal character, [\s], [\d], and unions of these
    (the bracket expression [[:\s]]). *)
Inductive cset :=
| Chr (c : N)
| Space
| Digit
| Union (a b : cset).

Fixpoint cset_mem `{Unicode} (cs : cset) (c : N) : bool :=
  match cs with
  | Chr d => (c =? d)%N
  | Space => isspace c
  | Digit => isdecimal c
  | Union a b => cset_mem a c || cset_mem b c
  end.

(** Patterns.  Every quantifier of the sources' patterns applies to a single
    character set, so [Star] and [Repeat] take one; all are greedy. *)
Inductive regex :=
| Lit (s : pystr)
| Star (cs : cset)
| Repeat (cs : cset) (lo hi : nat)
| Seq (r1 r2 : regex)
| Alt (r1 r2 : regex)
| Opt (r : regex)
| Group (n : nat) (r : regex)
| WordBoundary.

(** The groups of a match object, most recent binding first. *)
Abbreviation groups_t := (list (nat * pystr)).

(** A position in the subject: the character before it (for [\b]), the text
    from it on, and the groups bound so far. *)
Record cursor := Cursor {
  prev : option N;
  rest : pystr;
  groups : groups_t
}.

Fixpoint lit_match (s : pystr) (pv : option N) (t : pystr) : option (option N * pystr) :=
  match s with
  | [] => Some (pv, t)
  | c :: s' =>
      match t with
      | d :: t' => if (c =? d)%N then lit_match s' (Some d) t' else None
      | [] => None
      end
  end.

(** [cs*]: take as many characters as possible, give one back at a time when
    the continuation fails. *)
Fixpoint star_match {R} (p : N -> bool) (pv : option N) (t : pystr)
    (k : option N -> pystr -> option R) : option R :=
  match t with
  | c :: t' =>
      if p c then
        match star_match p (Some c) t' k with
        | Some r => Some r
        | None => k pv t
        end
      else k pv t
  | [] => k pv []
  end.

(** [cs{lo,hi}] *)
Fixpoint repeat_match {R} (p : N -> bool) (lo hi : nat) (pv : option N) (t : pystr)
    (k : option N -> pystr -> option R) : option R :=
  let stop := match lo with O => k pv t | S _ => None end in
  match hi with
  | O => stop
  | S hi' =>
      match t with
      | c :: t' =>
          if p c then
            match repeat_match p (Nat.pred lo) hi' (Some c) t' k with
            | Some r => Some r
            | None => stop
            end
          else stop
      | [] => stop
      end
  end.

Definition opt_isword `{Unicode} (c : option N) : bool :=
  match c with
  | Some c => isword c
  | None => false
  end.

(** The text between two positions of the same subject. *)
Definition consumed (from to : cursor) : pystr :=
  take (length (rest from) - length (rest to)) (rest from).

(** The backtracking matcher, in continuation-passing style: [rmatch r cur k]
    tries the ways [r] matches at [cur] in the engine's priority order and
    returns the first for which the continuation [k] succeeds. *)
Fixpoint rmatch `{Unicode} {R} (r : regex) (cur : cursor) (k : cursor -> option R) : option R :=
  match r with
  | Lit s =>
      match lit_match s (prev cur) (rest cur) with
      | Some (pv, t) => k (Cursor pv t (groups cur))
      | None => None
      end
  | Star cs =>
      star_match (cset_mem cs) (prev cur) (rest cur)
        (fun pv t => k (Cursor pv t (groups cur)))
  | Repeat cs lo hi =>
      repeat_match (cset_mem cs) lo hi (prev cur) (rest cur)
        (fun pv t => k (Cursor pv t (groups cur)))
  | Seq r1 r2 => rmatch r1 cur (fun c1 => rmatch r2 c1 k)
  | Alt r1 r2 =>
      match rmatch r1 cur k with
      | Some x => Some x
      | None => rmatch r2 cur k
      end
  | Opt r' =>
      match rmatch r' cur k with
      | Some x => Some x
      | None => k cur
      end
  | Group n r' =>
      rmatch r' cur
        (fun c1 => k (Cursor (prev c1) (rest c1) ((n, consumed cur c1) :: groups c1)))
  | WordBoundary =>
      if xorb (opt_isword (prev cur)) (opt_isword (head (rest cur)))
      then k cur else None
  end.

(** [re.search(pattern, text)]: the match at the leftmost position that has
    one, [None] when no position has. *)
Fixpoint search_from `{Unicode} (r : regex) (pv : option N) (t : pystr) : option groups_t :=
  match rmatch r (Cursor pv t []) (fun c => Some (groups c)) with
  | Some g => Some g
  | None =>
      match t with
      | [] => None
      | c :: t' => search_from r (Some c) t'
      end
  end.

Definition search `{Unicode} (r : regex) (text : pystr) : option groups_t :=
  search_from r None text.

(** [match.group(n)]; [None] when the group took no part in the match. *)
Fixpoint group (m : groups_t) (n : nat) : option pystr :=
  match m with
  | [] => None
  | (i, s) :: m' => if Nat.eqb i n then Some s else group m' n
  end.

(** Pattern syntax helpers. *)
Definition lit (s : string) : regex := Lit (py s).
Definition spaces : regex := Star Space.
Definition colon_or_space : cset := Union (Chr 58%N) Space.
Definition digits_1_3 : regex := Group 1 (Repeat Digit 1 3).

Fixpoint seq (rs : list regex) : regex :=
  match rs with
  | [] => Lit []
  | [r] => r
  | r :: rs' => Seq r (seq rs')
  end.

(** *** Which groups a successful match has bound *)

(** [always_binds n r]: every way [r] can match binds group [n]. *)
Fixpoint always_binds (n : nat) (r : regex) : bool :=
  match r with
  | Group i r' => Nat.eqb i n || always_binds n r'
  | Seq r1 r2 => always_binds n r1 || always_binds n r2
  | Alt r1 r2 => always_binds n r1 && always_binds n r2
  | Lit _ | Star _ | Repeat _ _ _ | Opt _ | WordBoundary => false
  end.

Lemma star_match_inv {R} p pv t (k : option N -> pystr -> option R) x :
  star_match p pv t k = Some x -> exists pv' t', k pv' t' = Some x.
Proof.
  revert pv. induction t as [|c t IH]; intros pv; simpl.
  - eauto.
  - destruct (p c); [|eauto].
    destruct (star_match p (Some c) t k) eqn:E; [|eauto].
    intros [= ->]. eauto.
Qed.

Lemma repeat_match_inv {R} p lo hi pv t (k : option N -> pystr -> option R) x :
  repeat_match p lo hi pv t k = Some x -> exists pv' t', k pv' t' = Some x.
Proof.
  revert lo pv t. induction hi as [|hi IH]; intros lo pv t; simpl.
  - destruct lo; [eauto | discriminate].
  - assert (Hstop : match lo with O => k pv t | S _ => None end = Some x ->
                    exists pv' t', k pv' t' = Some x)
      by (destruct lo; [eauto | discriminate]).
    destruct t as [|c t]; [exact Hstop|].
    destruct (p c); [|exact Hstop].
    destruct (repeat_match p (Nat.pred lo) hi (Some c) t k) eqn:E; [|exact Hstop].
    intros [= ->]. eauto.
Qed.

Section Binding.
Context `{Unicode}.

(** A successful [rmatch] ends in a successful call of its continuation, at a
    cursor where group [n] is bound if it was bound before or [r] always
    binds it. *)
Lemma rmatch_binds {R} n r : forall cur (k : cursor -> option R) x,
  rmatch r cur k = Some x ->
  exists c', k c' = Some x /\
    (is_Some (group (groups cur) n) \/ always_binds n r = true ->
     is_Some (group (groups c') n)).
Proof.
  induction r as [s|cs|cs lo hi|r1 IH1 r2 IH2|r1 IH1 r2 IH2|r IH|i r IH|];
    intros cur k x; simpl.
  - destruct (lit_match s (prev cur) (rest cur)) as [[pv t]|]; [|discriminate].
    intros Hk. eexists; split; [exact Hk|]. simpl. intros [?|?]; [done|discriminate].
  - intros (pv & t & Hk)%star_match_inv.
    eexists; split; [exact Hk|]. simpl. intros [?|?]; [done|discriminate].
  - intros (pv & t & Hk)%repeat_match_inv.
    eexists; split; [exact Hk|]. simpl. intros [?|?]; [done|discriminate].
  - intros (c1 & (c2 & Hk & H2)%IH2 & H1)%IH1.
    exists c2; split; [exact Hk|].
    intros [Hb|Hb]; apply H2; [left; apply H1; by left|].
    apply orb_true_iff in Hb as [Hb|Hb]; [left; apply H1; by right | by right].
  - destruct (rmatch r1 cur k) eqn:E1.
    + intros [= ->]. apply IH1 in E1 as (c' & Hk & Hc). exists c'; split; [done|].
      intros [?|[??]%andb_true_iff]; apply Hc; auto.
    + intros (c' & Hk & Hc)%IH2. exists c'; split; [done|].
      intros [?|[??]%andb_true_iff]; apply Hc; auto.
  - destruct (rmatch r cur k) eqn:E1.
    + intros [= ->]. apply IH in E1 as (c' & Hk & Hc). exists c'; split; [done|].
      intros [?|?]; [apply Hc; auto | discriminate].
    + intros Hk. exists cur; split; [done|]. intros [?|?]; [done|discriminate].
  - intros (c1 & Hk & Hc)%IH. eexists; split; [exact Hk|]. simpl.
    intros Hb. destruct (Nat.eqb i n) eqn:Ei; [by eexists|].
    apply Hc. destruct Hb as [?|Hb]; [by left | by right].
  - destruct (xorb _ _); [|discriminate].
    intros Hk. exists cur; split; [done|]. intros [?|?]; [done|discriminate].
Qed.

Lemma search_from_binds n r pv t m :
  always_binds n r = true -> search_from r pv t = Some m -> is_Some (group m n).
Proof.
  intros Hb. revert pv. induction t as [|c t IH]; intros pv; simpl.
  - destruct (rmatch r _ _) eqn:E; [|discriminate].
    intros [= ->]. apply (rmatch_binds n) in E as (c' & [= <-] & Hc). auto.
  - destruct (rmatch r _ _) eqn:E; [|by apply IH].
    intros [= ->]. apply (rmatch_binds n) in E as (c' & [= <-] & Hc). auto.
Qed.

Lemma search_binds n r text m :
  always_binds n r = true -> search r text = Some m -> is_Some (group m n).
Proof. apply search_from_binds. Qed.

End Binding.

End Re.

(** ** [workflows/workflow.py]: parsing the risk score *)

Module risk_score.

Import Re.

(** The six patterns of [RiskAnalyserAgentExecutor.handle], most specific
    first. *)

(** [risk\s*score[:\s]*(\d{1,3})(?:\s*/\s*100)?] *)
Definition pat_risk_score : regex :=
  seq [lit "risk"; spaces; lit "score"; Star colon_or_space; digits_1_3;
       Opt (seq [spaces; lit "/"; spaces; lit "100"])].

(** [score[:\s]*(\d{1,3})\s*/\s*100] *)
Definition pat_score_of_100 : regex :=
  seq [lit "score"; Star colon_or_space; digits_1_3; spaces; lit "/"; spaces; lit "100"].

(** [(\d{1,3})\s*(?:out of|/)\s*100] *)
Definition pat_out_of_100 : regex :=
  seq [digits_1_3; spaces; Alt (lit "out of") (lit "/"); spaces; lit "100"].

(** [\*\*risk[:\s]*(\d{1,3})\*\*] *)
Definition pat_bold_risk : regex :=
  seq [lit "**risk"; Star colon_or_space; digits_1_3; lit "**"].

(** [overall\s*risk[:\s]*(\d{1,3})] *)
Definition pat_overall_risk : regex :=
  seq [lit "overall"; spaces; lit "risk"; Star colon_or_space; digits_1_3].

(** [assessment[:\s]*(\d{1,3})] *)
Definition pat_assessment : regex :=
  seq [lit "assessment"; Star colon_or_space; digits_1_3].

Definition patterns : list regex :=
  [pat_risk_score; pat_score_of_100; pat_out_of_100; pat_bold_risk;
   pat_overall_risk; pat_assessment].

(** The fallback patterns [\b(high|critical|severe)\s*(risk)?],
    [\b(medium|moderate)\s*(risk)?] and [\b(low|minimal)\s*(risk)?]. *)
Definition keyword_pattern (words : regex) : regex :=
  seq [WordBoundary; Group 1 words; spaces; Opt (Group 2 (lit "risk"))].

Definition pat_high : regex :=
  keyword_pattern (Alt (lit "high") (Alt (lit "critical") (lit "severe"))).
Definition pat_medium : regex :=
  keyword_pattern (Alt (lit "medium") (lit "moderate")).
Definition pat_low : regex :=
  keyword_pattern (Alt (lit "low") (lit "minimal")).

Section Parse.
Context `{Unicode}.

(** [int(match.group(1))]; [int(None)] raises [TypeError]. *)
Definition int_group1 (m : groups_t) : Exc Z :=
  match group m 1 with
  | Some g => inr (int_of_digits g)
  | None => inl (py "int() argument must be a string, a bytes-like object or a real number, not 'NoneType'")
  end.

(** The [for pattern in patterns] loop on the lowercased reply: the result
    is [risk_score] after the loop, [None] when no iteration reached
    [break]. *)
Fixpoint score_loop (ps : list regex) (lowered : pystr) : Exc (option Z) :=
  match ps with
  | [] => inr None
  | pattern :: ps' =>
      match search pattern lowered with
      | Some m =>
          exc_bind (int_group1 m) (fun score =>
            if (0 <=? score)%Z && (score <=? 100)%Z
            then inr (Some score)
            else score_loop ps' lowered)
      | None => score_loop ps' lowered
      end
  end.

Definition matches (r : regex) (lowered : pystr) : bool :=
  match search r lowered with
  | Some _ => true
  | None => false
  end.

(** The fallback [if]/[elif] chain on the risk-level words. *)
Definition keyword_score (lowered : pystr) : Z :=
  if matches pat_high lowered then 85%Z
  else if matches pat_medium lowered then 55%Z
  else if matches pat_low lowered then 25%Z
  else 50%Z.

(** Lines 283-311: the risk score read off the reply [risk_analysis]. *)
Definition parse_risk_score (risk_analysis : pystr) : Exc Z :=
  exc_bind (score_loop patterns (str_lower risk_analysis)) (fun risk_score =>
    match risk_score with
    | Some score => inr score
    | None => inr (keyword_score (str_lower risk_analysis))
    end).

End Parse.

(** *** The parser never raises and returns the first valid capture *)

Section ParseFacts.
Context `{Unicode}.

(** Pattern [p] yields the integer [s]: its leftmost match on the lowercased
    reply captures, in group 1, digits that read as [s], and [s] lies in
    [[0,100]]. *)
Definition yields (lowered : pystr) (p : regex) (s : Z) : Prop :=
  exists m g, search p lowered = Some m /\ group m 1 = Some g /\
    s = int_of_digits g /\ (0 <= s <= 100)%Z.

Lemma patterns_bind_group1 : Forall (fun p => always_binds 1 p = true) patterns.
Proof. repeat constructor. Qed.

Lemma in_range_reflect (s : Z) :
  (0 <=? s)%Z && (s <=? 100)%Z = true <-> (0 <= s <= 100)%Z.
Proof. rewrite andb_true_iff, !Z.leb_le. tauto. Qed.

Lemma score_loop_spec (ps : list regex) (lowered : pystr) :
  Forall (fun p => always_binds 1 p = true) ps ->
  match score_loop ps lowered with
  | inr (Some s) =>
      exists i p, ps !! i = Some p /\ yields lowered p s /\
        forall j q s', (j < i)%nat -> ps !! j = Some q -> ~ yields lowered q s'
  | inr None => forall q s', q ∈ ps -> ~ yields lowered q s'
  | inl _ => False
  end.
Proof.
  induction 1 as [|p ps Hp Hps IH]; simpl.
  - intros q s' Hq. by apply elem_of_nil in Hq.
  - assert (Hskip : (forall s', ~ yields lowered p s') ->
      match score_loop ps lowered with
      | inr (Some s) =>
          exists i p0, (p :: ps) !! i = Some p0 /\ yields lowered p0 s /\
            forall j q s', (j < i)%nat -> (p :: ps) !! j = Some q -> ~ yields lowered q s'
      | inr None => forall q s', q ∈ p :: ps -> ~ yields lowered q s'
      | inl _ => False
      end).
    { intros Hno. destruct (score_loop ps lowered) as [e|[s|]]; [done| |].
      - destruct IH as (i & p0 & Hi & Hy & Hbefore).
        exists (S i), p0. repeat split; [done..|].
        intros [|j] q s' Hj Hq; simpl in Hq; [injection Hq as <-; apply Hno|].
        apply (Hbefore j); [lia|done].
      - intros q s' [->|Hq]%elem_of_cons; [apply Hno | by apply IH]. }
    destruct (search p lowered) as [m|] eqn:Hm.
    + destruct (search_binds 1 p lowered m Hp Hm) as [g Hg].
      unfold int_group1. rewrite Hg. simpl.
      destruct ((0 <=? int_of_digits g)%Z && (int_of_digits g <=? 100)%Z) eqn:Hr.
      * apply in_range_reflect in Hr.
        exists 0%nat, p. repeat split; [by exists m, g|]. intros j ? ? Hj. lia.
      * apply Hskip. intros s' (m' & g' & Hm' & Hg' & -> & Hs').
        rewrite Hm in Hm'. injection Hm' as <-. rewrite Hg in Hg'. injection Hg' as <-.
        apply in_range_reflect in Hs'. congruence.
    + apply Hskip. intros s' (m' & ? & Hm' & _). congruence.
Qed.


(** The six patterns, in the order the loop tries them. *)
Lemma patterns_listed_order :
  patterns = [pat_risk_score; pat_score_of_100; pat_out_of_100; pat_bold_risk;
              pat_overall_risk; pat_assessment].
Proof. reflexivity. Qed.

(** The parser always returns, and what it returns lies in [[0,100]]. *)
Lemma parse_risk_score_in_range (text : pystr) :
  exists s, parse_risk_score text = inr s /\ (0 <= s <= 100)%Z.
Proof.
  unfold parse_risk_score.
  pose proof (score_loop_spec patterns (str_lower text) patterns_bind_group1) as Hloop.
  destruct (score_loop patterns (str_lower text)) as [e|[s|]]; [done| |]; simpl.
  - destruct Hloop as (i & p & _ & (m & g & _ & _ & _ & Hr) & _). eauto.
  - eexists; split; [reflexivity|]. unfold keyword_score.
    repeat case_match; lia.
Qed.

End ParseFacts.

(** The comment of each pattern in the source gives a sample reply; on the
    ASCII tables every sample parses to the score it shows. *)
Example parse_samples :
  map (@parse_risk_score ascii_tables)
    [py "Risk Score: 75"; py "Risk Score: 75/100"; py "Score: 75/100";
     py "75 out of 100"; py "75/100"; py "**Risk: 75**"; py "Overall Risk: 75";
     py "Assessment: 75"]
  = repeat (inr 75%Z) 8.
Proof. reflexivity. Qed.

(** A capture above 100 is skipped; later patterns and then the keyword
    fallback decide. *)
Example parse_out_of_range :
  map (@parse_risk_score ascii_tables)
    [py "Risk Score: 150"; py "Risk Score: 150. HIGH risk"; py "moderate";
     py "minimal risk"; py "no signal"]
  = [inr 50%Z; inr 85%Z; inr 55%Z; inr 25%Z; inr 50%Z].
Proof. reflexivity. Qed.

End risk_score.


(** ** Facts about the matcher *)

Module ReFacts.

Import Re PyTextFacts risk_score.

(** *** Greedy quantifiers *)

(** A star that can take exactly the characters [xs] and whose continuation
    then succeeds gives that success. *)
Lemma star_match_greedy {R} (p : N -> bool) pv (xs t : pystr)
    (k : option N -> pystr -> option R) (r : R) :
  Forall (fun c => p c = true) xs ->
  match t with c :: _ => p c = false | [] => True end ->
  k (prev_after pv xs) t = Some r ->
  star_match p pv (xs ++ t) k = Some r.
Proof.
  intros Hxs Ht. revert pv. induction Hxs as [|x xs Hx _ IH]; intros pv Hk; simpl.
  - destruct t as [|c t]; simpl; [done|]. by rewrite Ht.
  - rewrite Hx. by rewrite IH.
Qed.

(** The same for a bounded repetition: it stops at the bound or at the first
    character outside the set. *)
Lemma repeat_match_greedy {R} (p : N -> bool) (xs t : pystr)
    (k : option N -> pystr -> option R) (r : R) :
  Forall (fun c => p c = true) xs ->
  forall lo hi pv,
  (lo <= length xs <= hi)%nat ->
  (length xs < hi -> match t with c :: _ => p c = false | [] => True end)%nat ->
  k (prev_after pv xs) t = Some r ->
  repeat_match p lo hi pv (xs ++ t) k = Some r.
Proof.
  induction 1 as [|x xs Hx _ IH]; intros lo hi pv Hlen Ht Hk.
  - simpl in Hlen. assert (lo = 0)%nat as -> by lia. simpl in Hk.
    destruct hi as [|hi]; simpl; [done|].
    destruct t as [|c t]; [done|]. rewrite Ht by (simpl; lia). done.
  - simpl in Hlen. destruct hi as [|hi]; [lia|]. simpl. rewrite Hx.
    rewrite (IH (Nat.pred lo) hi (Some x)); [done|lia| |done].
    intros Hlt. apply Ht. simpl. lia.
Qed.

Lemma consumed_app pv pv' g g' (xs t : pystr) :
  consumed (Cursor pv (xs ++ t) g) (Cursor pv' t g') = xs.
Proof.
  unfold consumed. simpl. rewrite length_app, Nat.add_sub. by rewrite take_app_length.
Qed.

(** *** Matching a pattern part by part *)

(** A pattern without capture groups. *)
Fixpoint group_free (r : regex) : bool :=
  match r with
  | Group _ _ => false
  | Seq r1 r2 | Alt r1 r2 => group_free r1 && group_free r2
  | Opt r' => group_free r'
  | Lit _ | Star _ | Repeat _ _ _ | WordBoundary => true
  end.

Section Takes.
Context {U : Unicode}.

(** [takes r pv xs t gs]: at a position after [pv] and before [xs ++ t], the
    first way the engine matches [r] whose continuation succeeds is the one
    that takes [xs] and binds the groups [gs]. *)
Definition takes (r : regex) (pv : option N) (xs t : pystr) (gs : groups_t) : Prop :=
  forall R (k : cursor -> option R) g x,
    k (Cursor (prev_after pv xs) t (gs ++ g)) = Some x ->
    rmatch r (Cursor pv (xs ++ t) g) k = Some x.

(** [finishes r pv t gs]: as the last part of a pattern, [r] matches at the
    position before [t] and binds the groups [gs]. *)
Definition finishes (r : regex) (pv : option N) (t : pystr) (gs : groups_t) : Prop :=
  forall g, rmatch r (Cursor pv t g) (fun c => Some (groups c)) = Some (gs ++ g).

Lemma prev_after_app pv xs ys :
  prev_after pv (xs ++ ys) = prev_after (prev_after pv xs) ys.
Proof. apply foldl_app. Qed.

Lemma takes_lit s pv t : takes (Lit s) pv s t [].
Proof.
  intros R k g x Hk. simpl.
  assert (Hl : lit_match s pv (s ++ t) = Some (prev_after pv s, t)).
  { clear. revert pv. induction s as [|c s IH]; intros pv; simpl; [done|].
    by rewrite N.eqb_refl, IH. }
  by rewrite Hl.
Qed.

Lemma takes_star cs pv xs t :
  Forall (fun c => cset_mem cs c = true) xs ->
  match t with c :: _ => cset_mem cs c = false | [] => True end ->
  takes (Star cs) pv xs t [].
Proof. intros Hxs Ht R k g x Hk. simpl. by apply star_match_greedy. Qed.

Lemma takes_repeat cs lo hi pv xs t :
  Forall (fun c => cset_mem cs c = true) xs ->
  (lo <= length xs <= hi)%nat ->
  (length xs < hi -> match t with c :: _ => cset_mem cs c = false | [] => True end)%nat ->
  takes (Repeat cs lo hi) pv xs t [].
Proof. intros Hxs Hlen Ht R k g x Hk. simpl. by apply repeat_match_greedy. Qed.

Lemma takes_seq r1 r2 pv xs ys t g1 g2 :
  takes r1 pv xs (ys ++ t) g1 ->
  takes r2 (prev_after pv xs) ys t g2 ->
  takes (Seq r1 r2) pv (xs ++ ys) t (g2 ++ g1).
Proof.
  intros H1 H2 R k g x Hk. simpl. rewrite <- app_assoc. apply H1. apply H2.
  by rewrite <- prev_after_app, app_assoc.
Qed.

Lemma takes_group n r pv xs t gs :
  takes r pv xs t gs -> takes (Group n r) pv xs t ((n, xs) :: gs).
Proof.
  intros Hr R k g x Hk. simpl. apply Hr. simpl. by rewrite consumed_app.
Qed.

Lemma finishes_seq r1 r2 pv xs t g1 g2 :
  takes r1 pv xs t g1 ->
  finishes r2 (prev_after pv xs) t g2 ->
  finishes (Seq r1 r2) pv (xs ++ t) (g2 ++ g1).
Proof. intros H1 H2 g. simpl. apply H1. by rewrite H2, app_assoc. Qed.

(** A successful match of a group-free pattern leaves the groups as they
    were. *)
Lemma rmatch_group_free {R} r :
  group_free r = true ->
  forall cur (k : cursor -> option R) x,
    rmatch r cur k = Some x -> exists c', k c' = Some x /\ groups c' = groups cur.
Proof.
  induction r as [s|cs|cs lo hi|r1 IH1 r2 IH2|r1 IH1 r2 IH2|r IH|i r IH|];
    intros Hfree cur k x; simpl in *.
  - destruct (lit_match s (prev cur) (rest cur)) as [[pv t]|]; [|discriminate]. eauto.
  - intros (pv & t & Hk)%star_match_inv. eauto.
  - intros (pv & t & Hk)%repeat_match_inv. eauto.
  - apply andb_true_iff in Hfree as [F1 F2].
    intros (c1 & (c2 & Hk & G2)%IH2 & G1)%IH1; [|done..].
    exists c2. split; [done|congruence].
  - apply andb_true_iff in Hfree as [F1 F2].
    destruct (rmatch r1 cur k) eqn:E1.
    + intros [= ->]. by apply IH1 in E1.
    + by apply IH2.
  - destruct (rmatch r cur k) eqn:E1.
    + intros [= ->]. by apply IH in E1.
    + eauto.
  - discriminate.
  - destruct (xorb _ _); [|discriminate]. eauto.
Qed.

(** An optional group-free tail binds nothing, whether or not it matches. *)
Lemma finishes_opt r pv t : group_free r = true -> finishes (Opt r) pv t [].
Proof.
  intros Hfree g. simpl.
  destruct (rmatch r _ _) as [x|] eqn:E; [|done].
  apply (rmatch_group_free r Hfree) in E as (c' & [= <-] & ->). done.
Qed.

(** A pattern that matches at the start of the text is found there. *)
Lemma finishes_search r t gs gs' :
  finishes r None t gs -> gs = gs' -> search r t = Some gs'.
Proof.
  intros Hr <-. unfold search.
  assert (Hm : rmatch r (Cursor None t []) (fun c => Some (groups c)) = Some gs)
    by (by rewrite Hr, app_nil_r).
  destruct t; simpl; by rewrite Hm.
Qed.

End Takes.

Ltac eval_py :=
  repeat match goal with
         | |- context [py ?s] => let x := eval vm_compute in (py s) in change (py s) with x
         end.

(** Decide the class of a 7-bit character at the head of a text. *)
Ltac class_fact :=
  eval_py; cbn [app cset_mem colon_or_space];
  rewrite ?isspace_ascii, ?isdecimal_ascii by done; done.

Section Score.
Context {U : Unicode} `{!AsciiCompatible U}.

Lemma digit_class (c : N) :
  ascii_isdecimal c = true ->
  cset_mem Digit c = true /\ cset_mem colon_or_space c = false /\ cset_mem Space c = false.
Proof.
  intros Hc. pose proof (digit_is_ascii c Hc) as Ha. simpl.
  rewrite (isdecimal_ascii c Ha), (isspace_ascii c Ha), Hc.
  unfold ascii_isdecimal in Hc. apply andb_true_iff in Hc as [H1%N.leb_le H2%N.leb_le].
  unfold ascii_isspace.
  replace (c =? 58)%N with false by (symmetry; apply N.eqb_neq; lia).
  replace (c <=? 13)%N with false by (symmetry; apply N.leb_gt; lia).
  replace (28 <=? c)%N with true by (symmetry; apply N.leb_le; lia).
  replace (c <=? 32)%N with false by (symmetry; apply N.leb_gt; lia).
  by rewrite andb_false_r.
Qed.

(** What may follow the digits of a score: nothing, or a 7-bit character
    that is no digit. *)
Definition ends_number (tail : pystr) : Prop :=
  match tail with
  | [] => True
  | c :: _ => (c < 128)%N /\ ascii_isdecimal c = false
  end.

(** On a lowered text that opens with ["risk score: "] and one to three
    digits, the first pattern matches at the start and captures the
    digits. *)
Lemma search_risk_score_line (ds tail : pystr) :
  Forall (fun c => ascii_isdecimal c = true) ds -> (1 <= length ds <= 3)%nat ->
  match tail with c :: _ => cset_mem Digit c = false | [] => True end ->
  search pat_risk_score (py "risk score: " ++ ds ++ tail) = Some [(1%nat, ds)].
Proof.
  intros Hds Hlen Htail.
  replace (py "risk score: " ++ ds ++ tail)
    with (py "risk" ++ ([32%N] ++ (py "score" ++ ([58%N; 32%N] ++ (ds ++ tail)))))
    by reflexivity.
  eapply finishes_search.
  - unfold pat_risk_score, seq, lit, spaces, digits_1_3.
    eapply finishes_seq; [apply takes_lit|].
    eapply finishes_seq; [apply takes_star; [repeat constructor|]; class_fact|].
    eapply finishes_seq; [apply takes_lit|].
    eapply finishes_seq.
    { apply takes_star; [repeat constructor; class_fact|].
      destruct ds as [|d ds']; [simpl in Hlen; lia|]. cbn [app].
      apply Forall_cons in Hds as [Hd _]. by apply digit_class. }
    eapply finishes_seq.
    { apply takes_group, takes_repeat; [|done|by intros _].
      eapply Forall_impl; [exact Hds|]. intros c Hc. by apply digit_class. }
    by apply finishes_opt.
  - reflexivity.
Qed.

(** A reply that opens with ["Risk Score: "], in any case, and the digits of
    a score in [[0,100]] parses to that score, whatever follows the number. *)
Lemma parse_leading_score (label tail : pystr) (z : Z) :
  is_ascii label -> map ascii_lower_char label = py "risk score: " ->
  (0 <= z <= 100)%Z -> ends_number tail ->
  parse_risk_score (label ++ str_of_Z z ++ tail) = inr z.
Proof.
  intros Hlabel Hlow Hz Htail. destruct (score_digits z Hz) as (Hds & Hlen & Hint).
  assert (Hdigits : is_ascii (str_of_Z z))
    by (eapply Forall_impl; [exact Hds|]; apply digit_is_ascii).
  assert (exists tail', str_lower (label ++ str_of_Z z ++ tail)
            = py "risk score: " ++ str_of_Z z ++ tail' /\
            match tail' with c :: _ => cset_mem Digit c = false | [] => True end)
    as (tail' & Hlowered & Htail').
  { destruct tail as [|c tail].
    - destruct (lower_ascii [] (label ++ str_of_Z z) []) as (a' & b' & Hl & Ha & Hb).
      { by apply Forall_app. }
      rewrite (Ha eq_refl), (Hb eq_refl), !app_nil_r in Hl. cbn [app] in Hl.
      exists []. by rewrite app_nil_r, Hl, map_app, Hlow, (digit_lower _ Hds).
    - destruct Htail as [Hc Hnot].
      destruct (lower_ascii [] (label ++ str_of_Z z ++ [c]) tail)
        as (a' & b' & Hl & Ha & _).
      { unfold is_ascii. rewrite !Forall_app. split_and!; [done..|]. by constructor. }
      rewrite (Ha eq_refl) in Hl. cbn [app] in Hl.
      rewrite <- !app_assoc in Hl. cbn [app] in Hl.
      exists (ascii_lower_char c :: b').
      rewrite Hl, !map_app, Hlow, (digit_lower _ Hds), <- !app_assoc. split; [done|].
      unfold ascii_lower_char. simpl.
      assert (Hlc : ((if (65 <=? c)%N && (c <=? 90)%N then c + 32 else c) < 128)%N).
      { destruct ((65 <=? c)%N && (c <=? 90)%N) eqn:E; [|done].
        apply andb_true_iff in E as [_ E%N.leb_le]. lia. }
      rewrite (isdecimal_ascii _ Hlc). unfold ascii_isdecimal in *.
      destruct ((65 <=? c)%N && (c <=? 90)%N) eqn:E; [|done].
      apply andb_true_iff in E as [E1%N.leb_le E2%N.leb_le].
      replace (c + 32 <=? 57)%N with false by (symmetry; apply N.leb_gt; lia).
      apply andb_false_r. }
  unfold parse_risk_score. rewrite Hlowered.
  cbn [patterns score_loop]. rewrite (search_risk_score_line _ _ Hds Hlen Htail').
  unfold int_group1. cbn [group Nat.eqb exc_bind].
  rewrite (int_of_digits_ascii _ Hds), Hint.
  by rewrite (proj2 (in_range_reflect z) Hz).
Qed.

End Score.

End ReFacts.


(** ** Python numbers *)

Module PyNum.

(** [float(z)] for a Python [int] below 2^63 in magnitude (exact below 2^53,
    which covers every integer the sources convert). *)
Definition float_of_int (z : Z) : float :=
  if (z <? 0)%Z then PrimFloat.opp (PrimFloat.of_uint63 (Uint63.of_Z (- z)))
  else PrimFloat.of_uint63 (Uint63.of_Z z).

(** [a / b] on two Python [int]s: the correctly rounded quotient. *)
Definition int_truediv (a b : Z) : float :=
  PrimFloat.div (float_of_int a) (float_of_int b).

(** [bool(x)] for a float: false on [0.0] and [-0.0] only. *)
Definition float_truthy (x : float) : bool := negb (PrimFloat.eqb x 0%float).

(** [x >= y] *)
Definition float_ge (x y : float) : bool := PrimFloat.leb y x.

End PyNum.
Import PyNum.

(** ** The order of Python floats under addition *)

(** A Python [float] is an IEEE binary64 number and [+] rounds to nearest,
    ties to even.  On the non-negative floats the order is that of their
    ranks, the positions on the grid of 2^-1074, and addition is the
    rounding of the sum of the ranks: it is monotone, and it never goes
    below a summand.  The two laws at the end are what the running totals
    of the batch summary need. *)
Module Binary64.

Local Open Scope Z_scope.

(** The number of bits of a positive number. *)
Lemma digits2_pos_size (p : positive) : digits2_pos p = Pos.size p.
Proof. induction p as [p IH|p IH|]; simpl; by rewrite ?IH. Qed.

Lemma digits2_pos_log2 (p : positive) : Z.pos (digits2_pos p) = Z.log2 (Z.pos p) + 1.
Proof.
  rewrite digits2_pos_size. induction p as [p IH|p IH|]; simpl; [| |done];
    rewrite Pos2Z.inj_succ; destruct p; simpl in *; lia.
Qed.

(** [iter_pos] is iteration. *)
Lemma iter_pos_nat {A} (f : A -> A) (p : positive) : forall x,
  SpecFloat.iter_pos f p x = Nat.iter (Pos.to_nat p) f x.
Proof.
  induction p as [p IH|p IH|]; intros x; cbn [SpecFloat.iter_pos].
  - rewrite !IH, Pos2Nat.inj_xI, <- Nat.iter_add, <- Nat.iter_succ_r.
    f_equal. lia.
  - rewrite !IH, Pos2Nat.inj_xO, <- Nat.iter_add. f_equal. lia.
  - done.
Qed.

Lemma shr_1_spec m r s :
  0 <= m ->
  shr_1 {| shr_m := m; shr_r := r; shr_s := s |}
  = {| shr_m := m / 2; shr_r := Z.odd m; shr_s := r || s |}.
Proof.
  intros Hm. rewrite <- Z.div2_div.
  destruct m as [|[p|p|]|p]; try done; lia.
Qed.

(** The record after [k] right shifts of the exact mantissa [m]. *)
Definition shifted (m : Z) (k : nat) : shr_record :=
  match k with
  | O => {| shr_m := m; shr_r := false; shr_s := false |}
  | S k' =>
      {| shr_m := m / 2 ^ Z.of_nat k;
         shr_r := Z.odd (m / 2 ^ Z.of_nat k');
         shr_s := negb (m mod 2 ^ Z.of_nat k' =? 0) |}
  end.

Lemma mod_pow2_succ (m k : Z) :
  0 <= k ->
  m mod 2 ^ (k + 1) = m mod 2 ^ k + 2 ^ k * ((m / 2 ^ k) mod 2).
Proof.
  intros Hk. rewrite Z.pow_add_r, Z.pow_1_r by lia.
  apply Z.rem_mul_r; [|lia]. apply Z.pow_nonzero; lia.
Qed.

Lemma iter_shr_1 (m : Z) (k : nat) :
  0 <= m ->
  Nat.iter k shr_1 {| shr_m := m; shr_r := false; shr_s := false |} = shifted m k.
Proof.
  intros Hm. induction k as [|k IH]; [done|].
  rewrite Nat.iter_succ, IH. clear IH. destruct k as [|k].
  - cbn [shifted]. rewrite shr_1_spec by done. f_equal.
    + by rewrite Z.div_1_r.
    + by rewrite Z.mod_1_r.
  - cbn [shifted]. rewrite shr_1_spec by (apply Z.div_pos; lia).
    set (j := Z.of_nat k). replace (Z.of_nat (S k)) with (j + 1) by lia.
    replace (Z.of_nat (S (S k))) with (j + 1 + 1) by lia.
    f_equal.
    + rewrite (Z.pow_add_r 2 (j + 1) 1), Z.pow_1_r by lia.
      rewrite Z.div_div; [done|apply Z.pow_nonzero; lia|lia].
    + rewrite (mod_pow2_succ m j) by lia.
      pose proof (Z.mod_pos_bound m (2 ^ j) ltac:(lia)) as Hb.
      pose proof (Z.mod_pos_bound (m / 2 ^ j) 2 ltac:(lia)) as Hc.
      assert (Hp : 0 < 2 ^ j) by lia.
      rewrite Zodd_mod.
      destruct (Z.eqb_spec ((m / 2 ^ j) mod 2) 1) as [E|E];
        destruct (Z.eqb_spec (m mod 2 ^ j) 0) as [E0|E0];
        destruct (Z.eqb_spec (m mod 2 ^ j + 2 ^ j * ((m / 2 ^ j) mod 2)) 0) as [E1|E1];
        cbn [negb orb]; try reflexivity; exfalso; nia.
Qed.

(** Rounding to nearest, ties to even, of [m / 2^n]. *)
Definition rne (m n : Z) : Z :=
  let q := m / 2 ^ n in
  let rem := m mod 2 ^ n in
  if (2 ^ n <? 2 * rem) || ((2 ^ n =? 2 * rem) && Z.odd q) then q + 1 else q.

Lemma round_shifted (m : Z) (k : nat) :
  0 <= m ->
  round_nearest_even (shr_m (shifted m k)) (loc_of_shr_record (shifted m k))
  = rne m (Z.of_nat k).
Proof.
  intros Hm. destruct k as [|k].
  - cbn. unfold rne. cbn. by rewrite Z.div_1_r, Z.mod_1_r.
  - cbn [shifted shr_m]. unfold rne.
    set (j := Z.of_nat k). replace (Z.of_nat (S k)) with (j + 1) by lia.
    rewrite (mod_pow2_succ m j) by lia.
    assert (Hq : m / 2 ^ (j + 1) = m / 2 ^ j / 2).
    { rewrite Z.pow_add_r, Z.pow_1_r by lia.
      rewrite Z.div_div; [done|apply Z.pow_nonzero; lia|lia]. }
    rewrite Hq.
    assert (Hpow : 2 ^ (j + 1) = 2 * 2 ^ j) by (rewrite Z.pow_add_r, Z.pow_1_r by lia; lia).
    rewrite Hpow.
    pose proof (Z.mod_pos_bound m (2 ^ j) ltac:(lia)) as Hb.
    pose proof (Z.mod_pos_bound (m / 2 ^ j) 2 ltac:(lia)) as Hc.
    assert (Hp : 0 < 2 ^ j) by lia.
    rewrite Zodd_mod.
    unfold loc_of_shr_record.
    destruct (Z.eqb_spec ((m / 2 ^ j) mod 2) 1) as [E|E];
      destruct (Z.eqb_spec (m mod 2 ^ j) 0) as [E0|E0]; cbn [negb round_nearest_even].
    + rewrite E, E0.
      replace (2 * 2 ^ j <? 2 * (0 + 2 ^ j * 1)) with false by (symmetry; apply Z.ltb_ge; lia).
      replace (2 * 2 ^ j =? 2 * (0 + 2 ^ j * 1)) with true by (symmetry; apply Z.eqb_eq; lia).
      cbn [orb andb]. rewrite <- Z.negb_odd, Zodd_mod. by destruct (_ =? 1).
    + rewrite E.
      replace (2 * 2 ^ j <? 2 * (m mod 2 ^ j + 2 ^ j * 1)) with true
        by (symmetry; apply Z.ltb_lt; lia).
      done.
    + assert (E1 : (m / 2 ^ j) mod 2 = 0) by lia. rewrite E1, E0.
      replace (2 * 2 ^ j <? 2 * (0 + 2 ^ j * 0)) with false by (symmetry; apply Z.ltb_ge; lia).
      replace (2 * 2 ^ j =? 2 * (0 + 2 ^ j * 0)) with false by (symmetry; apply Z.eqb_neq; lia).
      done.
    + assert (E1 : (m / 2 ^ j) mod 2 = 0) by lia. rewrite E1.
      replace (2 * 2 ^ j <? 2 * (m mod 2 ^ j + 2 ^ j * 0)) with false
        by (symmetry; apply Z.ltb_ge; lia).
      replace (2 * 2 ^ j =? 2 * (m mod 2 ^ j + 2 ^ j * 0)) with false
        by (symmetry; apply Z.eqb_neq; lia).
      done.
Qed.

Lemma rne_bounds (m n : Z) : m / 2 ^ n <= rne m n <= m / 2 ^ n + 1.
Proof. unfold rne. destruct (_ || _); lia. Qed.

Lemma rne_zero (m : Z) : rne m 0 = m.
Proof. unfold rne. cbn. by rewrite Z.div_1_r, Z.mod_1_r. Qed.

(** Rounding does not see a common power of two. *)
Lemma rne_scale (m j k : Z) :
  0 <= j -> 0 <= k -> rne (m * 2 ^ k) (j + k) = rne m j.
Proof.
  intros Hj Hk. unfold rne.
  assert (Hpk : 0 < 2 ^ k) by lia. assert (Hpj : 0 < 2 ^ j) by lia.
  rewrite Z.pow_add_r by lia.
  rewrite Z.div_mul_cancel_r by lia.
  rewrite Z.mul_mod_distr_r by lia.
  replace (2 ^ j * 2 ^ k <? 2 * (m mod 2 ^ j * 2 ^ k)) with (2 ^ j <? 2 * (m mod 2 ^ j)).
  2:{ destruct (Z.ltb_spec (2 ^ j) (2 * (m mod 2 ^ j))); symmetry;
        [apply Z.ltb_lt|apply Z.ltb_ge]; nia. }
  replace (2 ^ j * 2 ^ k =? 2 * (m mod 2 ^ j * 2 ^ k)) with (2 ^ j =? 2 * (m mod 2 ^ j)).
  2:{ destruct (Z.eqb_spec (2 ^ j) (2 * (m mod 2 ^ j))); symmetry;
        [apply Z.eqb_eq|apply Z.eqb_neq]; nia. }
  done.
Qed.

Lemma shr_exact (m e j : Z) :
  0 <= m -> 0 <= j ->
  let mrs := fst (shr {| shr_m := m; shr_r := false; shr_s := false |} e j) in
  round_nearest_even (shr_m mrs) (loc_of_shr_record mrs) = rne m j /\
  snd (shr {| shr_m := m; shr_r := false; shr_s := false |} e j) = e + j.
Proof.
  intros Hm Hj. destruct j as [|p|p]; [|clear Hj|lia].
  - cbn. rewrite rne_zero. split; [done|lia].
  - cbn [shr fst snd]. rewrite iter_pos_nat, iter_shr_1 by done.
    rewrite round_shifted by done. by rewrite positive_nat_Z.
Qed.

Lemma Zdigits2_log2 (q : Z) : 0 < q -> Zdigits2 q = Z.log2 q + 1.
Proof. destruct q as [|p|p]; [lia| |lia]. intros _. apply digits2_pos_log2. Qed.

Lemma pos_iter_xO (m d : positive) : Z.pos (Pos.iter xO m d) = Z.pos m * 2 ^ Z.pos d.
Proof.
  induction d as [|d IH] using Pos.peano_ind.
  - cbn. lia.
  - rewrite Pos.iter_succ, Pos2Z.inj_succ, Z.pow_succ_r by lia.
    rewrite Pos2Z.inj_xO, IH. lia.
Qed.

(** The order of the non-negative binary64 numbers as an order of integers:
    the rank of a finite number is its value in units of [2^-1074], and the
    rank of infinity lies above every finite one. *)
Definition top : Z := 2 ^ 2098.

Definition rank (x : spec_float) : Z :=
  match x with
  | S754_zero _ | S754_nan => 0
  | S754_finite _ m e => Z.pos m * 2 ^ (e + 1074)
  | S754_infinity _ => top
  end.

(** Zero of either sign, a positive finite number or plus infinity. *)
Definition nonneg (x : spec_float) : bool :=
  match x with
  | S754_zero _ => true
  | S754_finite s _ _ | S754_infinity s => negb s
  | S754_nan => false
  end.

(** The rank of the binary64 number nearest to the value of rank [v]. *)
Definition rounded (v : Z) : Z :=
  let n := Z.max (Z.log2 v + 1 - 53) 0 in
  let q := rne v n in
  if (if q =? 2 ^ 53 then n + 1 else n) <=? 2045 then q * 2 ^ n else top.

Lemma pow2_53 : 2 ^ 53 = 9007199254740992.
Proof. reflexivity. Qed.

Lemma fexp_eq (x : Z) : fexp prec emax x = Z.max (x - 53) (-1074).
Proof. reflexivity. Qed.

(** Rounding an exact mantissa that is not too short for its exponent. *)
Definition round_exact (M e : Z) : spec_float :=
  let j := Z.max (Z.log2 M + 1 - 53) 0 in
  let q := rne M j in
  if q =? 2 ^ 53 then
    if e + j + 1 <=? 971 then S754_finite false (2 ^ 52) (e + j + 1)
    else S754_infinity false
  else
    if e + j <=? 971 then S754_finite false (Z.to_pos q) (e + j)
    else S754_infinity false.

Lemma rne_normal (M : Z) :
  0 < M ->
  let d := Z.log2 M + 1 in
  let j := Z.max (d - 53) 0 in
  let q := rne M j in
  (j = 0 /\ q = M /\ d <= 53) \/ (0 < j /\ d = 53 + j /\ 2 ^ 52 <= q <= 2 ^ 53).
Proof.
  intros HM d j q.
  pose proof (Z.log2_spec M HM) as Hlog.
  pose proof (rne_bounds M j) as Hq. fold q in Hq.
  assert (Hd : 0 < d) by (pose proof (Z.log2_nonneg M); lia).
  destruct (Z.eq_dec j 0) as [Hj0|Hj0].
  - left. split; [done|]. split; [|lia]. subst q. rewrite Hj0. apply rne_zero.
  - right. assert (Hdj : d = 53 + j) by lia. split; [lia|]. split; [done|].
    assert (H1 : 2 ^ Z.log2 M = 2 ^ 52 * 2 ^ j)
      by (rewrite <- Z.pow_add_r by lia; f_equal; lia).
    assert (H2 : 2 ^ Z.succ (Z.log2 M) = 2 ^ 53 * 2 ^ j)
      by (rewrite <- Z.pow_add_r by lia; f_equal; lia).
    assert (Hpj : 0 < 2 ^ j) by lia.
    assert (2 ^ 52 <= M / 2 ^ j) by (apply Z.div_le_lower_bound; lia).
    assert (M / 2 ^ j < 2 ^ 53) by (apply Z.div_lt_upper_bound; lia).
    lia.
Qed.

Lemma round_aux_exact (M : positive) (e : Z) :
  -1074 <= e ->
  53 <= Z.log2 (Z.pos M) + 1 \/ e = -1074 ->
  binary_round_aux prec emax false (Z.pos M) e loc_Exact = round_exact (Z.pos M) e.
Proof.
  intros He Hcond. unfold round_exact.
  pose proof (rne_normal (Z.pos M) ltac:(lia)) as Hq52. cbn zeta in Hq52.
  set (d := Z.log2 (Z.pos M) + 1) in *.
  set (j := Z.max (d - 53) 0) in *.
  assert (Hj : 0 <= j) by lia.
  (* the first shift *)
  unfold binary_round_aux, shr_fexp. cbn [shr_record_of_loc].
  rewrite (Zdigits2_log2 (Z.pos M)) by lia. fold d. rewrite fexp_eq.
  replace (Z.max (d + e - 53) (-1074) - e) with j by lia.
  destruct (shr_exact (Z.pos M) e j ltac:(lia) Hj) as [Hround Hexp].
  destruct (shr _ e j) as [mrs' e'] eqn:Hshr. cbn [fst snd] in Hround, Hexp.
  rewrite Hround. subst e'.
  set (q := rne (Z.pos M) j) in *.
  assert (Hqpos : 0 < q) by (destruct Hq52 as [(_ & -> & _)|(_ & _ & ?)]; lia).
  (* the second shift *)
  rewrite (Zdigits2_log2 q) by done. rewrite fexp_eq.
  destruct (Z.eqb_spec q (2 ^ 53)) as [Hq53|Hq53].
  - rewrite Hq53. rewrite Z.log2_pow2 by lia.
    replace (Z.max (53 + 1 + (e + j) - 53) (-1074) - (e + j)) with 1 by lia.
    cbn [shr SpecFloat.iter_pos]. rewrite shr_1_spec by lia.
    cbn [shr_m]. change (2 ^ 53 / 2) with (Z.pos (2 ^ 52)). reflexivity.
  - assert (Hlog : Z.max (Z.log2 q + 1 + (e + j) - 53) (-1074) - (e + j) = 0).
    { destruct Hq52 as [(Hj0 & HqM & Hd)|(Hjpos & _ & Hqr)].
      - rewrite HqM. fold d. lia.
      - assert (Z.log2 q = 52) by (apply Z.log2_unique; [lia|]; change (Z.succ 52) with 53; lia).
        lia. }
    rewrite Hlog. cbn [shr shr_m].
    destruct q as [|qp|qp] eqn:Eq; [lia| |lia]. reflexivity.
Qed.

Lemma top_eq : top = 2 ^ 53 * 2 ^ 2045.
Proof. reflexivity. Qed.

Lemma round_exact_rank (M e : Z) :
  0 < M -> -1074 <= e ->
  53 <= Z.log2 M + 1 \/ e = -1074 ->
  nonneg (round_exact M e) = true /\
  rank (round_exact M e) = rounded (M * 2 ^ (e + 1074)).
Proof.
  intros HM He Hcond.
  pose proof (rne_normal M HM) as Hq52. cbn zeta in Hq52.
  unfold round_exact, rounded. rewrite Z.log2_mul_pow2 by lia.
  set (d := Z.log2 M + 1) in *.
  set (j := Z.max (d - 53) 0) in *.
  replace (Z.max (e + 1074 + Z.log2 M + 1 - 53) 0) with (j + (e + 1074)) by lia.
  rewrite rne_scale by lia.
  set (q := rne M j) in *.
  assert (Hqpos : 0 < q) by (destruct Hq52 as [(_ & -> & _)|(_ & _ & ?)]; lia).
  destruct (Z.eqb_spec q (2 ^ 53)) as [Hq53|Hq53].
  - replace (e + j + 1 <=? 971) with (j + (e + 1074) + 1 <=? 2045).
    2:{ destruct (Z.leb_spec (j + (e + 1074) + 1) 2045);
          symmetry; [apply Z.leb_le|apply Z.leb_gt]; lia. }
    destruct (_ <=? 2045); cbn [nonneg rank negb]; [|done].
    split; [done|].
    replace (e + j + 1 + 1074) with (1 + (j + (e + 1074))) by lia.
    rewrite (Z.pow_add_r 2 1) by lia. rewrite Hq53.
    change (Z.pos (2 ^ 52)) with (2 ^ 52). change (2 ^ 53) with (2 ^ 52 * 2 ^ 1). lia.
  - replace (e + j <=? 971) with (j + (e + 1074) <=? 2045).
    2:{ destruct (Z.leb_spec (j + (e + 1074)) 2045);
          symmetry; [apply Z.leb_le|apply Z.leb_gt]; lia. }
    destruct (_ <=? 2045); cbn [nonneg rank negb]; [|done].
    split; [done|]. rewrite Z2Pos.id by done. do 2 f_equal. lia.
Qed.

(** What [binary_round] gives for a positive mantissa: a non-negative
    number, whose rank is the rounded rank of the exact value. *)
Lemma binary_round_rank (m : positive) (e : Z) :
  -1074 <= e ->
  nonneg (binary_round prec emax false m e) = true /\
  rank (binary_round prec emax false m e) = rounded (Z.pos m * 2 ^ (e + 1074)).
Proof.
  intros He. unfold binary_round, shl_align.
  rewrite digits2_pos_log2, fexp_eq.
  set (d := Z.log2 (Z.pos m) + 1).
  destruct (Z.max (d + e - 53) (-1074) - e) as [|dd|dd] eqn:Hdiff.
  - rewrite round_aux_exact by (fold d; lia).
    apply round_exact_rank; [lia|lia|fold d; lia].
  - rewrite round_aux_exact by (fold d; lia).
    apply round_exact_rank; [lia|lia|fold d; lia].
  - set (E := Z.max (d + e - 53) (-1074)) in *.
    assert (Hlog : Z.log2 (Z.pos (Pos.iter xO m dd)) + 1 = d + Z.pos dd).
    { rewrite pos_iter_xO, Z.log2_mul_pow2 by lia. unfold d. lia. }
    rewrite round_aux_exact by lia.
    destruct (round_exact_rank (Z.pos (Pos.iter xO m dd)) E) as [Hn Hr]; [lia|lia|lia|].
    split; [done|]. rewrite Hr, pos_iter_xO, <- Z.mul_assoc, <- Z.pow_add_r by lia.
    do 3 f_equal. lia.
Qed.

Lemma rne_mono (m1 m2 n : Z) : 0 <= n -> m1 <= m2 -> rne m1 n <= rne m2 n.
Proof.
  intros Hn Hm.
  assert (Hp : 0 < 2 ^ n) by lia.
  pose proof (Z.div_mod m1 (2 ^ n) ltac:(lia)) as E1.
  pose proof (Z.div_mod m2 (2 ^ n) ltac:(lia)) as E2.
  pose proof (Z.mod_pos_bound m1 (2 ^ n) Hp) as B1.
  pose proof (Z.mod_pos_bound m2 (2 ^ n) Hp) as B2.
  pose proof (Z.div_le_mono m1 m2 (2 ^ n) Hp Hm) as Hq.
  pose proof (rne_bounds m1 n) as R1. pose proof (rne_bounds m2 n) as R2.
  destruct (Z.eq_dec (m1 / 2 ^ n) (m2 / 2 ^ n)) as [Heq|Hne]; [|lia].
  unfold rne. rewrite <- Heq in *.
  set (q := m1 / 2 ^ n) in *. set (r1 := m1 mod 2 ^ n) in *. set (r2 := m2 mod 2 ^ n) in *.
  assert (Hr : r1 <= r2) by nia.
  destruct (Z.ltb_spec (2 ^ n) (2 * r1)), (Z.ltb_spec (2 ^ n) (2 * r2)),
    (Z.eqb_spec (2 ^ n) (2 * r1)), (Z.eqb_spec (2 ^ n) (2 * r2)), (Z.odd q);
    cbn [orb andb]; lia.
Qed.

Lemma rounded_cases (v : Z) :
  0 < v ->
  let n := Z.max (Z.log2 v + 1 - 53) 0 in
  let q := rne v n in
  0 <= n /\ 0 < q <= 2 ^ 53 /\ (n = 0 -> q = v /\ v < 2 ^ 53) /\ (0 < n -> 2 ^ 52 <= q) /\
  rounded v = if (if q =? 2 ^ 53 then n + 1 else n) <=? 2045 then q * 2 ^ n else top.
Proof.
  intros Hv n q.
  pose proof (rne_normal v Hv) as Hq. cbn zeta in Hq. fold n in Hq. fold q in Hq.
  pose proof (Z.log2_spec v Hv) as Hlog.
  split; [lia|]. split; [|split; [|split; [lia|done]]].
  - destruct Hq as [(_ & -> & ?)|(_ & _ & ?)]; [|lia].
    assert (2 ^ Z.succ (Z.log2 v) <= 2 ^ 53) by (apply Z.pow_le_mono_r; lia). lia.
  - intros Hn. destruct Hq as [(_ & -> & ?)|?]; [|lia]. split; [done|].
    assert (2 ^ Z.succ (Z.log2 v) <= 2 ^ 53) by (apply Z.pow_le_mono_r; lia). lia.
Qed.

Lemma rounded_le_top (v : Z) : 0 < v -> 0 < rounded v <= top.
Proof.
  intros Hv. destruct (rounded_cases v Hv) as (Hn & Hq & H0 & Hpos & ->).
  set (n := Z.max _ _) in *. set (q := rne v n) in *.
  assert (Hpn : 0 < 2 ^ n) by lia.
  assert (Htop : 0 < top) by (rewrite top_eq; lia).
  destruct (Z.eqb_spec q (2 ^ 53)) as [E|E];
    match goal with |- context [?a <=? 2045] => destruct (Z.leb_spec a 2045) end; try lia.
  - rewrite top_eq. split; [nia|].
    assert (2 ^ n <= 2 ^ 2045) by (apply Z.pow_le_mono_r; lia). nia.
  - rewrite top_eq. split; [nia|].
    assert (2 ^ n <= 2 ^ 2045) by (apply Z.pow_le_mono_r; lia). nia.
Qed.

(** Rounding is monotone. *)
Lemma rounded_mono (v1 v2 : Z) : 0 < v1 -> v1 <= v2 -> rounded v1 <= rounded v2.
Proof.
  intros Hv1 Hv.
  assert (Hv2 : 0 < v2) by lia.
  pose proof (rounded_le_top v1 Hv1) as T1. pose proof (rounded_le_top v2 Hv2) as T2.
  destruct (rounded_cases v1 Hv1) as (Hn1 & Hq1 & H01 & Hp1 & E1).
  destruct (rounded_cases v2 Hv2) as (Hn2 & Hq2 & H02 & Hp2 & E2).
  pose proof (Z.log2_le_mono v1 v2 Hv) as Hlog.
  set (n1 := Z.max (Z.log2 v1 + 1 - 53) 0) in *. set (n2 := Z.max (Z.log2 v2 + 1 - 53) 0) in *.
  set (q1 := rne v1 n1) in *. set (q2 := rne v2 n2) in *.
  assert (Hn : n1 <= n2) by lia.
  rewrite E1, E2 in *. clear E1 E2.
  assert (Hpn1 : 0 < 2 ^ n1) by lia. assert (Hpn2 : 0 < 2 ^ n2) by lia.
  destruct (Z.eq_dec n1 n2) as [Heq|Hne].
  - assert (Hq : q1 <= q2) by (subst q1 q2; rewrite Heq; by apply rne_mono).
    rewrite <- Heq in *.
    destruct (Z.eqb_spec q1 (2 ^ 53)), (Z.eqb_spec q2 (2 ^ 53));
      repeat match goal with |- context [?a <=? 2045] => destruct (Z.leb_spec a 2045) end;
      try lia; try nia.
  - assert (Hlt : n1 + 1 <= n2) by lia.
    assert (Hpow : 2 * 2 ^ n1 <= 2 ^ n2).
    { replace (2 * 2 ^ n1) with (2 ^ (n1 + 1)) by (rewrite Z.pow_add_r by lia; lia).
      apply Z.pow_le_mono_r; lia. }
    specialize (Hp2 ltac:(lia)).
    destruct (Z.eqb_spec q1 (2 ^ 53)), (Z.eqb_spec q2 (2 ^ 53));
      repeat match goal with |- context [?a <=? 2045] => destruct (Z.leb_spec a 2045) end;
      try lia; try nia.
Qed.

(** A valid finite number has the exponent that its mantissa calls for. *)
Lemma valid_finite (s : bool) (m : positive) (e : Z) :
  valid_binary (S754_finite s m e) = true ->
  Z.max (Z.log2 (Z.pos m) + 1 + e - 53) (-1074) = e /\ e <= 971.
Proof.
  cbn [SpecFloat.valid_binary]. unfold bounded, canonical_mantissa.
  rewrite andb_true_iff, Z.eqb_eq, Z.leb_le, digits2_pos_log2, fexp_eq.
  unfold emax, prec. lia.
Qed.

Lemma rank_finite (s : bool) (m : positive) (e : Z) :
  valid_binary (S754_finite s m e) = true ->
  let v := rank (S754_finite s m e) in
  0 < v < top /\ rounded v = v /\
  (e = -1074 \/ 2 ^ 52 * 2 ^ (e + 1074) <= v) /\ v < 2 ^ 53 * 2 ^ (e + 1074).
Proof.
  intros (Hcan & He)%valid_finite v. subst v. cbn [rank].
  pose proof (Z.log2_spec (Z.pos m) ltac:(lia)) as Hlog.
  set (d := Z.log2 (Z.pos m) + 1) in *.
  assert (Hk : 0 <= e + 1074) by lia.
  assert (Hp : 0 < 2 ^ (e + 1074)) by lia.
  assert (Hm53 : Z.pos m < 2 ^ 53).
  { assert (2 ^ Z.succ (Z.log2 (Z.pos m)) <= 2 ^ 53) by (apply Z.pow_le_mono_r; lia). lia. }
  assert (Htop : Z.pos m * 2 ^ (e + 1074) < top).
  { rewrite top_eq. assert (2 ^ (e + 1074) <= 2 ^ 2045) by (apply Z.pow_le_mono_r; lia). nia. }
  split; [nia|]. split; [|split; [|nia]].
  - destruct (round_exact_rank (Z.pos m) e) as [_ Hr]; [lia|lia|fold d; lia|].
    rewrite <- Hr. unfold round_exact. fold d.
    replace (Z.max (d - 53) 0) with 0 by lia.
    rewrite rne_zero, Z.add_0_r.
    replace (Z.pos m =? 2 ^ 53) with false by (symmetry; apply Z.eqb_neq; lia).
    replace (e <=? 971) with true by (symmetry; apply Z.leb_le; lia).
    cbn [rank]. done.
  - destruct (Z.eq_dec e (-1074)) as [|Hne]; [by left|right].
    assert (Hd : d = 53) by lia.
    assert (2 ^ 52 <= Z.pos m).
    { replace 52 with (Z.log2 (Z.pos m)) by lia. lia. }
    nia.
Qed.

(** On valid non-negative numbers the order is the order of the ranks. *)
Lemma SFleb_rank (x y : spec_float) :
  valid_binary x = true -> valid_binary y = true ->
  nonneg x = true -> nonneg y = true ->
  SFleb x y = (rank x <=? rank y).
Proof.
  intros Vx Vy Nx Ny.
  assert (Htop : 0 < top) by (rewrite top_eq; lia).
  destruct x as [sx|sx| |sx mx ex], y as [sy|sy| |sy my ey]; try discriminate;
    try destruct sx; try destruct sy; try discriminate.
  all: try pose proof (rank_finite _ _ _ Vx) as (Hx & _ & Hxl & Hxu).
  all: try pose proof (rank_finite _ _ _ Vy) as (Hy & _ & Hyl & Hyu).
  all: cbn [SFleb SFcompare rank] in *;
    try (symmetry; apply Z.leb_le; lia); try (symmetry; apply Z.leb_gt; lia).
  apply valid_finite in Vx as (Cx & _), Vy as (Cy & _).
  destruct (Z.compare_spec ex ey) as [->|Hlt|Hgt].
  - change (Pos.compare_cont Eq mx my) with (mx ?= my)%positive.
    assert (Hp : 0 < 2 ^ (ey + 1074)) by lia.
    destruct (Pos.compare_spec mx my) as [->|H|H]; symmetry;
      [apply Z.leb_le; lia|apply Z.leb_le; nia|apply Z.leb_gt; nia].
  - symmetry. apply Z.leb_le.
    assert (2 * 2 ^ (ex + 1074) <= 2 ^ (ey + 1074)).
    { rewrite <- Z.pow_succ_r by lia. apply Z.pow_le_mono_r; lia. }
    assert (0 < 2 ^ (ex + 1074)) by lia. nia.
  - symmetry. apply Z.leb_gt.
    assert (2 * 2 ^ (ey + 1074) <= 2 ^ (ex + 1074)).
    { rewrite <- Z.pow_succ_r by lia. apply Z.pow_le_mono_r; lia. }
    assert (0 < 2 ^ (ey + 1074)) by lia. nia.
Qed.

Lemma SFleb_nonneg (x y : spec_float) :
  nonneg x = true -> SFleb x y = true -> nonneg y = true.
Proof.
  destruct x as [sx|sx| |sx mx ex], y as [sy|sy| |sy my ey]; try discriminate; try done;
    try destruct sx; try destruct sy; try discriminate; done.
Qed.

Lemma nonneg_leb_zero (x : spec_float) : SFleb (S754_zero false) x = nonneg x.
Proof. destruct x as [s|s| |s m e]; try done; by destruct s. Qed.

(** The rank of a sum of two ranks. *)
Definition radd (a b : Z) : Z :=
  if (top <=? a) || (top <=? b) then top
  else if a + b =? 0 then 0 else rounded (a + b).

Lemma shl_align_value (m : positive) (e ez : Z) :
  ez <= e -> -1074 <= ez ->
  Z.pos (fst (shl_align m e ez)) * 2 ^ (ez + 1074) = Z.pos m * 2 ^ (e + 1074).
Proof.
  intros Hle Hez. unfold shl_align.
  destruct (ez - e) as [|d|d] eqn:Hd; cbn [fst].
  - do 2 f_equal. lia.
  - lia.
  - rewrite pos_iter_xO, <- Z.mul_assoc, <- Z.pow_add_r by lia. do 2 f_equal. lia.
Qed.

Lemma SFadd_rank (x y : spec_float) :
  valid_binary x = true -> valid_binary y = true ->
  nonneg x = true -> nonneg y = true ->
  nonneg (SF64add x y) = true /\ rank (SF64add x y) = radd (rank x) (rank y).
Proof.
  intros Vx Vy Nx Ny.
  assert (Htop : 0 < top) by (rewrite top_eq; lia).
  assert (Hle : forall a b, a <= b -> (b <=? a) = false \/ a = b).
  { intros a b H. destruct (Z.eq_dec a b); [by right|left; apply Z.leb_gt; lia]. }
  destruct x as [sx|sx| |sx mx ex], y as [sy|sy| |sy my ey]; try discriminate;
    try destruct sx; try destruct sy; try discriminate.
  all: try pose proof (rank_finite _ _ _ Vx) as (Hx & Ix & _ & _).
  all: try pose proof (rank_finite _ _ _ Vy) as (Hy & Iy & _ & _).
  all: unfold radd; cbn [SF64add SFadd nonneg rank negb] in *.
  all: rewrite ?Z.leb_refl, ?orb_true_r; cbn [orb].
  all: try (replace (top <=? 0) with false by (symmetry; apply Z.leb_gt; lia)); cbn [orb].
  all: try done.
  - replace (top <=? Z.pos my * 2 ^ (ey + 1074)) with false
      by (symmetry; apply Z.leb_gt; lia).
    replace (0 + Z.pos my * 2 ^ (ey + 1074) =? 0) with false
      by (symmetry; apply Z.eqb_neq; lia).
    by rewrite Z.add_0_l, Iy.
  - replace (top <=? Z.pos my * 2 ^ (ey + 1074)) with false
      by (symmetry; apply Z.leb_gt; lia).
    replace (0 + Z.pos my * 2 ^ (ey + 1074) =? 0) with false
      by (symmetry; apply Z.eqb_neq; lia).
    by rewrite Z.add_0_l, Iy.
  - replace (top <=? Z.pos mx * 2 ^ (ex + 1074)) with false
      by (symmetry; apply Z.leb_gt; lia).
    replace (Z.pos mx * 2 ^ (ex + 1074) + 0 =? 0) with false
      by (symmetry; apply Z.eqb_neq; lia).
    by rewrite Z.add_0_r, Ix.
  - replace (top <=? Z.pos mx * 2 ^ (ex + 1074)) with false
      by (symmetry; apply Z.leb_gt; lia).
    replace (Z.pos mx * 2 ^ (ex + 1074) + 0 =? 0) with false
      by (symmetry; apply Z.eqb_neq; lia).
    by rewrite Z.add_0_r, Ix.
  - replace (top <=? Z.pos mx * 2 ^ (ex + 1074)) with false
      by (symmetry; apply Z.leb_gt; lia).
    replace (top <=? Z.pos my * 2 ^ (ey + 1074)) with false
      by (symmetry; apply Z.leb_gt; lia).
    cbn [orb].
    replace (Z.pos mx * 2 ^ (ex + 1074) + Z.pos my * 2 ^ (ey + 1074) =? 0) with false
      by (symmetry; apply Z.eqb_neq; lia).
    apply valid_finite in Vx as (Cx & _), Vy as (Cy & _).
    cbn [cond_Zopp]. rewrite <- Pos2Z.inj_add. cbn [binary_normalize].
    destruct (binary_round_rank
                (fst (shl_align mx ex (Z.min ex ey)) + fst (shl_align my ey (Z.min ex ey)))
                (Z.min ex ey)) as [Hn Hr]; [lia|].
    split; [exact Hn|]. rewrite Hr, Pos2Z.inj_add, Z.mul_add_distr_r.
    by rewrite !shl_align_value by lia.
Qed.

Lemma radd_le_top (a b : Z) : 0 <= a -> 0 <= b -> 0 <= radd a b <= top.
Proof.
  intros Ha Hb. unfold radd.
  assert (Htop : 0 < top) by (rewrite top_eq; lia).
  destruct (Z.leb_spec top a), (Z.leb_spec top b); cbn [orb]; try lia.
  destruct (Z.eqb_spec (a + b) 0); [lia|].
  pose proof (rounded_le_top (a + b) ltac:(lia)). lia.
Qed.

Lemma radd_mono (a1 a2 b : Z) :
  0 <= a1 -> a1 <= a2 -> 0 <= b -> radd a1 b <= radd a2 b.
Proof.
  intros H1 H12 Hb.
  pose proof (radd_le_top a1 b H1 Hb) as Hub. unfold radd in *.
  destruct (Z.leb_spec top a2); cbn [orb]; [lia|].
  destruct (Z.leb_spec top b); cbn [orb] in *; [by rewrite orb_true_r|].
  replace (top <=? a1) with false by (symmetry; apply Z.leb_gt; lia). cbn [orb].
  destruct (Z.eqb_spec (a1 + b) 0), (Z.eqb_spec (a2 + b) 0); try lia.
  - pose proof (rounded_le_top (a2 + b) ltac:(lia)). lia.
  - apply rounded_mono; lia.
Qed.

(** A sum is not below a representable rank that is not above a summand. *)
Lemma radd_ge (u a b : Z) :
  0 <= u -> u <= a -> 0 <= b -> u <= top ->
  (0 < u < top -> rounded u = u) ->
  u <= radd a b.
Proof.
  intros Hu Hua Hb Htop Hrep. unfold radd.
  destruct (Z.leb_spec top a), (Z.leb_spec top b); cbn [orb]; try lia.
  destruct (Z.eqb_spec (a + b) 0); [lia|].
  destruct (Z.eq_dec u 0) as [->|Hu0].
  - pose proof (rounded_le_top (a + b) ltac:(lia)). lia.
  - rewrite <- Hrep by lia. apply rounded_mono; lia.
Qed.

Lemma rank_representable (x : spec_float) :
  valid_binary x = true ->
  0 <= rank x <= top /\ (0 < rank x < top -> rounded (rank x) = rank x).
Proof.
  intros Vx. assert (Htop : 0 < top) by (rewrite top_eq; lia).
  destruct x as [s|s| |s m e]; cbn [rank]; try (split; lia).
  pose proof (rank_finite _ _ _ Vx) as (Hx & Ix & _). cbn [rank] in Hx, Ix. split; [lia|done].
Qed.

(** *** The two laws on binary64 *)

Lemma leb_zero (x : float) : PrimFloat.leb 0 x = nonneg (Prim2SF x).
Proof. rewrite FloatAxioms.leb_spec. apply nonneg_leb_zero. Qed.

(** Adding the same non-negative number keeps the order of two
    non-negative numbers: rounding to nearest is monotone. *)
Lemma add_mono (b p a : float) :
  PrimFloat.leb 0 b = true -> PrimFloat.leb b p = true -> PrimFloat.leb 0 a = true ->
  PrimFloat.leb (b + a)%float (p + a)%float = true.
Proof.
  rewrite !leb_zero, !FloatAxioms.leb_spec. intros Nb Hbp Na.
  pose proof (SFleb_nonneg _ _ Nb Hbp) as Np.
  pose proof (Prim2SF_valid b) as Vb. pose proof (Prim2SF_valid p) as Vp.
  pose proof (Prim2SF_valid a) as Va.
  pose proof (Prim2SF_valid (b + a)%float) as Vba.
  pose proof (Prim2SF_valid (p + a)%float) as Vpa.
  rewrite ?FloatAxioms.add_spec in *.
  destruct (SFadd_rank _ _ Vb Va Nb Na) as [Nba Rba].
  destruct (SFadd_rank _ _ Vp Va Np Na) as [Npa Rpa].
  rewrite SFleb_rank in Hbp |- * by done. apply Z.leb_le in Hbp. apply Z.leb_le.
  rewrite Rba, Rpa.
  apply radd_mono; [apply rank_representable; done|done|apply rank_representable; done].
Qed.

(** A sum with a non-negative number is not below what was not above the
    other summand. *)
Lemma add_incr (b p a : float) :
  PrimFloat.leb 0 b = true -> PrimFloat.leb b p = true -> PrimFloat.leb 0 a = true ->
  PrimFloat.leb b (p + a)%float = true.
Proof.
  rewrite !leb_zero, !FloatAxioms.leb_spec. intros Nb Hbp Na.
  pose proof (SFleb_nonneg _ _ Nb Hbp) as Np.
  pose proof (Prim2SF_valid b) as Vb. pose proof (Prim2SF_valid p) as Vp.
  pose proof (Prim2SF_valid a) as Va. pose proof (Prim2SF_valid (p + a)%float) as Vpa.
  rewrite ?FloatAxioms.add_spec in *.
  destruct (SFadd_rank _ _ Vp Va Np Na) as [Npa Rpa].
  rewrite SFleb_rank in Hbp |- * by done. apply Z.leb_le in Hbp. apply Z.leb_le.
  rewrite Rpa.
  destruct (rank_representable _ Vb) as [Hb Ib].
  apply radd_ge; [lia|done|apply rank_representable; done|lia|done].
Qed.

End Binary64.

(** ** [workflows/telemetry.py] *)

Module telemetry.

(** Values of event properties, span attributes and metric attributes. *)
Inductive value :=
| VStr (s : pystr)
| VInt (z : Z)
| VFloat (x : float)
| VBool (b : bool)
| VNone
| VList (l : list pystr).

(** One [counter.add] or [histogram.record]. *)
Record metric_point := MetricPoint {
  metric_name : pystr;
  metric_amount : value;
  metric_attributes : list (pystr * value)
}.

(** One [send_business_event]. *)
Record business_event := BusinessEvent {
  event_name : pystr;
  event_properties : list (pystr * value)
}.

(** What reaches the tracing backend, in order. *)
Inductive trace_entry :=
| SpanStart (name : pystr) (attributes : list (pystr * value))
| SpanEvent (name : pystr)
| SpanAttribute (key : pystr) (v : value)
| SpanException (message : pystr).

(** The state of the global [TelemetryManager].  [initialize_observability]
    sets the tracer, the meter and every counter and histogram together, so
    one flag stands for all of them being non-[None]. *)
Record TelemetryManager := {
  initialized : bool;
  metrics : list metric_point;
  events : list business_event;
  trace_log : list trace_entry
}.

Definition add_metric (p : metric_point) (t : TelemetryManager) : TelemetryManager :=
  {| initialized := initialized t; metrics := metrics t ++ [p];
     events := events t; trace_log := trace_log t |}.

Definition add_trace (e : trace_entry) (t : TelemetryManager) : TelemetryManager :=
  {| initialized := initialized t; metrics := metrics t;
     events := events t; trace_log := trace_log t ++ [e] |}.

(** [initialize_observability] *)
Definition initialize_observability (t : TelemetryManager) : TelemetryManager :=
  {| initialized := true; metrics := metrics t; events := events t;
     trace_log := trace_log t |}.

(** [send_business_event]: the event goes to the current span, to a span of
    its own when a tracer exists, and to standard output; the model keeps one
    record of it. *)
Definition send_business_event (name : pystr) (properties : list (pystr * value))
    (t : TelemetryManager) : TelemetryManager :=
  {| initialized := initialized t; metrics := metrics t;
     events := events t ++ [BusinessEvent name properties];
     trace_log := trace_log t |}.

(** A counter or histogram is used only when it is not [None]. *)
Definition when_initialized (p : metric_point) (t : TelemetryManager) : TelemetryManager :=
  if initialized t then add_metric p t else t.

Definition record_transaction_processed (step transaction_id : pystr) :=
  when_initialized
    (MetricPoint (py "fraud_detection.transactions.processed") (VInt 1)
       [(py "step", VStr step); (py "transaction_id", VStr transaction_id)]).

Definition record_risk_score (risk_score : Z) (transaction_id recommendation : pystr) :=
  when_initialized
    (MetricPoint (py "fraud_detection.risk_score.distribution") (VInt risk_score)
       [(py "transaction_id", VStr transaction_id);
        (py "recommendation", VStr recommendation)]).

Definition record_fraud_alert_created (alert_id severity decision_action transaction_id : pystr) :=
  when_initialized
    (MetricPoint (py "fraud_detection.alerts.created") (VInt 1)
       [(py "alert_id", VStr alert_id); (py "severity", VStr severity);
        (py "decision_action", VStr decision_action);
        (py "transaction_id", VStr transaction_id)]).

Definition FRAUD_PREVENTED : pystr := py "fraud_detection.fraud.prevented".
Definition CUSTOMER_FRICTION : pystr := py "fraud_detection.customer.friction".
Definition MODEL_PREDICTION : pystr := py "fraud_detection.model.prediction".
Definition SAR_FILED : pystr := py "fraud_detection.compliance.sar_filed".

Definition record_fraud_prevented (transaction_id : pystr) (blocked_amount : float)
    (currency fraud_type : pystr) (risk_score : Z) (t : TelemetryManager) : TelemetryManager :=
  send_business_event FRAUD_PREVENTED
    [(py "transaction_id", VStr transaction_id);
     (py "blocked_amount", VFloat blocked_amount);
     (py "currency", VStr currency);
     (py "fraud_type", VStr fraud_type);
     (py "risk_score", VInt risk_score)]
    (when_initialized
       (MetricPoint (py "fraud_detection.amount_blocked") (VFloat blocked_amount)
          [(py "transaction_id", VStr transaction_id); (py "currency", VStr currency);
           (py "fraud_type", VStr fraud_type)]) t).

(** [str(b)] for a [bool]. *)
Definition str_of_bool (b : bool) : pystr := if b then py "True" else py "False".

Definition record_customer_friction (customer_id transaction_id friction_type : pystr)
    (transaction_declined : bool) (t : TelemetryManager) : TelemetryManager :=
  send_business_event CUSTOMER_FRICTION
    [(py "customer_id", VStr customer_id);
     (py "transaction_id", VStr transaction_id);
     (py "friction_type", VStr friction_type);
     (py "transaction_declined", VBool transaction_declined);
     (py "customer_tenure_days", VInt 0);
     (py "customer_lifetime_value", VFloat 0%float)]
    (when_initialized
       (MetricPoint (py "fraud_detection.customer_friction") (VInt 1)
          [(py "friction_type", VStr friction_type);
           (py "transaction_declined", VStr (str_of_bool transaction_declined))]) t).

Definition record_model_prediction (transaction_id model_version : pystr)
    (confidence_score : float) (prediction : pystr) (top_features : list pystr)
    (t : TelemetryManager) : TelemetryManager :=
  send_business_event MODEL_PREDICTION
    [(py "transaction_id", VStr transaction_id);
     (py "model_version", VStr model_version);
     (py "confidence_score", VFloat confidence_score);
     (py "prediction", VStr prediction);
     (py "top_features", VList top_features)]
    (when_initialized
       (MetricPoint (py "fraud_detection.model.confidence") (VFloat confidence_score)
          [(py "model_version", VStr model_version); (py "prediction", VStr prediction)]) t).

Definition record_sar_filed (transaction_id sar_id filing_deadline : pystr)
    (amount_threshold_exceeded : bool) (customer_id : pystr)
    (t : TelemetryManager) : TelemetryManager :=
  send_business_event SAR_FILED
    [(py "transaction_id", VStr transaction_id);
     (py "sar_id", VStr sar_id);
     (py "filing_deadline", VStr filing_deadline);
     (py "amount_threshold_exceeded", VBool amount_threshold_exceeded);
     (py "customer_id", VStr customer_id)]
    (when_initialized
       (MetricPoint (py "fraud_detection.compliance.sar_filed") (VInt 1)
          [(py "amount_threshold_exceeded",
            VStr (str_of_bool amount_threshold_exceeded))]) t).

(** [create_agent_span]: [self.tracer.start_as_current_span(...)], which
    raises [AttributeError] while the tracer is still [None]. *)
Definition create_agent_span (agent_name operation : pystr)
    (attributes : list (pystr * value)) (t : TelemetryManager) : Exc TelemetryManager :=
  if initialized t then
    inr (add_trace
           (SpanStart (py "agent." ++ agent_name ++ py "." ++ operation)
              ([(py "agent.name", VStr agent_name); (py "agent.operation", VStr operation)]
               ++ attributes)) t)
  else inl (py "'NoneType' object has no attribute 'start_as_current_span'").

(** How many business events of a given name have been sent. *)
Definition count_events (name : pystr) (t : TelemetryManager) : nat :=
  length (filter (fun e => event_name e = name) (events t)).

(** *** [CosmosDbInstrumentation] *)

(** [create_cosmos_span]: like every span of the manager it needs the
    tracer, and raises [AttributeError] while the tracer is [None]. *)
Definition create_cosmos_span `{Unicode} (operation collection : pystr)
    (attributes : list (pystr * value)) (t : TelemetryManager) : Exc TelemetryManager :=
  if initialized t then
    inr (add_trace
           (SpanStart (py "cosmos_db." ++ str_lower collection ++ py "." ++ operation)
              ([(py "db.operation", VStr operation);
                (py "db.collection.name", VStr collection)] ++ attributes)) t)
  else inl (py "'NoneType' object has no attribute 'start_as_current_span'").

Section Instrument.
Context `{Unicode}.

(** The state the wrapped function works on besides the telemetry, and the
    type of its results. *)
Variables State Result : Type.

(** [instrument_query(func)]: the wrapper, for a function named [func_name]
    whose call (on the arguments the wrapper was given) is [func].  The
    wrapper opens the span outside its [try], and re-raises what [func]
    raised. *)
Definition instrument_query (func_name : pystr)
    (func : TelemetryManager * State -> (TelemetryManager * State) * Exc Result)
    (st : TelemetryManager * State) : (TelemetryManager * State) * Exc Result :=
  let '(t, s) := st in
  let operation_name := func_name in
  match create_cosmos_span (py "query") operation_name [] t with
  | inl e => ((t, s), inl e)
  | inr t =>
      let t := add_trace (SpanEvent (py "Executing " ++ operation_name)) t in
      match func (t, s) with
      | ((t, s), inr result) =>
          let t := add_trace (SpanAttribute (py "cosmos_db.success") (VBool true)) t in
          let t := add_trace (SpanEvent (operation_name ++ py " completed successfully")) t in
          ((t, s), inr result)
      | ((t, s), inl e) =>
          let t := add_trace (SpanAttribute (py "cosmos_db.success") (VBool false)) t in
          let t := add_trace (SpanAttribute (py "cosmos_db.error") (VStr e)) t in
          let t := add_trace (SpanException e) t in
          ((t, s), inl e)
      end
  end.

(** X8.  The wrapper of [instrument_query] is transparent.  With the
    telemetry initialised it opens its span, records the "Executing" event
    and calls the wrapped function once; it returns what the function
    returned, or re-raises what it raised, and leaves the function's effects
    as they are, adding no metric and no business event, only span entries
    that begin with the success attribute.  Without a tracer it raises
    [AttributeError] and the function is never called. *)
Theorem instrumented_query_is_transparent (func_name : pystr)
    (func : TelemetryManager * State -> (TelemetryManager * State) * Exc Result)
    (t : TelemetryManager) (s : State) :
  let run := instrument_query func_name func (t, s) in
  if initialized t then
    exists span recorded,
      let opened := add_trace (SpanEvent (py "Executing " ++ func_name)) (add_trace span t) in
      let inner := func (opened, s) in
      snd run = snd inner /\
      snd (fst run) = snd (fst inner) /\
      metrics (fst (fst run)) = metrics (fst (fst inner)) /\
      events (fst (fst run)) = events (fst (fst inner)) /\
      initialized (fst (fst run)) = initialized (fst (fst inner)) /\
      trace_log (fst (fst run))
        = trace_log (fst (fst inner)) ++
            SpanAttribute (py "cosmos_db.success")
              (VBool (match snd inner with inr _ => true | inl _ => false end))
            :: recorded
  else
    run = ((t, s), inl (py "'NoneType' object has no attribute 'start_as_current_span'")).
Proof.
  intros run. subst run. unfold instrument_query, create_cosmos_span.
  destruct (initialized t) eqn:Hi; [|done].
  exists (SpanStart (py "cosmos_db." ++ str_lower func_name ++ py "." ++ py "query")
            ([(py "db.operation", VStr (py "query"));
              (py "db.collection.name", VStr func_name)] ++ [])).
  cbn zeta.
  destruct (func _) as [[t' s'] [e|result]]; cbn; eexists;
    split_and!; try done; rewrite <- ?app_assoc; reflexivity.
Qed.

End Instrument.

End telemetry.

(** ** [workflows/workflow.py] *)

Module workflow.

Import telemetry risk_score.

Definition CUSTOMER_DATA_AGENT_NAME : pystr := py "CustomerDataAgent".
Definition RISK_ANALYSER_AGENT_NAME : pystr := py "RiskAnalyserAgent".
Definition FRAUD_ALERT_AGENT_NAME : pystr := py "FraudAlertAgent".

(** *** Request and response models *)

Record AnalysisRequest := {
  req_transaction_id : pystr;
  req_customer_id : pystr;
  req_amount : option float;
  req_currency : option pystr
}.

Record CustomerDataResponse := {
  cd_customer_id : pystr;
  cd_transaction_id : pystr;
  cd_analysis : pystr;
  cd_status : pystr;
  cd_amount : option float;
  cd_currency : option pystr
}.

Record RiskAnalysisResponse := {
  ra_transaction_id : pystr;
  ra_customer_id : pystr;
  ra_risk_analysis : pystr;
  ra_risk_score : Z;
  ra_risk_level : pystr;
  ra_recommendation : pystr;
  ra_status : pystr;
  ra_amount : option float;
  ra_currency : option pystr;
  ra_model_confidence : option float
}.

Record FraudAlertResponse := {
  fa_transaction_id : pystr;
  fa_customer_id : pystr;
  fa_alert_response : pystr;
  fa_alert_created : bool;
  fa_workflow_status : pystr;
  fa_risk_score : Z;
  fa_risk_level : pystr
}.

(** The messages that travel along the edges of the workflow graph. *)
Inductive Message :=
| MsgRequest (m : AnalysisRequest)
| MsgCustomerData (m : CustomerDataResponse)
| MsgRiskAnalysis (m : RiskAnalysisResponse).

(** *** The world the executors run in *)

(** What [agent.run] does: raise, or return a response with its messages'
    texts. *)
Inductive AgentOutcome :=
| AgentRaises (message : pystr)
| AgentReplies (messages : list pystr).

(** The services outside the repository: the hosted agents, the event-loop
    clock, the wall clock and the UUID source, and the process environment.
    Clock and UUID reads are indexed by the number of reads made before. *)
Class Runtime := {
  agent_run : pystr -> pystr -> AgentOutcome;
  loop_time : nat -> float;
  now_year : nat -> pystr;
  now_plus_30_days : nat -> pystr;
  uuid4_hex8_upper : nat -> pystr;
  environ : pystr -> option pystr
}.

(** A [WorkflowContext]: what the running handler has sent and yielded. *)
Record WorkflowContext := {
  sent : list Message;
  yielded : list FraudAlertResponse
}.

Definition fresh_ctx : WorkflowContext := {| sent := []; yielded := [] |}.

Record World := {
  tel : TelemetryManager;
  ctx : WorkflowContext;
  agent_calls : list (pystr * pystr);
  reads : nat;
  error_log : list pystr;
  project_client : option pystr;
  credentials : nat
}.

Definition with_tel (f : TelemetryManager -> TelemetryManager) (w : World) : World :=
  {| tel := f (tel w); ctx := ctx w; agent_calls := agent_calls w; reads := reads w;
     error_log := error_log w; project_client := project_client w;
     credentials := credentials w |}.

Definition with_ctx (c : WorkflowContext) (w : World) : World :=
  {| tel := tel w; ctx := c; agent_calls := agent_calls w; reads := reads w;
     error_log := error_log w; project_client := project_client w;
     credentials := credentials w |}.

(** *** Stateful computations that may raise *)

Definition Exec (A : Type) : Type := World -> World * Exc A.

Definition ret {A} (a : A) : Exec A := fun w => (w, inr a).
Definition raise {A} (e : pystr) : Exec A := fun w => (w, inl e).

Definition bind {A B} (c : Exec A) (k : A -> Exec B) : Exec B :=
  fun w =>
    match c w with
    | (w', inr a) => k a w'
    | (w', inl e) => (w', inl e)
    end.

(** [try: body except Exception as e: handler(str(e))]; what the body did
    before raising stays done. *)
Definition try_except {A} (body : Exec A) (handler : pystr -> Exec A) : Exec A :=
  fun w =>
    match body w with
    | (w', inr a) => (w', inr a)
    | (w', inl e) => handler e w'
    end.

Declare Scope exec_scope.
Delimit Scope exec_scope with exec.
Notation "'let*' x ':=' c 'in' k" := (bind c (fun x => k))
  (at level 10, x name, c at level 100, k at level 200) : exec_scope.
Notation "c ;; k" := (bind c (fun _ => k))
  (at level 100, k at level 200, right associativity) : exec_scope.
Local Open Scope exec_scope.

Definition lift {A} (c : Exc A) : Exec A := fun w => (w, c).

Definition tel_do (f : TelemetryManager -> TelemetryManager) : Exec unit :=
  fun w => (with_tel f w, inr tt).

Definition span_add_event (name : pystr) : Exec unit := tel_do (add_trace (SpanEvent name)).
Definition span_set_attribute (key : pystr) (v : value) : Exec unit :=
  tel_do (add_trace (SpanAttribute key v)).
Definition span_set_attributes (kvs : list (pystr * value)) : Exec unit :=
  tel_do (fun t => fold_left (fun t kv => add_trace (SpanAttribute (fst kv) (snd kv)) t) kvs t).
Definition span_record_exception (e : pystr) : Exec unit :=
  tel_do (add_trace (SpanException e)).

Definition with_agent_span (agent_name operation : pystr)
    (attributes : list (pystr * value)) : Exec unit :=
  fun w =>
    match create_agent_span agent_name operation attributes (tel w) with
    | inr t => (with_tel (fun _ => t) w, inr tt)
    | inl e => (w, inl e)
    end.

Definition logger_error (line : pystr) : Exec unit :=
  fun w =>
    ({| tel := tel w; ctx := ctx w; agent_calls := agent_calls w; reads := reads w;
        error_log := error_log w ++ [line]; project_client := project_client w;
        credentials := credentials w |}, inr tt).

(** [ctx.send_message] and [ctx.yield_output] *)
Definition send_message (m : Message) : Exec unit :=
  fun w => (with_ctx {| sent := sent (ctx w) ++ [m]; yielded := yielded (ctx w) |} w, inr tt).

Definition yield_output (o : FraudAlertResponse) : Exec unit :=
  fun w => (with_ctx {| sent := sent (ctx w); yielded := yielded (ctx w) ++ [o] |} w, inr tt).

Section Executors.
Context `{Unicode} `{Runtime}.

(** One read of a clock or of the UUID source. *)
Definition read {A} (source : nat -> A) : Exec A :=
  fun w =>
    ({| tel := tel w; ctx := ctx w; agent_calls := agent_calls w; reads := S (reads w);
        error_log := error_log w; project_client := project_client w;
        credentials := credentials w |},
     inr (source (reads w))).

(** A [ChatAgent] as the executors use it: its name selects the hosted agent. *)
Record ChatAgent := {
  agent_name : pystr;
  agent_description : pystr;
  agent_tools : list pystr
}.

(** [await agent.run([ChatMessage(role="user", text=prompt)])] followed by
    [response.messages[-1].text if response.messages else "No response"]. *)
Definition run_agent (agent : ChatAgent) (prompt : pystr) : Exec pystr :=
  fun w =>
    let w' :=
      {| tel := tel w; ctx := ctx w;
         agent_calls := agent_calls w ++ [(agent_name agent, prompt)];
         reads := reads w; error_log := error_log w;
         project_client := project_client w;
         credentials := credentials w |} in
    match agent_run (agent_name agent) prompt with
    | AgentRaises e => (w', inl e)
    | AgentReplies messages => (w', inr (List.last messages (py "No response")))
    end.

(** **** [CustomerDataAgentExecutor.handle] *)
Definition customer_prompt (request : AnalysisRequest) : pystr :=
  py "Analyze customer " ++ req_customer_id request ++
  py " and their transactions comprehensively for fraud detection purposes.".

Definition CustomerDataAgentExecutor_handle (agent : ChatAgent)
    (request : AnalysisRequest) : Exec unit :=
  with_agent_span (py "CustomerDataAgent") (py "data_retrieval")
    [(py "transaction_id", VStr (req_transaction_id request));
     (py "customer_id", VStr (req_customer_id request))] ;;
  span_add_event (py "Calling portal-hosted CustomerDataAgent") ;;
  tel_do (send_business_event (py "fraud_detection.customer_data.started")
    [(py "transaction_id", VStr (req_transaction_id request));
     (py "customer_id", VStr (req_customer_id request))]) ;;
  try_except
    (let prompt := customer_prompt request in
     let* start_time := read loop_time in
     let* analysis := run_agent agent prompt in
     let* end_time := read loop_time in
     let processing_time := PrimFloat.sub end_time start_time in
     span_set_attribute (py "ai.processing_time") (VFloat processing_time) ;;
     span_add_event (py "Customer data analysis completed") ;;
     tel_do (record_transaction_processed (py "customer_data") (req_transaction_id request)) ;;
     tel_do (send_business_event (py "fraud_detection.customer_data.completed")
       [(py "transaction_id", VStr (req_transaction_id request));
        (py "customer_id", VStr (req_customer_id request));
        (py "processing_time", VFloat processing_time)]) ;;
     send_message (MsgCustomerData
       {| cd_customer_id := req_customer_id request;
          cd_transaction_id := req_transaction_id request;
          cd_analysis := analysis;
          cd_status := py "SUCCESS";
          cd_amount := req_amount request;
          cd_currency := req_currency request |}))
    (fun e =>
     span_record_exception e ;;
     logger_error (py "CustomerDataAgent error: " ++ e) ;;
     send_message (MsgCustomerData
       {| cd_customer_id := req_customer_id request;
          cd_transaction_id := req_transaction_id request;
          cd_analysis := py "Error: " ++ e;
          cd_status := py "ERROR";
          cd_amount := None;
          cd_currency := Some (py "USD") |})).

(** **** [RiskAnalyserAgentExecutor.handle] *)

Definition risk_level_of (risk_score : Z) : pystr :=
  if (75 <=? risk_score)%Z then py "HIGH"
  else if (40 <=? risk_score)%Z then py "MEDIUM" else py "LOW".

Definition recommendation_of (risk_level : pystr) : pystr :=
  if decide (risk_level = py "HIGH") then py "BLOCK"
  else if decide (risk_level = py "MEDIUM") then py "INVESTIGATE" else py "ALLOW".

(** [abs(risk_score - 50) / 50] *)
Definition confidence_of (risk_score : Z) : float :=
  int_truediv (Z.abs (risk_score - 50)) 50.

Definition risk_prompt (customer_response : CustomerDataResponse) : pystr :=
  py "Based on this customer data analysis, perform a comprehensive risk assessment:"
  ++ nl ++ nl ++ cd_analysis customer_response ++ nl ++ nl ++
  py "Transaction ID: " ++ cd_transaction_id customer_response ++ nl ++
  py "Customer ID: " ++ cd_customer_id customer_response ++ nl ++ nl ++
  py "Provide a complete risk assessment with score (0-100), level (LOW/MEDIUM/HIGH), and recommendation (ALLOW/INVESTIGATE/BLOCK).".

Definition RiskAnalyserAgentExecutor_handle (agent : ChatAgent)
    (customer_response : CustomerDataResponse) : Exec unit :=
  let transaction_id := cd_transaction_id customer_response in
  let customer_id := cd_customer_id customer_response in
  with_agent_span (py "RiskAnalyserAgent") (py "risk_analysis")
    [(py "transaction_id", VStr transaction_id); (py "customer_id", VStr customer_id)] ;;
  span_add_event (py "Calling portal-hosted RiskAnalyserAgent") ;;
  tel_do (send_business_event (py "fraud_detection.risk_analysis.started")
    [(py "transaction_id", VStr transaction_id); (py "customer_id", VStr customer_id)]) ;;
  try_except
    (let prompt := risk_prompt customer_response in
     let* start_time := read loop_time in
     let* risk_analysis := run_agent agent prompt in
     let* end_time := read loop_time in
     let processing_time := PrimFloat.sub end_time start_time in
     span_set_attribute (py "ai.processing_time") (VFloat processing_time) ;;
     let* risk_score := lift (parse_risk_score risk_analysis) in
     let risk_level := risk_level_of risk_score in
     let recommendation := recommendation_of risk_level in
     span_set_attributes
       [(py "risk.score", VInt risk_score); (py "risk.level", VStr risk_level);
        (py "risk.recommendation", VStr recommendation)] ;;
     tel_do (record_risk_score risk_score transaction_id recommendation) ;;
     let confidence_score := confidence_of risk_score in
     tel_do (record_model_prediction transaction_id (py "v2.3.1") confidence_score
               risk_level [py "general_risk_assessment"]) ;;
     (if decide (recommendation ∈ [py "BLOCK"; py "INVESTIGATE"]) then
        let friction_type :=
          if decide (recommendation = py "BLOCK") then py "transaction_blocked"
          else py "step_up_auth" in
        tel_do (record_customer_friction customer_id transaction_id friction_type
                  (bool_decide (recommendation = py "BLOCK")))
      else ret tt) ;;
     tel_do (send_business_event (py "fraud_detection.risk_analysis.completed")
       [(py "transaction_id", VStr transaction_id); (py "risk_score", VInt risk_score);
        (py "risk_level", VStr risk_level); (py "recommendation", VStr recommendation)]) ;;
     send_message (MsgRiskAnalysis
       {| ra_transaction_id := transaction_id;
          ra_customer_id := customer_id;
          ra_risk_analysis := risk_analysis;
          ra_risk_score := risk_score;
          ra_risk_level := risk_level;
          ra_recommendation := recommendation;
          ra_status := py "SUCCESS";
          ra_amount := cd_amount customer_response;
          ra_currency := cd_currency customer_response;
          ra_model_confidence := Some confidence_score |}))
    (fun e =>
     span_record_exception e ;;
     logger_error (py "RiskAnalyserAgent error: " ++ e) ;;
     send_message (MsgRiskAnalysis
       {| ra_transaction_id := transaction_id;
          ra_customer_id := customer_id;
          ra_risk_analysis := py "Error: " ++ e;
          ra_risk_score := 0;
          ra_risk_level := py "UNKNOWN";
          ra_recommendation := py "INVESTIGATE";
          ra_status := py "ERROR";
          ra_amount := None;
          ra_currency := Some (py "USD");
          ra_model_confidence := None |})).

(** **** [FraudAlertAgentExecutor.handle] *)

Definition severity_of (risk_score : Z) : pystr :=
  if (90 <=? risk_score)%Z then py "CRITICAL"
  else if (75 <=? risk_score)%Z then py "HIGH"
  else if (50 <=? risk_score)%Z then py "MEDIUM" else py "LOW".

(** [risk_response.recommendation == "BLOCK" and risk_response.amount]: the
    amount is truthy when it is neither [None] nor zero. *)
Definition prevented_condition (recommendation : pystr) (amount : option float) : bool :=
  match amount with
  | Some a => bool_decide (recommendation = py "BLOCK") && float_truthy a
  | None => false
  end.

(** [(risk_response.amount or 0) >= 10000] *)
Definition amount_threshold_exceeded (amount : option float) : bool :=
  match amount with
  | Some a => if float_truthy a then float_ge a 10000%float else (10000 <=? 0)%Z
  | None => (10000 <=? 0)%Z
  end.

(** [risk_response.currency or "USD"] *)
Definition currency_or_usd (currency : option pystr) : pystr :=
  match currency with
  | Some (c :: cs) => c :: cs
  | Some [] | None => py "USD"
  end.

(** ["alert created" in alert_response.lower() or risk_score >= 40] *)
Definition alert_created_of (alert_response : pystr) (risk_score : Z) : bool :=
  contains (str_lower alert_response) (py "alert created") || (40 <=? risk_score)%Z.

Definition alert_prompt (risk_response : RiskAnalysisResponse) : pystr :=
  py "Based on this risk analysis, determine if a fraud alert should be created:"
  ++ nl ++ nl ++
  py "Risk Analysis:" ++ nl ++ ra_risk_analysis risk_response ++ nl ++ nl ++
  py "Transaction ID: " ++ ra_transaction_id risk_response ++ nl ++
  py "Customer ID: " ++ ra_customer_id risk_response ++ nl ++
  py "Risk Score: " ++ str_of_Z (ra_risk_score risk_response) ++ py "/100" ++ nl ++
  py "Risk Level: " ++ ra_risk_level risk_response ++ nl ++
  py "Recommendation: " ++ ra_recommendation risk_response ++ nl ++
  py "Severity: " ++ severity_of (ra_risk_score risk_response) ++ nl ++ nl ++
  py "If risk score >= 40, create a fraud alert. Otherwise explain why no alert is needed.".

Definition FraudAlertAgentExecutor_handle (agent : ChatAgent)
    (risk_response : RiskAnalysisResponse) : Exec unit :=
  let transaction_id := ra_transaction_id risk_response in
  let customer_id := ra_customer_id risk_response in
  let risk_score := ra_risk_score risk_response in
  let recommendation := ra_recommendation risk_response in
  with_agent_span (py "FraudAlertAgent") (py "alert_creation")
    [(py "transaction_id", VStr transaction_id); (py "customer_id", VStr customer_id)] ;;
  span_add_event (py "Calling portal-hosted FraudAlertAgent") ;;
  tel_do (send_business_event (py "fraud_detection.fraud_alert.started")
    [(py "transaction_id", VStr transaction_id); (py "risk_score", VInt risk_score);
     (py "risk_level", VStr (ra_risk_level risk_response))]) ;;
  try_except
    (let severity := severity_of risk_score in
     let prompt := alert_prompt risk_response in
     let* start_time := read loop_time in
     let* alert_response := run_agent agent prompt in
     let* end_time := read loop_time in
     let processing_time := PrimFloat.sub end_time start_time in
     span_set_attribute (py "ai.processing_time") (VFloat processing_time) ;;
     let alert_created := alert_created_of alert_response risk_score in
     (if alert_created then
        tel_do (record_fraud_alert_created (py "ALERT-" ++ transaction_id) severity
                  recommendation transaction_id) ;;
        (if prevented_condition recommendation (ra_amount risk_response) then
           tel_do (record_fraud_prevented transaction_id
                     (default 0%float (ra_amount risk_response))
                     (currency_or_usd (ra_currency risk_response))
                     (py "general_fraud") risk_score)
         else ret tt) ;;
        let amount_threshold := amount_threshold_exceeded (ra_amount risk_response) in
        (if bool_decide (severity ∈ [py "CRITICAL"; py "HIGH"]) || amount_threshold then
           let* year := read now_year in
           let* uuid := read uuid4_hex8_upper in
           let sar_id := py "SAR-" ++ year ++ py "-" ++ uuid in
           let* filing_deadline := read now_plus_30_days in
           tel_do (record_sar_filed transaction_id sar_id filing_deadline
                     amount_threshold customer_id)
         else ret tt)
      else ret tt) ;;
     let shown_severity := if alert_created then severity else py "NONE" in
     span_set_attributes
       [(py "alert.created", VBool alert_created); (py "alert.severity", VStr shown_severity)] ;;
     tel_do (send_business_event (py "fraud_detection.fraud_alert.completed")
       [(py "transaction_id", VStr transaction_id); (py "alert_created", VBool alert_created);
        (py "severity", VStr shown_severity)]) ;;
     yield_output
       {| fa_transaction_id := transaction_id;
          fa_customer_id := customer_id;
          fa_alert_response := alert_response;
          fa_alert_created := alert_created;
          fa_workflow_status := py "SUCCESS";
          fa_risk_score := risk_score;
          fa_risk_level := ra_risk_level risk_response |})
    (fun e =>
     span_record_exception e ;;
     logger_error (py "FraudAlertAgent error: " ++ e) ;;
     yield_output
       {| fa_transaction_id := transaction_id;
          fa_customer_id := customer_id;
          fa_alert_response := py "Error: " ++ e;
          fa_alert_created := false;
          fa_workflow_status := py "ERROR";
          fa_risk_score := risk_score;
          fa_risk_level := ra_risk_level risk_response |}).

(** *** The workflow graph *)

(** An executor of the agent framework: its id and its handler, which takes
    the messages of the type it is declared for. *)
Record Executor := {
  executor_id : pystr;
  handler : Message -> option (Exec unit)
}.

Definition CustomerDataAgentExecutor (agent : ChatAgent) : Executor :=
  {| executor_id := py "CustomerDataAgent";
     handler := fun m =>
       match m with
       | MsgRequest request => Some (CustomerDataAgentExecutor_handle agent request)
       | _ => None
       end |}.

Definition RiskAnalyserAgentExecutor (agent : ChatAgent) : Executor :=
  {| executor_id := py "RiskAnalyserAgent";
     handler := fun m =>
       match m with
       | MsgCustomerData response => Some (RiskAnalyserAgentExecutor_handle agent response)
       | _ => None
       end |}.

Definition FraudAlertAgentExecutor (agent : ChatAgent) : Executor :=
  {| executor_id := py "FraudAlertAgent";
     handler := fun m =>
       match m with
       | MsgRiskAnalysis response => Some (FraudAlertAgentExecutor_handle agent response)
       | _ => None
       end |}.

(** The framework's [WorkflowBuilder] and the [Workflow] it builds. *)
Record WorkflowBuilder := {
  registered : list (pystr * Executor);
  edges : list (pystr * pystr);
  start_executor : option pystr
}.

Definition new_builder : WorkflowBuilder :=
  {| registered := []; edges := []; start_executor := None |}.

Definition register_executor (factory : Executor) (name : pystr) (b : WorkflowBuilder) :=
  {| registered := registered b ++ [(name, factory)]; edges := edges b;
     start_executor := start_executor b |}.

Definition add_edge (source target : pystr) (b : WorkflowBuilder) :=
  {| registered := registered b; edges := edges b ++ [(source, target)];
     start_executor := start_executor b |}.

Definition set_start_executor (name : pystr) (b : WorkflowBuilder) :=
  {| registered := registered b; edges := edges b; start_executor := Some name |}.

Record Workflow := {
  wf_executors : list (pystr * Executor);
  wf_edges : list (pystr * pystr);
  wf_start : pystr
}.

Definition is_registered (b : WorkflowBuilder) (name : pystr) : bool :=
  bool_decide (name ∈ map fst (registered b)).

(** [build()]: refuses a graph with no start executor or with a name that
    was never registered. *)
Definition build (b : WorkflowBuilder) : Exc Workflow :=
  match start_executor b with
  | None => inl (py "Starting executor must be set before building the workflow")
  | Some start =>
      if is_registered b start
         && forallb (fun e => is_registered b (fst e) && is_registered b (snd e)) (edges b)
      then inr {| wf_executors := registered b; wf_edges := edges b; wf_start := start |}
      else inl (py "Unknown executor name")
  end.

Definition lookup_executor (wf : Workflow) (name : pystr) : option Executor :=
  snd <$> List.find (fun e => bool_decide (fst e = name)) (wf_executors wf).

Definition successors (wf : Workflow) (name : pystr) : list pystr :=
  map snd (List.filter (fun e => bool_decide (fst e = name)) (wf_edges wf)).

(** What one delivery produces: the messages routed on to the successors of
    the executor, and the outputs it yielded. *)
Abbreviation delivery := (list (pystr * Message) * list FraudAlertResponse)%type.

(** Deliver one message: the target's handler runs in a context of its own;
    what it sent goes to every successor of the target.  A message of a type
    the target has no handler for is dropped. *)
Definition deliver (wf : Workflow) (target : pystr) (m : Message) : Exec delivery :=
  match lookup_executor wf target with
  | None => ret ([], [])
  | Some ex =>
      match handler ex m with
      | None => ret ([], [])
      | Some h =>
          fun w =>
            match h (with_ctx fresh_ctx w) with
            | (w', inr _) =>
                (with_ctx fresh_ctx w',
                 inr (flat_map (fun m' => map (fun s => (s, m')) (successors wf target))
                        (sent (ctx w')),
                      yielded (ctx w')))
            | (w', inl e) => (with_ctx fresh_ctx w', inl e)
            end
      end
  end.

Fixpoint deliver_all (wf : Workflow) (pending : list (pystr * Message)) : Exec delivery :=
  match pending with
  | [] => ret ([], [])
  | (target, m) :: pending' =>
      let* d := deliver wf target m in
      let* ds := deliver_all wf pending' in
      ret (fst d ++ fst ds, snd d ++ snd ds)
  end.

(** Supersteps: deliver everything pending, then what that sent, until
    nothing is pending; at most [fuel] supersteps. *)
Fixpoint run_supersteps (fuel : nat) (wf : Workflow) (pending : list (pystr * Message))
    : Exec (list FraudAlertResponse) :=
  match pending with
  | [] => ret []
  | _ :: _ =>
      match fuel with
      | O => raise (py "Workflow did not converge within the maximum number of iterations")
      | S fuel' =>
          let* d := deliver_all wf pending in
          let* outputs := run_supersteps fuel' wf (fst d) in
          ret (snd d ++ outputs)
      end
  end.

(** The framework's default bound on supersteps. *)
Definition DEFAULT_MAX_ITERATIONS : nat := 100.

(** [workflow.run_stream(request)]: the data of the [WorkflowOutputEvent]s,
    in order. *)
Definition run_stream (wf : Workflow) (request : AnalysisRequest)
    : Exec (list FraudAlertResponse) :=
  run_supersteps DEFAULT_MAX_ITERATIONS wf [(wf_start wf, MsgRequest request)].

(** *** [run_fraud_detection_workflow] *)

(** [get_project_client]: the shared client.  While the module has none, a
    new [DefaultAzureCredential()] is bound to the module global
    [_credential] first, and the client is then made for
    [os.environ["AI_FOUNDRY_PROJECT_ENDPOINT"]]: an unset variable raises
    [KeyError] with the new credential already bound. *)
Definition get_project_client : Exec pystr :=
  fun w =>
    match project_client w with
    | Some client => (w, inr client)
    | None =>
        let w1 :=
          {| tel := tel w; ctx := ctx w; agent_calls := agent_calls w;
             reads := reads w; error_log := error_log w;
             project_client := None; credentials := S (credentials w) |} in
        match environ (py "AI_FOUNDRY_PROJECT_ENDPOINT") with
        | Some endpoint =>
            ({| tel := tel w1; ctx := ctx w1; agent_calls := agent_calls w1;
                reads := reads w1; error_log := error_log w1;
                project_client := Some endpoint;
                credentials := credentials w1 |}, inr endpoint)
        | None => (w1, inl (py "'AI_FOUNDRY_PROJECT_ENDPOINT'"))
        end
    end.

Definition customer_data_agent : ChatAgent :=
  {| agent_name := CUSTOMER_DATA_AGENT_NAME;
     agent_description := py "Retrieves customer data from Cosmos DB";
     agent_tools := [py "get_customer_data"; py "get_customer_transactions"] |}.

Definition risk_analyser_agent : ChatAgent :=
  {| agent_name := RISK_ANALYSER_AGENT_NAME;
     agent_description := py "Analyzes transaction risk";
     agent_tools := [py "analyze_transaction_risk"] |}.

Definition fraud_alert_agent : ChatAgent :=
  {| agent_name := FRAUD_ALERT_AGENT_NAME;
     agent_description := py "Creates fraud alerts";
     agent_tools := [py "create_fraud_alert"; py "get_fraud_alert"] |}.

(** The builder chain of [run_fraud_detection_workflow] and of [main], up
    to [build()]. *)
Definition fraud_detection_builder : WorkflowBuilder :=
  set_start_executor (py "CustomerDataAgent")
    (add_edge (py "RiskAnalyserAgent") (py "FraudAlertAgent")
       (add_edge (py "CustomerDataAgent") (py "RiskAnalyserAgent")
          (register_executor (FraudAlertAgentExecutor fraud_alert_agent) (py "FraudAlertAgent")
             (register_executor (RiskAnalyserAgentExecutor risk_analyser_agent)
                (py "RiskAnalyserAgent")
                (register_executor (CustomerDataAgentExecutor customer_data_agent)
                   (py "CustomerDataAgent") new_builder))))).

(** The workflow that [build()] returns for that chain. *)
Definition fraud_detection_workflow : Workflow :=
  {| wf_executors :=
       [(py "CustomerDataAgent", CustomerDataAgentExecutor customer_data_agent);
        (py "RiskAnalyserAgent", RiskAnalyserAgentExecutor risk_analyser_agent);
        (py "FraudAlertAgent", FraudAlertAgentExecutor fraud_alert_agent)];
     wf_edges :=
       [(py "CustomerDataAgent", py "RiskAnalyserAgent");
        (py "RiskAnalyserAgent", py "FraudAlertAgent")];
     wf_start := py "CustomerDataAgent" |}.

Definition run_fraud_detection_workflow (transaction_id customer_id : pystr)
    (amount : option float) (currency : option pystr) : Exec (option FraudAlertResponse) :=
  let* project_client := get_project_client in
  let* workflow := lift (build fraud_detection_builder) in
  let request :=
    {| req_transaction_id := transaction_id; req_customer_id := customer_id;
       req_amount := amount; req_currency := currency |} in
  let* outputs := run_stream workflow request in
  ret (List.last (map Some outputs) None).

End Executors.

Arguments CustomerDataAgentExecutor_handle : simpl never.
Arguments RiskAnalyserAgentExecutor_handle : simpl never.
Arguments FraudAlertAgentExecutor_handle : simpl never.

Arguments amount_threshold_exceeded : simpl never.
Arguments prevented_condition : simpl never.

(** *** Sample worlds, for the worked examples *)

Definition empty_telemetry : TelemetryManager :=
  {| initialized := false; metrics := []; events := []; trace_log := [] |}.

(** The world after [initialize_telemetry()], before any run. *)
Definition initial_world : World :=
  {| tel := initialize_observability empty_telemetry; ctx := fresh_ctx;
     agent_calls := []; reads := 0; error_log := []; project_client := None;
     credentials := 0 |}.

(** A world whose telemetry was never initialised, with a project client:
    what a handler finds when [initialize_telemetry()] ran on another
    telemetry manager than the one the handlers use. *)
Definition cold_world : World :=
  {| tel := empty_telemetry; ctx := fresh_ctx; agent_calls := []; reads := 0;
     error_log := [];
     project_client := Some (py "https://foundry.example/api/projects/fraud");
     credentials := 1 |}.

(** The message of the [AttributeError] that a [None] tracer gives. *)
Definition no_tracer : pystr :=
  py "'NoneType' object has no attribute 'start_as_current_span'".

(** The message of the [KeyError] for the unset endpoint variable. *)
Definition no_endpoint : pystr := py "'AI_FOUNDRY_PROJECT_ENDPOINT'".

(** A runtime whose agents answer: the risk analyser with a score of 82 and
    the alert agent with a confirmation. *)
Definition answering_runtime : Runtime :=
  {| agent_run := fun name _ =>
       if decide (name = RISK_ANALYSER_AGENT_NAME)
       then AgentReplies [py "Overall assessment."; py "Risk Score: 82/100 (HIGH)"]
       else if decide (name = FRAUD_ALERT_AGENT_NAME)
       then AgentReplies [py "Alert created: ALERT-TX1001"]
       else AgentReplies [py "Customer CUST1001 has 3 recent transactions."];
     loop_time := fun n => float_of_int (Z.of_nat n);
     now_year := fun _ => py "2026";
     now_plus_30_days := fun _ => py "2026-12-04";
     uuid4_hex8_upper := fun _ => py "1A2B3C4D";
     environ := fun name =>
       if decide (name = py "AI_FOUNDRY_PROJECT_ENDPOINT")
       then Some (py "https://foundry.example/api/projects/fraud") else None |}.

(** A runtime whose agents all fail. *)
Definition failing_runtime : Runtime :=
  {| agent_run := fun _ _ => AgentRaises (py "service unavailable");
     loop_time := fun n => float_of_int (Z.of_nat n);
     now_year := fun _ => py "2026";
     now_plus_30_days := fun _ => py "2026-12-04";
     uuid4_hex8_upper := fun _ => py "1A2B3C4D";
     environ := fun name =>
       if decide (name = py "AI_FOUNDRY_PROJECT_ENDPOINT")
       then Some (py "https://foundry.example/api/projects/fraud") else None |}.

Definition sample_request : AnalysisRequest :=
  {| req_transaction_id := py "TX1001"; req_customer_id := py "CUST1001";
     req_amount := Some 5200%float; req_currency := Some (py "USD") |}.

Definition sample_customer_response : CustomerDataResponse :=
  {| cd_customer_id := py "CUST1001"; cd_transaction_id := py "TX1001";
     cd_analysis := py "Customer CUST1001 has 3 recent transactions.";
     cd_status := py "SUCCESS"; cd_amount := Some 5200%float;
     cd_currency := Some (py "USD") |}.

Definition sample_risk_response : RiskAnalysisResponse :=
  {| ra_transaction_id := py "TX1001"; ra_customer_id := py "CUST1001";
     ra_risk_analysis := py "Risk Score: 82/100 (HIGH)";
     ra_risk_score := 82; ra_risk_level := py "HIGH";
     ra_recommendation := py "BLOCK"; ra_status := py "SUCCESS";
     ra_amount := Some 5200%float; ra_currency := Some (py "USD");
     ra_model_confidence := Some (confidence_of 82) |}.

(** *** Facts about the executors and the graph *)

Ltac exec_unfold :=
  unfold bind, try_except, with_agent_span, span_add_event, span_set_attribute,
    span_set_attributes, tel_do, read, run_agent, span_record_exception,
    logger_error, send_message, yield_output, lift, ret, create_agent_span.

Ltac split_if :=
  match goal with
  | |- context [if ?c then _ else _] => destruct c eqn:?
  end.

(** Expose the fields of a world whose telemetry is initialised. *)
Ltac open_world w Hi :=
  destruct w as [[? ? ? ?] ? ? ? ? ? ?]; simpl in Hi; subst.

(** Refute an equation between two distinct literals. *)
Ltac py_discr :=
  match goal with
  | H : py _ = py _ |- _ => by vm_compute in H
  | H : py _ ≠ py _ |- _ => by exfalso; apply H
  end.

(** Decide a closed proposition by evaluation. *)
Ltac by_eval :=
  first [ refine (bool_decide_unpack _ _); vm_compute; exact I
        | let HP := fresh in
          intros HP; apply (bool_decide_pack _) in HP; vm_compute in HP; exact HP ].

Ltac eval_decide :=
  match goal with
  | |- context [decide ?P] =>
      first [ rewrite (decide_True (P:=P)) by by_eval
            | rewrite (decide_False (P:=P)) by by_eval ]
  | |- context [bool_decide ?P] =>
      first [ rewrite (bool_decide_eq_true_2 P) by by_eval
            | rewrite (bool_decide_eq_false_2 P) by by_eval ]
  end.

(** Filter a list of events whose names are literals. *)
Ltac filter_events :=
  cbn [app];
  repeat (rewrite filter_cons; cbn [event_name]; eval_decide);
  rewrite ?filter_nil.

(** A zero amount is below the reporting threshold, so [(amount or 0)] may
    be read as the amount with 0.0 for an absent one. *)
Lemma zero_below_threshold (a : float) :
  PrimFloat.eqb a 0 = true -> PrimFloat.leb 10000 a = false.
Proof.
  rewrite FloatAxioms.eqb_spec, FloatAxioms.leb_spec.
  destruct (Prim2SF a) as [s|s| |s m e]; try destruct s; vm_compute; congruence.
Qed.

Lemma amount_threshold_exceeded_spec (amount : option float) :
  amount_threshold_exceeded amount = float_ge (default 0%float amount) 10000.
Proof.
  unfold amount_threshold_exceeded, float_ge, float_truthy.
  destruct amount as [a|]; [|reflexivity]. simpl.
  destruct (PrimFloat.eqb a 0) eqn:E; [|reflexivity].
  simpl. symmetry. by apply zero_below_threshold.
Qed.

Section Facts.
Context `{Unicode} `{Runtime}.

Lemma build_fraud_detection_workflow :
  build fraud_detection_builder = inr fraud_detection_workflow.
Proof. reflexivity. Qed.

Lemma with_ctx_idem c c' w : with_ctx c (with_ctx c' w) = with_ctx c w.
Proof. reflexivity. Qed.

(** Every handler returns, having sent or yielded exactly one value. *)
Lemma customer_handle_total agent request w :
  initialized (tel w) = true ->
  exists w' m,
    CustomerDataAgentExecutor_handle agent request w = (w', inr tt) /\
    ctx w' = {| sent := sent (ctx w) ++ [MsgCustomerData m]; yielded := yielded (ctx w) |} /\
    initialized (tel w') = true.
Proof.
  intros Hi. open_world w Hi.
  unfold CustomerDataAgentExecutor_handle. exec_unfold. cbn.
  destruct (agent_run _ _); cbn; eauto 10.
Qed.

Lemma risk_handle_total agent response w :
  initialized (tel w) = true ->
  exists w' m,
    RiskAnalyserAgentExecutor_handle agent response w = (w', inr tt) /\
    ctx w' = {| sent := sent (ctx w) ++ [MsgRiskAnalysis m]; yielded := yielded (ctx w) |} /\
    initialized (tel w') = true.
Proof.
  intros Hi. open_world w Hi.
  unfold RiskAnalyserAgentExecutor_handle. exec_unfold. cbn.
  destruct (agent_run _ _) as [e|msgs]; cbn; [eauto 10|].
  destruct (parse_risk_score_in_range (List.last msgs (py "No response"))) as (s & -> & _).
  cbn. case_decide; cbn; eauto 10.
Qed.

Lemma fraud_handle_total agent response w :
  initialized (tel w) = true ->
  exists w' out,
    FraudAlertAgentExecutor_handle agent response w = (w', inr tt) /\
    ctx w' = {| sent := sent (ctx w); yielded := yielded (ctx w) ++ [out] |} /\
    initialized (tel w') = true.
Proof.
  intros Hi. open_world w Hi.
  unfold FraudAlertAgentExecutor_handle. exec_unfold. cbn.
  destruct (agent_run _ _) as [e|msgs]; cbn; [eauto 10|].
  destruct (alert_created_of _ _); cbn; [|eauto 10].
  repeat (split_if; cbn); eauto 10.
Qed.

(** How the graph delivers to each of its three executors. *)
Lemma deliver_customer request w :
  deliver fraud_detection_workflow (py "CustomerDataAgent") (MsgRequest request) w =
  match CustomerDataAgentExecutor_handle customer_data_agent request (with_ctx fresh_ctx w) with
  | (w', inr _) =>
      (with_ctx fresh_ctx w',
       inr (flat_map (fun m => [(py "RiskAnalyserAgent", m)]) (sent (ctx w')),
            yielded (ctx w')))
  | (w', inl e) => (with_ctx fresh_ctx w', inl e)
  end.
Proof. reflexivity. Qed.

Lemma deliver_risk response w :
  deliver fraud_detection_workflow (py "RiskAnalyserAgent") (MsgCustomerData response) w =
  match RiskAnalyserAgentExecutor_handle risk_analyser_agent response (with_ctx fresh_ctx w) with
  | (w', inr _) =>
      (with_ctx fresh_ctx w',
       inr (flat_map (fun m => [(py "FraudAlertAgent", m)]) (sent (ctx w')),
            yielded (ctx w')))
  | (w', inl e) => (with_ctx fresh_ctx w', inl e)
  end.
Proof. reflexivity. Qed.

Lemma deliver_fraud response w :
  deliver fraud_detection_workflow (py "FraudAlertAgent") (MsgRiskAnalysis response) w =
  match FraudAlertAgentExecutor_handle fraud_alert_agent response (with_ctx fresh_ctx w) with
  | (w', inr _) =>
      (with_ctx fresh_ctx w',
       inr (flat_map (fun m => []) (sent (ctx w')), yielded (ctx w')))
  | (w', inl e) => (with_ctx fresh_ctx w', inl e)
  end.
Proof. reflexivity. Qed.

(** One superstep with a single pending message. *)
Lemma superstep_single fuel wf target m w w' next outs :
  deliver wf target m w = (w', inr (next, outs)) ->
  run_supersteps (S fuel) wf [(target, m)] w =
  match run_supersteps fuel wf next w' with
  | (w'', inr o) => (w'', inr (outs ++ o))
  | (w'', inl e) => (w'', inl e)
  end.
Proof.
  intros Hd. cbn [run_supersteps deliver_all]. unfold bind, ret. rewrite Hd.
  cbn [fst snd]. rewrite !app_nil_r. reflexivity.
Qed.

(** Three supersteps run the three handlers one after the other, each on
    what the one before sent; any larger bound gives the same result. *)
Lemma run_chain fuel request w :
  initialized (tel w) = true ->
  exists w1 w2 w3 m1 m2 out,
    CustomerDataAgentExecutor_handle customer_data_agent request (with_ctx fresh_ctx w)
      = (w1, inr tt) /\
    ctx w1 = {| sent := [MsgCustomerData m1]; yielded := [] |} /\
    RiskAnalyserAgentExecutor_handle risk_analyser_agent m1 (with_ctx fresh_ctx w1)
      = (w2, inr tt) /\
    ctx w2 = {| sent := [MsgRiskAnalysis m2]; yielded := [] |} /\
    FraudAlertAgentExecutor_handle fraud_alert_agent m2 (with_ctx fresh_ctx w2)
      = (w3, inr tt) /\
    ctx w3 = {| sent := []; yielded := [out] |} /\
    run_supersteps (S (S (S fuel))) fraud_detection_workflow
      [(py "CustomerDataAgent", MsgRequest request)] w
      = (with_ctx fresh_ctx w3, inr [out]).
Proof.
  intros Hi.
  destruct (customer_handle_total customer_data_agent request (with_ctx fresh_ctx w) Hi)
    as (w1 & m1 & E1 & C1 & I1).
  destruct (risk_handle_total risk_analyser_agent m1 (with_ctx fresh_ctx w1) I1)
    as (w2 & m2 & E2 & C2 & I2).
  destruct (fraud_handle_total fraud_alert_agent m2 (with_ctx fresh_ctx w2) I2)
    as (w3 & out & E3 & C3 & I3).
  simpl in C1, C2, C3.
  exists w1, w2, w3, m1, m2, out. repeat split; try done.
  erewrite superstep_single; last by rewrite deliver_customer, E1, C1.
  cbn [flat_map app sent yielded].
  erewrite superstep_single; last by rewrite deliver_risk, with_ctx_idem, E2, C2.
  cbn [flat_map app sent yielded].
  erewrite superstep_single; last by rewrite deliver_fraud, with_ctx_idem, E3, C3.
  cbn [flat_map app sent yielded]. by destruct fuel.
Qed.

Lemma successors_at_most_one name :
  (length (successors fraud_detection_workflow name) <= 1)%nat.
Proof.
  unfold successors. cbn [wf_edges fraud_detection_workflow List.filter fst snd].
  destruct (bool_decide (py "CustomerDataAgent" = name)) eqn:E1;
    destruct (bool_decide (py "RiskAnalyserAgent" = name)) eqn:E2; cbn; try lia.
  apply bool_decide_eq_true in E1, E2. subst. discriminate.
Qed.

(** C2.  The fraud-detection workflow is a fixed chain of three executors,
    CustomerDataAgent -> RiskAnalyserAgent -> FraudAlertAgent, starting at
    CustomerDataAgent, and no executor has more than one successor; with the
    telemetry initialised and the project client obtainable, what
    [run_fraud_detection_workflow] returns is the output of the three
    handlers run one after the other, each on the message of the one before. *)
Theorem fraud_workflow_is_sequential_chain
    (transaction_id customer_id : pystr) (amount : option float)
    (currency : option pystr) (w : World) :
  initialized (tel w) = true ->
  is_Some (project_client w) \/ is_Some (environ (py "AI_FOUNDRY_PROJECT_ENDPOINT")) ->
  let request :=
    {| req_transaction_id := transaction_id; req_customer_id := customer_id;
       req_amount := amount; req_currency := currency |} in
  (build fraud_detection_builder = inr fraud_detection_workflow /\
   map fst (wf_executors fraud_detection_workflow)
     = [py "CustomerDataAgent"; py "RiskAnalyserAgent"; py "FraudAlertAgent"] /\
   wf_edges fraud_detection_workflow
     = [(py "CustomerDataAgent", py "RiskAnalyserAgent");
        (py "RiskAnalyserAgent", py "FraudAlertAgent")] /\
   wf_start fraud_detection_workflow = py "CustomerDataAgent" /\
   forall name, (length (successors fraud_detection_workflow name) <= 1)%nat) /\
  exists client w0 w1 w2 w3 m1 m2 out,
    get_project_client w = (w0, inr client) /\
    CustomerDataAgentExecutor_handle customer_data_agent request (with_ctx fresh_ctx w0)
      = (w1, inr tt) /\
    ctx w1 = {| sent := [MsgCustomerData m1]; yielded := [] |} /\
    RiskAnalyserAgentExecutor_handle risk_analyser_agent m1 (with_ctx fresh_ctx w1)
      = (w2, inr tt) /\
    ctx w2 = {| sent := [MsgRiskAnalysis m2]; yielded := [] |} /\
    FraudAlertAgentExecutor_handle fraud_alert_agent m2 (with_ctx fresh_ctx w2)
      = (w3, inr tt) /\
    ctx w3 = {| sent := []; yielded := [out] |} /\
    run_fraud_detection_workflow transaction_id customer_id amount currency w
      = (with_ctx fresh_ctx w3, inr (Some out)).
Proof.
  intros Hi Hclient request.
  split; [repeat split; auto using successors_at_most_one|].
  assert (exists client w0, get_project_client w = (w0, inr client) /\
            initialized (tel w0) = true) as (client & w0 & Hg & Hi0).
  { unfold get_project_client.
    destruct (project_client w) as [c|] eqn:Hc; [eauto|].
    destruct Hclient as [[c Hc']|[endpoint ->]]; [discriminate|]. eauto. }
  destruct (run_chain 97 request w0 Hi0)
    as (w1 & w2 & w3 & m1 & m2 & out & E1 & C1 & E2 & C2 & E3 & C3 & Hrun).
  exists client, w0, w1, w2, w3, m1, m2, out. repeat split; try done.
  unfold run_fraud_detection_workflow, run_stream, bind, lift, ret.
  rewrite Hg, build_fraud_detection_workflow.
  change DEFAULT_MAX_ITERATIONS with (S (S (S 97))).
  cbn [wf_start fraud_detection_workflow]. fold request. rewrite Hrun. reflexivity.
Qed.


Lemma risk_level_of_cases (s : Z) :
  (risk_level_of s = py "HIGH" <-> (75 <= s)%Z) /\
  (risk_level_of s = py "MEDIUM" <-> (40 <= s < 75)%Z) /\
  (risk_level_of s = py "LOW" <-> (s < 40)%Z).
Proof.
  unfold risk_level_of.
  destruct (Z.leb_spec 75 s); [|destruct (Z.leb_spec 40 s)];
    repeat split; intros; try lia; try done; py_discr.
Qed.

Lemma recommendation_of_cases (s : Z) :
  let level := risk_level_of s in
  (recommendation_of level = py "BLOCK" <-> level = py "HIGH") /\
  (recommendation_of level = py "INVESTIGATE" <-> level = py "MEDIUM") /\
  (recommendation_of level = py "ALLOW" <-> level = py "LOW").
Proof.
  unfold recommendation_of, risk_level_of.
  destruct (75 <=? s)%Z; [|destruct (40 <=? s)%Z];
    repeat case_decide; repeat split; intros; try done; py_discr.
Qed.

Lemma confidence_of_bounds (s : Z) :
  (0 <= s <= 100)%Z ->
  PrimFloat.leb 0 (confidence_of s) = true /\ PrimFloat.leb (confidence_of s) 1 = true.
Proof.
  intros Hs.
  assert (Hall : forallb (fun n => PrimFloat.leb 0 (confidence_of (Z.of_nat n))
                                   && PrimFloat.leb (confidence_of (Z.of_nat n)) 1)
                   (List.seq 0 101) = true) by (vm_compute; reflexivity).
  rewrite forallb_forall in Hall.
  specialize (Hall (Z.to_nat s)). rewrite Z2Nat.id in Hall by lia.
  apply andb_true_iff. apply Hall. apply in_seq. lia.
Qed.

(** C8.  Whatever the reply text, the response of a successful RiskAnalyser
    stage has a risk score in [[0,100]], level "HIGH" iff the score is at
    least 75, "MEDIUM" iff it is in [[40,75)], "LOW" iff below 40,
    recommendation "BLOCK", "INVESTIGATE", "ALLOW" iff the level is "HIGH",
    "MEDIUM", "LOW", and model confidence |score - 50| / 50, in [[0,1]]. *)
Theorem risk_response_invariant agent response w messages :
  initialized (tel w) = true ->
  agent_run (agent_name agent) (risk_prompt response) = AgentReplies messages ->
  exists w' m,
    RiskAnalyserAgentExecutor_handle agent response w = (w', inr tt) /\
    ctx w' = {| sent := sent (ctx w) ++ [MsgRiskAnalysis m]; yielded := yielded (ctx w) |} /\
    ra_status m = py "SUCCESS" /\
    parse_risk_score (List.last messages (py "No response")) = inr (ra_risk_score m) /\
    (0 <= ra_risk_score m <= 100)%Z /\
    (ra_risk_level m = py "HIGH" <-> (75 <= ra_risk_score m)%Z) /\
    (ra_risk_level m = py "MEDIUM" <-> (40 <= ra_risk_score m < 75)%Z) /\
    (ra_risk_level m = py "LOW" <-> (ra_risk_score m < 40)%Z) /\
    (ra_recommendation m = py "BLOCK" <-> ra_risk_level m = py "HIGH") /\
    (ra_recommendation m = py "INVESTIGATE" <-> ra_risk_level m = py "MEDIUM") /\
    (ra_recommendation m = py "ALLOW" <-> ra_risk_level m = py "LOW") /\
    exists c, ra_model_confidence m = Some c /\
      c = int_truediv (Z.abs (ra_risk_score m - 50)) 50 /\
      PrimFloat.leb 0 c = true /\ PrimFloat.leb c 1 = true.
Proof.
  intros Hi Ha. open_world w Hi.
  unfold RiskAnalyserAgentExecutor_handle. exec_unfold. cbn.
  rewrite Ha. cbn.
  destruct (parse_risk_score_in_range (List.last messages (py "No response")))
    as (s & Hs & Hr).
  rewrite Hs. cbn.
  destruct (risk_level_of_cases s) as (? & ? & ?).
  destruct (recommendation_of_cases s) as (? & ? & ?).
  destruct (confidence_of_bounds s Hr) as [? ?].
  case_decide; cbn; do 2 eexists; (split; [reflexivity|]); cbn;
    repeat split; try done; try tauto; eauto.
Qed.

Lemma severity_of_cases (s : Z) :
  (severity_of s = py "CRITICAL" <-> (90 <= s)%Z) /\
  (severity_of s = py "HIGH" <-> (75 <= s < 90)%Z) /\
  (severity_of s = py "MEDIUM" <-> (50 <= s < 75)%Z) /\
  (severity_of s = py "LOW" <-> (s < 50)%Z).
Proof.
  unfold severity_of.
  destruct (Z.leb_spec 90 s); [|destruct (Z.leb_spec 75 s); [|destruct (Z.leb_spec 50 s)]];
    repeat split; intros; try lia; try done; py_discr.
Qed.

Lemma alert_created_of_spec reply score :
  alert_created_of reply score = true <->
  contains (str_lower reply) (py "alert created") = true \/ (40 <= score)%Z.
Proof. unfold alert_created_of. rewrite orb_true_iff, Z.leb_le. tauto. Qed.

(** C4.  In a successful FraudAlert stage, [alert_created] is true iff the
    lowercased reply contains "alert created" or the incoming risk score is
    at least 40; the severity attached to a created alert (in the alert
    metric and in the completion event) is "CRITICAL" iff the score is at
    least 90, "HIGH" iff in [[75,90)], "MEDIUM" iff in [[50,75)], "LOW"
    otherwise. *)
Theorem alert_creation_and_severity agent response w messages :
  initialized (tel w) = true ->
  agent_run (agent_name agent) (alert_prompt response) = AgentReplies messages ->
  let reply := List.last messages (py "No response") in
  let score := ra_risk_score response in
  exists w' out severity,
    FraudAlertAgentExecutor_handle agent response w = (w', inr tt) /\
    ctx w' = {| sent := sent (ctx w); yielded := yielded (ctx w) ++ [out] |} /\
    fa_workflow_status out = py "SUCCESS" /\
    (fa_alert_created out = true <->
       contains (str_lower reply) (py "alert created") = true \/ (40 <= score)%Z) /\
    (severity = py "CRITICAL" <-> (90 <= score)%Z) /\
    (severity = py "HIGH" <-> (75 <= score < 90)%Z) /\
    (severity = py "MEDIUM" <-> (50 <= score < 75)%Z) /\
    (severity = py "LOW" <-> (score < 50)%Z) /\
    (fa_alert_created out = true ->
       MetricPoint (py "fraud_detection.alerts.created") (VInt 1)
         [(py "alert_id", VStr (py "ALERT-" ++ ra_transaction_id response));
          (py "severity", VStr severity);
          (py "decision_action", VStr (ra_recommendation response));
          (py "transaction_id", VStr (ra_transaction_id response))]
       ∈ metrics (tel w')) /\
    last (events (tel w')) =
      Some (BusinessEvent (py "fraud_detection.fraud_alert.completed")
              [(py "transaction_id", VStr (ra_transaction_id response));
               (py "alert_created", VBool (fa_alert_created out));
               (py "severity",
                VStr (if fa_alert_created out then severity else py "NONE"))]).
Proof.
  intros Hi Ha reply score. open_world w Hi.
  unfold FraudAlertAgentExecutor_handle. exec_unfold. cbn.
  rewrite Ha. cbn. fold reply. fold score.
  pose proof (alert_created_of_spec reply score) as Hcreated.
  destruct (severity_of_cases score) as (? & ? & ? & ?).
  destruct (alert_created_of reply score); cbn.
  - repeat (split_if; cbn);
      eexists _, _, (severity_of score); (split; [reflexivity|]); cbn;
      split_and!; try done; try tauto; try apply last_snoc;
      intros _; rewrite ?elem_of_app, ?list_elem_of_singleton; tauto.
  - eexists _, _, (severity_of score). (split; [reflexivity|]); cbn.
    split_and!; try done; try tauto; apply last_snoc.
Qed.


Lemma recommendation_cases (s : Z) :
  let level := risk_level_of s in
  (level = py "HIGH" /\ recommendation_of level = py "BLOCK") \/
  (level = py "MEDIUM" /\ recommendation_of level = py "INVESTIGATE") \/
  (level = py "LOW" /\ recommendation_of level = py "ALLOW").
Proof.
  unfold risk_level_of.
  destruct (75 <=? s)%Z; [|destruct (40 <=? s)%Z]; cbn; auto.
Qed.

Lemma sar_condition_spec (severity : pystr) (amount : option float) :
  bool_decide (severity ∈ [py "CRITICAL"; py "HIGH"]) || amount_threshold_exceeded amount
  = bool_decide (severity = py "CRITICAL" \/ severity = py "HIGH")
    || PrimFloat.leb 10000 (default 0%float amount).
Proof.
  rewrite amount_threshold_exceeded_spec. f_equal.
  apply bool_decide_ext. rewrite !elem_of_cons, elem_of_nil. tauto.
Qed.


Lemma prevented_condition_spec recommendation amount :
  prevented_condition recommendation amount
  = bool_decide (recommendation = py "BLOCK")
    && match amount with
       | Some a => negb (PrimFloat.eqb a 0)
       | None => false
       end.
Proof.
  unfold prevented_condition. destruct amount; [reflexivity|]. by rewrite andb_false_r.
Qed.

Lemma fraud_stage_events agent response w messages :
  initialized (tel w) = true ->
  agent_run (agent_name agent) (alert_prompt response) = AgentReplies messages ->
  exists w' out new,
    FraudAlertAgentExecutor_handle agent response w = (w', inr tt) /\
    ctx w' = {| sent := sent (ctx w); yielded := yielded (ctx w) ++ [out] |} /\
    events (tel w') = events (tel w) ++ new /\
    length (filter (fun ev => event_name ev = FRAUD_PREVENTED) new) =
      (if fa_alert_created out
          && prevented_condition (ra_recommendation response) (ra_amount response)
       then 1 else 0)%nat /\
    length (filter (fun ev => event_name ev = SAR_FILED) new) =
      (if fa_alert_created out
          && (bool_decide (severity_of (ra_risk_score response) ∈ [py "CRITICAL"; py "HIGH"])
              || amount_threshold_exceeded (ra_amount response))
       then 1 else 0)%nat.
Proof.
  intros Hi Ha. open_world w Hi.
  unfold FraudAlertAgentExecutor_handle. exec_unfold. cbn.
  rewrite Ha. cbn.
  destruct (alert_created_of _ _); cbn.
  - repeat (split_if; cbn);
      eexists _, _, _;
      (split; [reflexivity|]); cbn;
      (split; [reflexivity|]);
      (split; [rewrite <- !app_assoc; reflexivity|]);
      filter_events; split; reflexivity.
  - eexists _, _, _.
    (split; [reflexivity|]); cbn.
    (split; [reflexivity|]).
    (split; [rewrite <- !app_assoc; reflexivity|]).
    filter_events. split; reflexivity.
Qed.

(** C6.  In a successful run of a stage, the business events are recorded
    conditionally: the RiskAnalyser stage sends one customer-friction event
    iff the recommendation is "BLOCK" or "INVESTIGATE", with
    [transaction_declined] true iff it is "BLOCK"; the FraudAlert stage sends
    one fraud-prevented event iff an alert was created, the recommendation
    is "BLOCK" and the amount is present and non-zero, and one SAR-filed
    event iff an alert was created and the severity is "CRITICAL" or "HIGH"
    or the amount (0 when absent) is at least 10000. *)
Theorem business_metrics_are_conditional (w : World) :
  initialized (tel w) = true ->
  (forall agent response messages,
     agent_run (agent_name agent) (risk_prompt response) = AgentReplies messages ->
     exists w' m new,
       RiskAnalyserAgentExecutor_handle agent response w = (w', inr tt) /\
       ctx w' = {| sent := sent (ctx w) ++ [MsgRiskAnalysis m]; yielded := yielded (ctx w) |} /\
       events (tel w') = events (tel w) ++ new /\
       let recommendation := ra_recommendation m in
       filter (fun ev => event_name ev = CUSTOMER_FRICTION) new =
         if bool_decide (recommendation = py "BLOCK" \/ recommendation = py "INVESTIGATE")
         then [BusinessEvent CUSTOMER_FRICTION
                 [(py "customer_id", VStr (cd_customer_id response));
                  (py "transaction_id", VStr (cd_transaction_id response));
                  (py "friction_type",
                   VStr (if bool_decide (recommendation = py "BLOCK")
                         then py "transaction_blocked" else py "step_up_auth"));
                  (py "transaction_declined",
                   VBool (bool_decide (recommendation = py "BLOCK")));
                  (py "customer_tenure_days", VInt 0);
                  (py "customer_lifetime_value", VFloat 0%float)]]
         else [])
  /\
  (forall agent response messages,
     agent_run (agent_name agent) (alert_prompt response) = AgentReplies messages ->
     exists w' out new,
       FraudAlertAgentExecutor_handle agent response w = (w', inr tt) /\
       ctx w' = {| sent := sent (ctx w); yielded := yielded (ctx w) ++ [out] |} /\
       events (tel w') = events (tel w) ++ new /\
       let recommendation := ra_recommendation response in
       let severity := severity_of (ra_risk_score response) in
       let amount_present_and_nonzero :=
         match ra_amount response with
         | Some a => negb (PrimFloat.eqb a 0)
         | None => false
         end in
       let amount_at_least_10000 :=
         PrimFloat.leb 10000 (default 0%float (ra_amount response)) in
       length (filter (fun ev => event_name ev = FRAUD_PREVENTED) new) =
         (if fa_alert_created out && bool_decide (recommendation = py "BLOCK")
             && amount_present_and_nonzero
          then 1 else 0)%nat /\
       length (filter (fun ev => event_name ev = SAR_FILED) new) =
         (if fa_alert_created out
             && (bool_decide (severity = py "CRITICAL" \/ severity = py "HIGH")
                 || amount_at_least_10000)
          then 1 else 0)%nat).
Proof.
  intros Hi. split.
  - intros agent response messages Ha. open_world w Hi.
    unfold RiskAnalyserAgentExecutor_handle. exec_unfold. cbn.
    rewrite Ha. cbn.
    destruct (parse_risk_score_in_range (List.last messages (py "No response")))
      as (s & -> & _).
    cbn.
    destruct (recommendation_cases s) as [[-> ->]|[[-> ->]|[-> ->]]];
      eval_decide; cbn; eexists _, _, _;
      (split; [reflexivity|]); cbn;
      (split; [reflexivity|]);
      (split; [rewrite <- !app_assoc; reflexivity|]);
      filter_events; repeat eval_decide; reflexivity.
  - intros agent response messages Ha.
    destruct (fraud_stage_events agent response w messages Hi Ha)
      as (w' & out & new & E & C & Ev & Hp & Hs).
    exists w', out, new. cbn zeta.
    rewrite <- andb_assoc, <- sar_condition_spec, <- prevented_condition_spec. auto.
Qed.

End Facts.

(** *** The theorems at the sample worlds *)

Lemma fraud_workflow_chain_witness :
  exists out,
    snd (@run_fraud_detection_workflow ascii_tables answering_runtime
           (py "TX1001") (py "CUST1001") (Some 5200%float) (Some (py "USD"))
           initial_world)
    = inr (Some out).
Proof.
  destruct (@fraud_workflow_is_sequential_chain ascii_tables answering_runtime
              (py "TX1001") (py "CUST1001") (Some 5200%float) (Some (py "USD"))
              initial_world eq_refl (or_intror (ex_intro _ _ eq_refl)))
    as (_ & client & w0 & w1 & w2 & w3 & m1 & m2 & out & _ & _ & _ & _ & _ & _ & _ & Hrun).
  exists out. rewrite Hrun. reflexivity.
Defined.

(** What the run at the sample world returns: an alert for TX1001 at risk
    score 82. *)
Example sample_run :
  snd (@run_fraud_detection_workflow ascii_tables answering_runtime
         (py "TX1001") (py "CUST1001") (Some 5200%float) (Some (py "USD"))
         initial_world)
  = inr (Some {| fa_transaction_id := py "TX1001";
                 fa_customer_id := py "CUST1001";
                 fa_alert_response := py "Alert created: ALERT-TX1001";
                 fa_alert_created := true;
                 fa_workflow_status := py "SUCCESS";
                 fa_risk_score := 82;
                 fa_risk_level := py "HIGH" |}).
Proof. vm_compute. reflexivity. Qed.

(** With every agent failing, the run still returns: the error report of
    the last stage, carrying the score 0 of the risk stage's report. *)
Example failing_run :
  snd (@run_fraud_detection_workflow ascii_tables failing_runtime
         (py "TX1001") (py "CUST1001") (Some 5200%float) (Some (py "USD"))
         initial_world)
  = inr (Some {| fa_transaction_id := py "TX1001";
                 fa_customer_id := py "CUST1001";
                 fa_alert_response := py "Error: service unavailable";
                 fa_alert_created := false;
                 fa_workflow_status := py "ERROR";
                 fa_risk_score := 0;
                 fa_risk_level := py "UNKNOWN" |}).
Proof. vm_compute. reflexivity. Qed.



Lemma risk_response_invariant_witness :
  exists m,
    sent (ctx (fst (@RiskAnalyserAgentExecutor_handle ascii_tables answering_runtime
                      risk_analyser_agent sample_customer_response initial_world)))
      = [MsgRiskAnalysis m] /\
    (0 <= ra_risk_score m <= 100)%Z.
Proof.
  destruct (@risk_response_invariant ascii_tables answering_runtime risk_analyser_agent
              sample_customer_response initial_world
              [py "Overall assessment."; py "Risk Score: 82/100 (HIGH)"] eq_refl eq_refl)
    as (w' & m & Hrun & Hctx & _ & _ & Hrange & _).
  exists m. rewrite Hrun. simpl. rewrite Hctx. split; [reflexivity|exact Hrange].
Defined.

Lemma alert_creation_witness :
  exists out,
    yielded (ctx (fst (@FraudAlertAgentExecutor_handle ascii_tables answering_runtime
                         fraud_alert_agent sample_risk_response initial_world)))
      = [out] /\
    fa_alert_created out = true.
Proof.
  destruct (@alert_creation_and_severity ascii_tables answering_runtime fraud_alert_agent
              sample_risk_response initial_world [py "Alert created: ALERT-TX1001"]
              eq_refl eq_refl)
    as (w' & out & severity & Hrun & Hctx & _ & Hcreated & _).
  exists out. rewrite Hrun. simpl. rewrite Hctx. split; [reflexivity|].
  apply Hcreated. right. simpl. lia.
Defined.

Lemma business_metrics_witness :
  exists w' m,
    @RiskAnalyserAgentExecutor_handle ascii_tables answering_runtime
      risk_analyser_agent sample_customer_response initial_world = (w', inr tt) /\
    sent (ctx w') = [MsgRiskAnalysis m].
Proof.
  destruct (@business_metrics_are_conditional ascii_tables answering_runtime
              initial_world eq_refl) as (Hrisk & _).
  destruct (Hrisk risk_analyser_agent sample_customer_response
              [py "Overall assessment."; py "Risk Score: 82/100 (HIGH)"] eq_refl)
    as (w' & m & new & Hrun & Hctx & _).
  exists w', m. split; [exact Hrun|]. rewrite Hctx. reflexivity.
Defined.

(** *** More about the stages and the run *)

(** Whether [agent.run] returned. *)
Definition replied (o : AgentOutcome) : bool :=
  match o with
  | AgentReplies _ => true
  | AgentRaises _ => false
  end.

(** [response.messages[-1].text if response.messages else "No response"] *)
Definition reply_text (messages : list pystr) : pystr :=
  List.last messages (py "No response").

(** The report that the RiskAnalyser stage sends when its body raised. *)
Definition risk_error_report (transaction_id customer_id e : pystr) : RiskAnalysisResponse :=
  {| ra_transaction_id := transaction_id;
     ra_customer_id := customer_id;
     ra_risk_analysis := py "Error: " ++ e;
     ra_risk_score := 0;
     ra_risk_level := py "UNKNOWN";
     ra_recommendation := py "INVESTIGATE";
     ra_status := py "ERROR";
     ra_amount := None;
     ra_currency := Some (py "USD");
     ra_model_confidence := None |}.

Section StageFacts.
Context `{Unicode} `{Runtime}.

(** X1.  While the telemetry was never initialised the tracer is [None]:
    each of the three handlers raises the [AttributeError] of its first
    statement and leaves the world as it was (no event, no agent call, no
    message).  A workflow run whose project client is obtainable then raises
    the same error, with no agent called and nothing recorded or logged. *)
Theorem handlers_raise_without_tracer (w : World) :
  initialized (tel w) = false ->
  (forall agent request,
     CustomerDataAgentExecutor_handle agent request w = (w, inl no_tracer)) /\
  (forall agent response,
     RiskAnalyserAgentExecutor_handle agent response w = (w, inl no_tracer)) /\
  (forall agent response,
     FraudAlertAgentExecutor_handle agent response w = (w, inl no_tracer)) /\
  (forall transaction_id customer_id amount currency,
     is_Some (project_client w) \/ is_Some (environ (py "AI_FOUNDRY_PROJECT_ENDPOINT")) ->
     exists w',
       run_fraud_detection_workflow transaction_id customer_id amount currency w
         = (w', inl no_tracer) /\
       agent_calls w' = agent_calls w /\ tel w' = tel w /\ error_log w' = error_log w).
Proof.
  intros Hi.
  assert (Hc : forall agent request w0, initialized (tel w0) = false ->
            CustomerDataAgentExecutor_handle agent request w0 = (w0, inl no_tracer)).
  { intros agent request w0 Hi0.
    unfold CustomerDataAgentExecutor_handle. exec_unfold. by rewrite Hi0. }
  split_and!.
  - intros. by apply Hc.
  - intros. unfold RiskAnalyserAgentExecutor_handle. exec_unfold. by rewrite Hi.
  - intros. unfold FraudAlertAgentExecutor_handle. exec_unfold. by rewrite Hi.
  - intros transaction_id customer_id amount currency Hclient.
    assert (exists client w0, get_project_client w = (w0, inr client) /\
              tel w0 = tel w /\ agent_calls w0 = agent_calls w /\
              error_log w0 = error_log w)
      as (client & w0 & Hg & Ht & Ha & He).
    { unfold get_project_client.
      destruct (project_client w) as [c|] eqn:Hpc; [eauto 10|].
      destruct Hclient as [[c Hc']|[endpoint ->]]; [discriminate|]. eauto 10. }
    unfold run_fraud_detection_workflow, run_stream, bind, lift, ret.
    rewrite Hg, build_fraud_detection_workflow.
    cbn [wf_start fraud_detection_workflow DEFAULT_MAX_ITERATIONS run_supersteps deliver_all].
    unfold bind. rewrite deliver_customer, Hc by (by rewrite <- Ht in Hi).
    eexists. split; [reflexivity|]. by rewrite <- Ht, <- Ha, <- He.
Qed.

(** X2.  [get_project_client] creates the client once.  A client that
    exists is returned as it is, and no credential is made.  With none, a
    new credential is bound to [_credential] before the endpoint variable
    is read.  When the variable is set the client is stored, nothing else in
    the world changes, and the next call returns that same client without
    another credential.  When it is unset the call raises [KeyError] with
    the new credential bound and no client stored, so does a workflow run,
    and a later call makes yet another credential. *)
Theorem project_client_is_created_once (w : World) :
  match project_client w, environ (py "AI_FOUNDRY_PROJECT_ENDPOINT") with
  | Some client, _ => get_project_client w = (w, inr client)
  | None, Some endpoint =>
      exists w',
        get_project_client w = (w', inr endpoint) /\
        project_client w' = Some endpoint /\
        credentials w' = S (credentials w) /\
        (tel w', ctx w', agent_calls w', reads w', error_log w')
          = (tel w, ctx w, agent_calls w, reads w, error_log w) /\
        get_project_client w' = (w', inr endpoint)
  | None, None =>
      exists w' w'',
        get_project_client w = (w', inl no_endpoint) /\
        project_client w' = None /\
        credentials w' = S (credentials w) /\
        (tel w', ctx w', agent_calls w', reads w', error_log w')
          = (tel w, ctx w, agent_calls w, reads w, error_log w) /\
        (forall transaction_id customer_id amount currency,
           run_fraud_detection_workflow transaction_id customer_id amount currency w
             = (w', inl no_endpoint)) /\
        get_project_client w' = (w'', inl no_endpoint) /\
        credentials w'' = S (S (credentials w))
  end.
Proof.
  unfold run_fraud_detection_workflow, bind, get_project_client.
  destruct (project_client w) as [client|] eqn:Hc; [done|].
  destruct (environ _) as [endpoint|].
  - eexists. split; [reflexivity|]. done.
  - eexists _, _. split; [reflexivity|]. cbn. done.
Qed.

(** What each handler does to the world, in closed form. *)
Lemma customer_handle_effect agent request w :
  initialized (tel w) = true ->
  exists w' m,
    CustomerDataAgentExecutor_handle agent request w = (w', inr tt) /\
    initialized (tel w') = true /\
    agent_calls w' = agent_calls w ++ [(agent_name agent, customer_prompt request)] /\
    ctx w' = {| sent := sent (ctx w) ++ [MsgCustomerData m]; yielded := yielded (ctx w) |} /\
    cd_transaction_id m = req_transaction_id request /\
    cd_customer_id m = req_customer_id request /\
    match agent_run (agent_name agent) (customer_prompt request) with
    | AgentReplies messages =>
        cd_status m = py "SUCCESS" /\ cd_analysis m = reply_text messages /\
        cd_amount m = req_amount request /\ cd_currency m = req_currency request
    | AgentRaises e =>
        cd_status m = py "ERROR" /\ cd_analysis m = py "Error: " ++ e /\
        cd_amount m = None /\ cd_currency m = Some (py "USD")
    end.
Proof.
  intros Hi. open_world w Hi.
  unfold CustomerDataAgentExecutor_handle. exec_unfold. cbn.
  destruct (agent_run _ _); cbn; eexists _, _; split_and!; reflexivity.
Qed.

Lemma risk_handle_effect agent response w :
  initialized (tel w) = true ->
  exists w' m,
    RiskAnalyserAgentExecutor_handle agent response w = (w', inr tt) /\
    initialized (tel w') = true /\
    agent_calls w' = agent_calls w ++ [(agent_name agent, risk_prompt response)] /\
    ctx w' = {| sent := sent (ctx w) ++ [MsgRiskAnalysis m]; yielded := yielded (ctx w) |} /\
    ra_transaction_id m = cd_transaction_id response /\
    ra_customer_id m = cd_customer_id response /\
    match agent_run (agent_name agent) (risk_prompt response) with
    | AgentReplies messages =>
        ra_status m = py "SUCCESS" /\
        parse_risk_score (reply_text messages) = inr (ra_risk_score m) /\
        ra_risk_level m = risk_level_of (ra_risk_score m) /\
        ra_recommendation m = recommendation_of (ra_risk_level m) /\
        ra_amount m = cd_amount response /\ ra_currency m = cd_currency response
    | AgentRaises e =>
        ra_status m = py "ERROR" /\ ra_risk_score m = 0%Z /\
        ra_risk_level m = py "UNKNOWN" /\ ra_recommendation m = py "INVESTIGATE" /\
        ra_amount m = None /\ ra_currency m = Some (py "USD")
    end.
Proof.
  intros Hi. open_world w Hi.
  unfold RiskAnalyserAgentExecutor_handle. exec_unfold. cbn.
  destruct (agent_run _ _) as [e|msgs]; cbn.
  - eexists _, _; split_and!; reflexivity.
  - destruct (parse_risk_score_in_range (List.last msgs (py "No response"))) as (s & Hs & _).
    unfold reply_text. rewrite Hs. cbn.
    case_decide; cbn; eexists _, _; split_and!; reflexivity.
Qed.

Lemma fraud_handle_effect agent response w :
  initialized (tel w) = true ->
  exists w' out,
    FraudAlertAgentExecutor_handle agent response w = (w', inr tt) /\
    initialized (tel w') = true /\
    agent_calls w' = agent_calls w ++ [(agent_name agent, alert_prompt response)] /\
    ctx w' = {| sent := sent (ctx w); yielded := yielded (ctx w) ++ [out] |} /\
    fa_transaction_id out = ra_transaction_id response /\
    fa_customer_id out = ra_customer_id response /\
    fa_risk_score out = ra_risk_score response /\
    fa_risk_level out = ra_risk_level response /\
    match agent_run (agent_name agent) (alert_prompt response) with
    | AgentReplies messages =>
        fa_workflow_status out = py "SUCCESS" /\
        fa_alert_response out = reply_text messages /\
        fa_alert_created out = alert_created_of (reply_text messages) (ra_risk_score response)
    | AgentRaises e =>
        fa_workflow_status out = py "ERROR" /\
        fa_alert_response out = py "Error: " ++ e /\
        fa_alert_created out = false
    end.
Proof.
  intros Hi. open_world w Hi.
  unfold FraudAlertAgentExecutor_handle. exec_unfold. cbn.
  destruct (agent_run _ _) as [e|msgs]; cbn.
  - eexists _, _; split_and!; reflexivity.
  - unfold reply_text.
    destruct (alert_created_of _ _) eqn:Ha; cbn.
    + repeat (split_if; cbn); eexists _, _; split_and!; try reflexivity; by rewrite Ha.
    + eexists _, _; split_and!; try reflexivity; by rewrite Ha.
Qed.


(** X3.  With the telemetry initialised and the project client obtainable,
    a run returns one output and calls exactly three agents, in the order
    CustomerDataAgent, RiskAnalyserAgent, FraudAlertAgent, the first with
    the prompt built from the request.  The output carries the request's
    transaction and customer ids, its workflow status is "SUCCESS" when the
    alert agent replied and "ERROR" when it raised, and its score and level
    are those parsed from the risk agent's reply, or 0 and "UNKNOWN" when
    that agent raised. *)
Theorem every_run_calls_the_three_agents_in_order
    (transaction_id customer_id : pystr) (amount : option float)
    (currency : option pystr) (w : World) :
  initialized (tel w) = true ->
  is_Some (project_client w) \/ is_Some (environ (py "AI_FOUNDRY_PROJECT_ENDPOINT")) ->
  let request :=
    {| req_transaction_id := transaction_id; req_customer_id := customer_id;
       req_amount := amount; req_currency := currency |} in
  exists w' out p2 p3,
    run_fraud_detection_workflow transaction_id customer_id amount currency w
      = (w', inr (Some out)) /\
    agent_calls w' =
      agent_calls w ++ [(CUSTOMER_DATA_AGENT_NAME, customer_prompt request);
                        (RISK_ANALYSER_AGENT_NAME, p2);
                        (FRAUD_ALERT_AGENT_NAME, p3)] /\
    fa_transaction_id out = transaction_id /\
    fa_customer_id out = customer_id /\
    fa_workflow_status out =
      (if replied (agent_run FRAUD_ALERT_AGENT_NAME p3) then py "SUCCESS" else py "ERROR") /\
    match agent_run RISK_ANALYSER_AGENT_NAME p2 with
    | AgentReplies messages =>
        parse_risk_score (reply_text messages) = inr (fa_risk_score out) /\
        fa_risk_level out = risk_level_of (fa_risk_score out)
    | AgentRaises _ =>
        fa_risk_score out = 0%Z /\ fa_risk_level out = py "UNKNOWN"
    end.
Proof.
  intros Hi Hclient request.
  assert (exists client w0, get_project_client w = (w0, inr client) /\
            initialized (tel w0) = true /\ agent_calls w0 = agent_calls w)
    as (client & w0 & Hg & Hi0 & Hc0).
  { unfold get_project_client.
    destruct (project_client w) as [c|] eqn:Hc; [eauto|].
    destruct Hclient as [[c Hc']|[endpoint ->]]; [discriminate|]. eauto. }
  destruct (customer_handle_effect customer_data_agent request (with_ctx fresh_ctx w0) Hi0)
    as (w1 & m1 & E1 & I1 & A1 & C1 & T1 & U1 & _).
  destruct (risk_handle_effect risk_analyser_agent m1 (with_ctx fresh_ctx w1) I1)
    as (w2 & m2 & E2 & I2 & A2 & C2 & T2 & U2 & O2).
  destruct (fraud_handle_effect fraud_alert_agent m2 (with_ctx fresh_ctx w2) I2)
    as (w3 & out & E3 & I3 & A3 & C3 & T3 & U3 & S3 & L3 & O3).
  simpl in C1, C2, C3, A1, A2, A3.
  exists (with_ctx fresh_ctx w3), out, (risk_prompt m1), (alert_prompt m2).
  split_and!.
  - unfold run_fraud_detection_workflow, run_stream, bind, lift, ret.
    rewrite Hg, build_fraud_detection_workflow.
    change DEFAULT_MAX_ITERATIONS with (S (S (S 97))).
    cbn [wf_start fraud_detection_workflow]. fold request.
    erewrite superstep_single; last by rewrite deliver_customer, E1, C1.
    cbn [flat_map app sent yielded].
    erewrite superstep_single; last by rewrite deliver_risk, with_ctx_idem, E2, C2.
    cbn [flat_map app sent yielded].
    erewrite superstep_single; last by rewrite deliver_fraud, with_ctx_idem, E3, C3.
    reflexivity.
  - simpl. rewrite A3, A2, A1, Hc0, <- !app_assoc. reflexivity.
  - by rewrite T3, T2, T1.
  - by rewrite U3, U2, U1.
  - change (agent_name fraud_alert_agent) with FRAUD_ALERT_AGENT_NAME in O3.
    destruct (agent_run FRAUD_ALERT_AGENT_NAME _); simpl; tauto.
  - change (agent_name risk_analyser_agent) with RISK_ANALYSER_AGENT_NAME in O2.
    rewrite S3, L3.
    destruct (agent_run RISK_ANALYSER_AGENT_NAME _); tauto.
Qed.


Lemma count_events_app name t new :
  forall t', events t' = events t ++ new ->
  count_events name t' =
    (count_events name t + length (filter (fun ev => event_name ev = name) new))%nat.
Proof. intros t' E. unfold count_events. by rewrite E, filter_app, length_app. Qed.

(** X4.  Each stage sends its "started" business event once, whatever its
    agent does, and its "completed" event once when the agent replied and
    not at all when it raised; it logs one error line, naming the stage and
    the message, exactly when the agent raised. *)
Theorem completed_event_only_after_a_reply (w : World) :
  initialized (tel w) = true ->
  (forall agent request,
     let o := agent_run (agent_name agent) (customer_prompt request) in
     let started := py "fraud_detection.customer_data.started" in
     let completed := py "fraud_detection.customer_data.completed" in
     exists w',
       CustomerDataAgentExecutor_handle agent request w = (w', inr tt) /\
       count_events started (tel w') = S (count_events started (tel w)) /\
       count_events completed (tel w')
         = (count_events completed (tel w) + if replied o then 1 else 0)%nat /\
       error_log w' = error_log w ++
         match o with
         | AgentRaises e => [py "CustomerDataAgent error: " ++ e]
         | AgentReplies _ => []
         end)
  /\
  (forall agent response,
     let o := agent_run (agent_name agent) (risk_prompt response) in
     let started := py "fraud_detection.risk_analysis.started" in
     let completed := py "fraud_detection.risk_analysis.completed" in
     exists w',
       RiskAnalyserAgentExecutor_handle agent response w = (w', inr tt) /\
       count_events started (tel w') = S (count_events started (tel w)) /\
       count_events completed (tel w')
         = (count_events completed (tel w) + if replied o then 1 else 0)%nat /\
       error_log w' = error_log w ++
         match o with
         | AgentRaises e => [py "RiskAnalyserAgent error: " ++ e]
         | AgentReplies _ => []
         end)
  /\
  (forall agent response,
     let o := agent_run (agent_name agent) (alert_prompt response) in
     let started := py "fraud_detection.fraud_alert.started" in
     let completed := py "fraud_detection.fraud_alert.completed" in
     exists w',
       FraudAlertAgentExecutor_handle agent response w = (w', inr tt) /\
       count_events started (tel w') = S (count_events started (tel w)) /\
       count_events completed (tel w')
         = (count_events completed (tel w) + if replied o then 1 else 0)%nat /\
       error_log w' = error_log w ++
         match o with
         | AgentRaises e => [py "FraudAlertAgent error: " ++ e]
         | AgentReplies _ => []
         end).
Proof.
  intros Hi. open_world w Hi. split_and!.
  - intros agent request o started completed. subst o.
    unfold CustomerDataAgentExecutor_handle. exec_unfold. cbn.
    destruct (agent_run _ _) as [e|msgs]; cbn; eexists; (split; [reflexivity|]);
      unfold count_events; cbn;
      rewrite ?filter_app, ?length_app; subst started completed;
      filter_events; cbn [length]; rewrite ?app_nil_r; split_and!; try done; lia.
  - intros agent response o started completed. subst o.
    unfold RiskAnalyserAgentExecutor_handle. exec_unfold. cbn.
    destruct (agent_run _ _) as [e|msgs]; cbn.
    + eexists; (split; [reflexivity|]);
        unfold count_events; cbn;
        rewrite ?filter_app, ?length_app; subst started completed;
        filter_events; cbn [length]; rewrite ?app_nil_r; split_and!; try done; lia.
    + destruct (parse_risk_score_in_range (List.last msgs (py "No response")))
        as (s & -> & _).
      cbn. case_decide; cbn; eexists; (split; [reflexivity|]);
        unfold count_events; cbn;
        rewrite ?filter_app, ?length_app; subst started completed;
        filter_events; cbn [length]; rewrite ?app_nil_r; split_and!; try done; lia.
  - intros agent response o started completed. subst o.
    unfold FraudAlertAgentExecutor_handle. exec_unfold. cbn.
    destruct (agent_run _ _) as [e|msgs]; cbn.
    + eexists; (split; [reflexivity|]);
        unfold count_events; cbn;
        rewrite ?filter_app, ?length_app; subst started completed;
        filter_events; cbn [length]; rewrite ?app_nil_r; split_and!; try done; lia.
    + destruct (alert_created_of _ _); cbn; repeat (split_if; cbn);
        eexists; (split; [reflexivity|]);
        unfold count_events; cbn;
        rewrite ?filter_app, ?length_app; subst started completed;
        filter_events; cbn [length]; rewrite ?app_nil_r; split_and!; try done; lia.
Qed.


(** X5.  On the report of a failed risk stage (score 0, level "UNKNOWN",
    recommendation "INVESTIGATE", no amount) an alert stage whose agent
    replies yields a "SUCCESS" output with score 0 and level "UNKNOWN"; the
    alert is created only if the reply says "alert created", and is then
    counted with severity "LOW" and decision "INVESTIGATE"; no
    fraud-prevented and no SAR-filed event is sent. *)
Theorem failed_risk_stage_files_nothing agent (transaction_id customer_id e : pystr)
    (w : World) (messages : list pystr) :
  initialized (tel w) = true ->
  let report := risk_error_report transaction_id customer_id e in
  agent_run (agent_name agent) (alert_prompt report) = AgentReplies messages ->
  exists w' out,
    FraudAlertAgentExecutor_handle agent report w = (w', inr tt) /\
    yielded (ctx w') = yielded (ctx w) ++ [out] /\
    fa_workflow_status out = py "SUCCESS" /\
    fa_risk_score out = 0%Z /\
    fa_risk_level out = py "UNKNOWN" /\
    fa_alert_created out = contains (str_lower (reply_text messages)) (py "alert created") /\
    count_events FRAUD_PREVENTED (tel w') = count_events FRAUD_PREVENTED (tel w) /\
    count_events SAR_FILED (tel w') = count_events SAR_FILED (tel w) /\
    (fa_alert_created out = true ->
       metrics (tel w') = metrics (tel w) ++
         [MetricPoint (py "fraud_detection.alerts.created") (VInt 1)
            [(py "alert_id", VStr (py "ALERT-" ++ transaction_id));
             (py "severity", VStr (py "LOW"));
             (py "decision_action", VStr (py "INVESTIGATE"));
             (py "transaction_id", VStr transaction_id)]]).
Proof.
  intros Hi report Ha. open_world w Hi.
  unfold FraudAlertAgentExecutor_handle. exec_unfold. cbn.
  rewrite Ha. cbn. unfold alert_created_of, reply_text. cbn.
  rewrite orb_false_r.
  destruct (contains _ _) eqn:Hc; cbn;
    eexists _, _; (split; [reflexivity|]); cbn; rewrite ?Hc;
    unfold count_events; cbn; rewrite ?filter_app, ?length_app;
    filter_events; cbn [length]; split_and!; try done; lia.
Qed.

(** X6.  The risk stage and the alert stage composed.  A risk stage whose
    agent replied sends a recommendation among "BLOCK", "INVESTIGATE" and
    "ALLOW".  Whatever an alert agent then replies to that message, "BLOCK"
    gives an alert and one SAR-filed event, "INVESTIGATE" gives an alert,
    and "ALLOW" gives an alert only if the reply says "alert created", and
    no fraud-prevented event. *)
Theorem recommendation_decides_alert agent1 agent2 customer_response (w : World)
    (messages : list pystr) :
  initialized (tel w) = true ->
  agent_run (agent_name agent1) (risk_prompt customer_response) = AgentReplies messages ->
  exists w1 m,
    RiskAnalyserAgentExecutor_handle agent1 customer_response w = (w1, inr tt) /\
    sent (ctx w1) = sent (ctx w) ++ [MsgRiskAnalysis m] /\
    (ra_recommendation m = py "BLOCK" \/ ra_recommendation m = py "INVESTIGATE"
     \/ ra_recommendation m = py "ALLOW") /\
    forall w2 replies,
      initialized (tel w2) = true ->
      agent_run (agent_name agent2) (alert_prompt m) = AgentReplies replies ->
      exists w3 out,
        FraudAlertAgentExecutor_handle agent2 m w2 = (w3, inr tt) /\
        yielded (ctx w3) = yielded (ctx w2) ++ [out] /\
        (ra_recommendation m = py "BLOCK" ->
           fa_alert_created out = true /\
           count_events SAR_FILED (tel w3) = S (count_events SAR_FILED (tel w2))) /\
        (ra_recommendation m = py "INVESTIGATE" -> fa_alert_created out = true) /\
        (ra_recommendation m = py "ALLOW" ->
           fa_alert_created out
             = contains (str_lower (reply_text replies)) (py "alert created") /\
           count_events FRAUD_PREVENTED (tel w3) = count_events FRAUD_PREVENTED (tel w2)).
Proof.
  intros Hi Ha.
  destruct (risk_handle_effect agent1 customer_response w Hi)
    as (w1 & m & E1 & _ & _ & C1 & _ & _ & O1).
  rewrite Ha in O1. destruct O1 as (_ & _ & Hlevel & Hrec & _).
  exists w1, m. split; [exact E1|]. split; [by rewrite C1|].
  set (s := ra_risk_score m) in *.
  destruct (risk_level_of_cases s) as (Hhigh & Hmed & Hlow).
  destruct (recommendation_cases s) as [[Hl Hr]|[[Hl Hr]|[Hl Hr]]];
    rewrite <- Hlevel in Hl, Hr; rewrite <- Hrec in Hr.
  all: split; [tauto|]; intros w2 replies Hi2 Ha2.
  all: destruct (fraud_handle_effect agent2 m w2 Hi2)
         as (w3 & out & E3 & _ & _ & C3 & _ & _ & _ & _ & O3);
       rewrite Ha2 in O3; destruct O3 as (_ & _ & Hcreated);
       destruct (fraud_stage_events agent2 m w2 replies Hi2 Ha2)
         as (w3' & out' & new & E3' & C3' & Ev & Hp & Hs);
       rewrite E3 in E3'; injection E3' as <-;
       rewrite C3 in C3'; injection C3' as Hout%app_inj_tail; destruct Hout as [_ [= <-]];
       exists w3, out; (split; [exact E3|]); (split; [by rewrite C3|]);
       rewrite Hlevel in Hl; fold s in Hcreated, Hs.
  - assert (75 <= s)%Z by (by apply Hhigh).
    assert (Hc : fa_alert_created out = true).
    { rewrite Hcreated. apply alert_created_of_spec. right. lia. }
    split_and!; [|done|intros Hr'; rewrite Hr in Hr'; py_discr].
    intros _. split; [done|].
    rewrite (count_events_app SAR_FILED (tel w2) new) by done.
    rewrite Hs, Hc.
    destruct (severity_of_cases s) as (Hcrit & Hsev & _).
    rewrite bool_decide_eq_true_2; [simpl; lia|].
    rewrite !elem_of_cons. destruct (Z.leb_spec 90 s); [left; by apply Hcrit|].
    right; left. apply Hsev. lia.
  - assert (40 <= s < 75)%Z by (by apply Hmed).
    assert (Hc : fa_alert_created out = true).
    { rewrite Hcreated. apply alert_created_of_spec. right. lia. }
    split_and!; [intros Hr'; rewrite Hr in Hr'; py_discr|done|
                 intros Hr'; rewrite Hr in Hr'; py_discr].
  - assert (s < 40)%Z by (by apply Hlow).
    split_and!; [intros Hr'; rewrite Hr in Hr'; py_discr|
                 intros Hr'; rewrite Hr in Hr'; py_discr|].
    intros _. split.
    + rewrite Hcreated. unfold alert_created_of.
      replace (40 <=? s)%Z with false by (symmetry; apply Z.leb_gt; lia).
      apply orb_false_r.
    + rewrite (count_events_app FRAUD_PREVENTED (tel w2) new) by done.
      rewrite Hp, prevented_condition_spec, Hr.
      rewrite (bool_decide_eq_false_2 (py "ALLOW" = py "BLOCK")) by by_eval.
      rewrite andb_false_l, andb_false_r. lia.
Qed.

End StageFacts.

(** *** The score that opens a reply *)

Section Leading.
Context {U : Unicode} `{!PyTextFacts.AsciiCompatible U} `{Runtime}.

(** X7.  When the last message of the risk agent's reply opens with
    "Risk Score: " (in any letter case), goes on with the decimal digits of
    a score between 0 and 100, and then ends or continues with a 7-bit
    character that is no digit, the stage reports exactly that score, with
    the level and the recommendation that belong to it.  This holds for
    every Unicode table that agrees with ASCII on the 7-bit characters. *)
Theorem risk_stage_reads_the_leading_score agent response (w : World)
    (messages : list pystr) (label tail : pystr) (z : Z) :
  initialized (tel w) = true ->
  agent_run (agent_name agent) (risk_prompt response) = AgentReplies messages ->
  reply_text messages = label ++ str_of_Z z ++ tail ->
  PyTextFacts.is_ascii label ->
  map ascii_lower_char label = py "risk score: " ->
  (0 <= z <= 100)%Z ->
  ReFacts.ends_number tail ->
  exists w' m,
    RiskAnalyserAgentExecutor_handle agent response w = (w', inr tt) /\
    sent (ctx w') = sent (ctx w) ++ [MsgRiskAnalysis m] /\
    ra_status m = py "SUCCESS" /\
    ra_risk_score m = z /\
    ra_risk_level m = risk_level_of z /\
    ra_recommendation m = recommendation_of (risk_level_of z).
Proof.
  intros Hi Ha Htext Hlabel Hlow Hz Htail.
  destruct (risk_handle_effect agent response w Hi)
    as (w' & m & E & _ & _ & C & _ & _ & O).
  rewrite Ha in O. destruct O as (Hs & Hp & Hl & Hr & _).
  rewrite Htext, (ReFacts.parse_leading_score label tail z) in Hp by done.
  injection Hp as Hp.
  exists w', m. split_and!; [done|by rewrite C|done|done|congruence|congruence].
Qed.

End Leading.

(** *** The stage facts at the sample worlds *)

Lemma handlers_without_tracer_witness :
  @CustomerDataAgentExecutor_handle answering_runtime customer_data_agent sample_request
    cold_world = (cold_world, inl no_tracer).
Proof.
  destruct (@handlers_raise_without_tracer ascii_tables answering_runtime cold_world eq_refl)
    as (Hcustomer & _).
  apply Hcustomer.
Defined.

Lemma every_run_witness :
  exists w' out,
    @run_fraud_detection_workflow ascii_tables answering_runtime
      (py "TX1001") (py "CUST1001") (Some 5200%float) (Some (py "USD")) initial_world
      = (w', inr (Some out)) /\
    length (agent_calls w') = 3%nat /\
    fa_transaction_id out = py "TX1001".
Proof.
  destruct (@every_run_calls_the_three_agents_in_order ascii_tables answering_runtime
              (py "TX1001") (py "CUST1001") (Some 5200%float) (Some (py "USD"))
              initial_world eq_refl (or_intror (ex_intro _ _ eq_refl)))
    as (w' & out & p2 & p3 & Hrun & Hcalls & Hid & _).
  exists w', out. split_and!; [exact Hrun| |exact Hid]. rewrite Hcalls. reflexivity.
Defined.

Lemma completed_event_witness :
  exists w',
    @CustomerDataAgentExecutor_handle failing_runtime customer_data_agent sample_request
      initial_world = (w', inr tt) /\
    count_events (py "fraud_detection.customer_data.started") (tel w') = 1%nat /\
    count_events (py "fraud_detection.customer_data.completed") (tel w') = 0%nat.
Proof.
  destruct (@completed_event_only_after_a_reply ascii_tables failing_runtime
              initial_world eq_refl) as (Hcustomer & _).
  destruct (Hcustomer customer_data_agent sample_request)
    as (w' & Hrun & Hstarted & Hcompleted & _).
  exists w'. split_and!; [exact Hrun|exact Hstarted|exact Hcompleted].
Defined.

Lemma failed_risk_stage_witness :
  exists w' out,
    @FraudAlertAgentExecutor_handle ascii_tables answering_runtime fraud_alert_agent
      (risk_error_report (py "TX1001") (py "CUST1001") (py "service unavailable"))
      initial_world = (w', inr tt) /\
    yielded (ctx w') = [out] /\
    count_events SAR_FILED (tel w') = 0%nat.
Proof.
  destruct (@failed_risk_stage_files_nothing ascii_tables answering_runtime
              fraud_alert_agent (py "TX1001") (py "CUST1001") (py "service unavailable")
              initial_world [py "Alert created: ALERT-TX1001"] eq_refl eq_refl)
    as (w' & out & Hrun & Hout & _ & _ & _ & _ & _ & Hsar & _).
  exists w', out. split_and!; [exact Hrun|exact Hout|exact Hsar].
Defined.

Lemma recommendation_witness :
  exists w1 m,
    @RiskAnalyserAgentExecutor_handle ascii_tables answering_runtime risk_analyser_agent
      sample_customer_response initial_world = (w1, inr tt) /\
    sent (ctx w1) = [MsgRiskAnalysis m].
Proof.
  destruct (@recommendation_decides_alert ascii_tables answering_runtime
              risk_analyser_agent fraud_alert_agent sample_customer_response initial_world
              [py "Overall assessment."; py "Risk Score: 82/100 (HIGH)"] eq_refl eq_refl)
    as (w1 & m & Hrun & Hsent & _).
  exists w1, m. split; [exact Hrun|exact Hsent].
Defined.

Lemma leading_score_witness :
  exists w' m,
    @RiskAnalyserAgentExecutor_handle ascii_tables answering_runtime risk_analyser_agent
      sample_customer_response initial_world = (w', inr tt) /\
    ra_risk_score m = 82%Z /\
    sent (ctx w') = [MsgRiskAnalysis m].
Proof.
  destruct (@risk_stage_reads_the_leading_score ascii_tables
              PyTextFacts.ascii_tables_compatible answering_runtime
              risk_analyser_agent sample_customer_response initial_world
              [py "Overall assessment."; py "Risk Score: 82/100 (HIGH)"]
              (py "Risk Score: ") (py "/100 (HIGH)") 82%Z)
    as (w' & m & Hrun & Hsent & _ & Hscore & _);
    [reflexivity|reflexivity|reflexivity|by vm_compute; repeat constructor|reflexivity|lia|
     by vm_compute|].
  exists w', m. split_and!; [exact Hrun|exact Hscore|exact Hsent].
Defined.

End workflow.

(** ** [agents/risk_analyser_agent.py] *)

Module risk_analyser_agent.

(** [RISK_FACTORS] *)
Record risk_factors := {
  high_risk_countries : list pystr;
  high_amount_threshold_usd : Z;
  suspicious_account_age_days : Z;
  low_device_trust_threshold : float
}.

Definition RISK_FACTORS : risk_factors :=
  {| high_risk_countries := [py "NG"; py "IR"; py "RU"; py "KP"];
     high_amount_threshold_usd := 10000;
     suspicious_account_age_days := 30;
     low_device_trust_threshold := 0.5%float |}.

(** A field of a stored transaction document: a number, or anything else. *)
Inductive json :=
| JNum (x : float)
| JOther (repr : pystr).

(** A transaction document, as a dictionary. *)
Abbreviation document := (list (pystr * json)).

Fixpoint get (d : document) (key : pystr) : option json :=
  match d with
  | [] => None
  | (k, v) :: d' => if bool_decide (k = key) then Some v else get d' key
  end.

(** The transactions container: [query_items] raises or returns documents. *)
Record container := {
  query_items : pystr -> Exc (list document)
}.

Section Tool.

(** [str] of a float, as an f-string prints it (the runtime's shortest
    round-trip formatting). *)
Variable float_str : float -> pystr.

(** The running [risk_score] and [risk_factors_found]. *)
Abbreviation findings := (Z * list pystr)%type.

Definition add_factor (points : Z) (factor : pystr) (f : findings) : findings :=
  ((fst f + points)%Z, snd f ++ [factor]).

(** [txn.get('device_trust_score', 1.0) < threshold]; comparing anything but
    a number with a float raises [TypeError]. *)
Definition device_trust_below (txn : document) (threshold : float) : Exc bool :=
  match get txn (py "device_trust_score") with
  | None => inr (PrimFloat.ltb 1%float threshold)
  | Some (JNum x) => inr (PrimFloat.ltb x threshold)
  | Some (JOther _) => inl (py "'<' not supported between instances of 'str' and 'float'")
  end.

Definition json_str (v : option json) : pystr :=
  match v with
  | Some (JNum x) => float_str x
  | Some (JOther repr) => repr
  | None => py "None"
  end.

(** The body of the inner [try]: the device-trust factor read from the
    database. *)
Definition database_factors (c : container) (transaction_id : pystr) (f : findings)
    : Exc findings :=
  let query := py "SELECT * FROM c WHERE c.id = '" ++ transaction_id ++ py "'" in
  exc_bind (query_items c query) (fun items =>
    match items with
    | txn :: _ =>
        exc_bind (device_trust_below txn (low_device_trust_threshold RISK_FACTORS))
          (fun low =>
             if low then
               inr (add_factor 15
                      (py "Low device trust score: "
                       ++ json_str (get txn (py "device_trust_score"))) f)
             else inr f)
    | [] => inr f
    end).

Definition risk_level_name (risk_score : Z) : pystr :=
  if (75 <=? risk_score)%Z then py "High"
  else if (40 <=? risk_score)%Z then py "Medium" else py "Low".

(** [analyze_transaction_risk], with the module-level
    [transactions_container] as its first argument.  It returns the lines
    logged and what the call raised or returned. *)
Definition analyze_transaction_risk (transactions_container : option container)
    (transaction_id customer_country : pystr) (amount_usd : float)
    (account_age_days : Z) : list pystr * Exc pystr :=
  let f0 : findings := (0%Z, []) in
  let f1 :=
    if bool_decide (customer_country ∈ high_risk_countries RISK_FACTORS)
    then add_factor 30 (py "High-risk country: " ++ customer_country) f0 else f0 in
  let f2 :=
    if float_ge amount_usd (float_of_int (high_amount_threshold_usd RISK_FACTORS))
    then add_factor 25 (py "High amount: $" ++ float_str amount_usd) f1 else f1 in
  let f3 :=
    if (account_age_days <=? suspicious_account_age_days RISK_FACTORS)%Z
    then add_factor 20 (py "New account: " ++ str_of_Z account_age_days ++ py " days old") f2
    else f2 in
  let '(log, f4) :=
    match transactions_container with
    | Some c =>
        match database_factors c transaction_id f3 with
        | inr f => ([], f)
        | inl db_error =>
            ([py "Could not query transaction from database: " ++ db_error], f3)
        end
    | None => ([], f3)
    end in
  let body : Exc pystr :=
    let risk_score := fst f4 in
    let risk_factors_found := snd f4 in
    let risk_level := risk_level_name risk_score in
    let result := py "Risk Score: " ++ str_of_Z risk_score ++ py "/100" ++ nl in
    let result := result ++ py "Risk Level: " ++ risk_level ++ nl in
    let result :=
      result ++
      match risk_factors_found with
      | _ :: _ =>
          py "Risk Factors:" ++ nl
          ++ join nl (map (fun factor => py "  - " ++ factor) risk_factors_found)
      | [] => py "  - None identified"
      end in
    inr result in
  match body with
  | inr result => (log, inr result)
  | inl e =>
      (log ++ [py "Error analyzing transaction risk: " ++ e],
       inr (py "Error analyzing transaction " ++ transaction_id ++ py ": " ++ e))
  end.

(** *** The score without a database *)

(** C5.  With no transactions database configured, the call does not raise;
    the reported score is 30 for a country among NG, IR, RU, KP, plus 25 for
    an amount of at least 10000, plus 20 for an account of at most 30 days;
    the reported level is "High" iff the score is at least 75, which happens
    exactly when all three factors fire (the score is then 75), "Medium" iff
    it is in [[40,75)] and "Low" otherwise; the returned string begins with
    "Risk Score: <score>/100". *)
Theorem analyze_transaction_risk_without_database
    (transaction_id customer_country : pystr) (amount_usd : float) (account_age_days : Z) :
  let country_fires := bool_decide (customer_country ∈ [py "NG"; py "IR"; py "RU"; py "KP"]) in
  let amount_fires := PrimFloat.leb 10000 amount_usd in
  let age_fires := (account_age_days <=? 30)%Z in
  let score :=
    ((if country_fires then 30 else 0) + (if amount_fires then 25 else 0)
     + (if age_fires then 20 else 0))%Z in
  exists level rest,
    analyze_transaction_risk None transaction_id customer_country amount_usd account_age_days
      = ([], inr (py "Risk Score: " ++ str_of_Z score ++ py "/100" ++ nl
                  ++ py "Risk Level: " ++ level ++ nl ++ rest)) /\
    (level = py "High" <-> (75 <= score)%Z) /\
    (level = py "Medium" <-> (40 <= score < 75)%Z) /\
    (level = py "Low" <-> (score < 40)%Z) /\
    ((75 <= score)%Z <-> country_fires && amount_fires && age_fires = true) /\
    (score <= 75)%Z.
Proof.
  intros country_fires amount_fires age_fires score.
  exists (risk_level_name score).
  unfold analyze_transaction_risk.
  change (high_risk_countries RISK_FACTORS) with [py "NG"; py "IR"; py "RU"; py "KP"].
  change (float_ge amount_usd (float_of_int (high_amount_threshold_usd RISK_FACTORS)))
    with amount_fires.
  change (account_age_days <=? suspicious_account_age_days RISK_FACTORS)%Z with age_fires.
  fold country_fires. subst score.
  destruct country_fires, amount_fires, age_fires; cbn [fst snd add_factor Z.add];
    (eexists; split;
     [rewrite <- !app_assoc; reflexivity
     |repeat split; intros; try lia; try done; try (by vm_compute in *)]).
Qed.

End Tool.

(** A new account in a listed country moving a large amount: all three
    factors fire. *)
Example analyze_all_factors :
  analyze_transaction_risk (fun _ => py "15000.0") None (py "TX1002") (py "NG")
    15000%float 12
  = ([], inr (py "Risk Score: 75/100" ++ nl ++ py "Risk Level: High" ++ nl
              ++ py "Risk Factors:" ++ nl ++ py "  - High-risk country: NG" ++ nl
              ++ py "  - High amount: $15000.0" ++ nl
              ++ py "  - New account: 12 days old")).
Proof. vm_compute. reflexivity. Qed.

Example analyze_no_factor :
  analyze_transaction_risk (fun _ => py "70.0") None (py "TX1006") (py "GB") 70%float 400
  = ([], inr (py "Risk Score: 0/100" ++ nl ++ py "Risk Level: Low" ++ nl
              ++ py "  - None identified")).
Proof. vm_compute. reflexivity. Qed.

(** *** The report, with and without the database *)

(** Lines 112-114: the text built from the final score and factors.  The
    conditional expression spans the header and the joined lines, so a call
    that found no factor prints no ["Risk Factors:"] header. *)
Definition factor_lines (risk_factors_found : list pystr) : pystr :=
  match risk_factors_found with
  | _ :: _ =>
      py "Risk Factors:" ++ nl
      ++ join nl (map (fun factor => py "  - " ++ factor) risk_factors_found)
  | [] => py "  - None identified"
  end.

Definition report (risk_score : Z) (risk_factors_found : list pystr) : pystr :=
  py "Risk Score: " ++ str_of_Z risk_score ++ py "/100" ++ nl
  ++ py "Risk Level: " ++ risk_level_name risk_score ++ nl
  ++ factor_lines risk_factors_found.

(** The three factors that need no database, as the tool adds them up. *)
Definition country_fires (customer_country : pystr) : bool :=
  bool_decide (customer_country ∈ [py "NG"; py "IR"; py "RU"; py "KP"]).
Definition amount_fires (amount_usd : float) : bool := PrimFloat.leb 10000 amount_usd.
Definition age_fires (account_age_days : Z) : bool := (account_age_days <=? 30)%Z.

Definition base_score (customer_country : pystr) (amount_usd : float)
    (account_age_days : Z) : Z :=
  ((if country_fires customer_country then 30 else 0)
   + (if amount_fires amount_usd then 25 else 0)
   + (if age_fires account_age_days then 20 else 0))%Z.

Section ReportFacts.
Variable float_str : float -> pystr.

Definition base_factors (customer_country : pystr) (amount_usd : float)
    (account_age_days : Z) : list pystr :=
  (if country_fires customer_country
   then [py "High-risk country: " ++ customer_country] else [])
  ++ (if amount_fires amount_usd then [py "High amount: $" ++ float_str amount_usd] else [])
  ++ (if age_fires account_age_days
      then [py "New account: " ++ str_of_Z account_age_days ++ py " days old"] else []).

Lemma base_score_range country amount age : (0 <= base_score country amount age <= 75)%Z.
Proof. unfold base_score. repeat case_match; lia. Qed.

Lemma analyze_without_database transaction_id country amount age :
  analyze_transaction_risk float_str None transaction_id country amount age
  = ([], inr (report (base_score country amount age) (base_factors country amount age))).
Proof.
  unfold analyze_transaction_risk, report, base_score, base_factors.
  change (high_risk_countries RISK_FACTORS) with [py "NG"; py "IR"; py "RU"; py "KP"].
  change (float_ge amount (float_of_int (high_amount_threshold_usd RISK_FACTORS)))
    with (amount_fires amount).
  change (age <=? suspicious_account_age_days RISK_FACTORS)%Z with (age_fires age).
  fold (country_fires country).
  destruct (country_fires country), (amount_fires amount), (age_fires age);
    cbn [fst snd add_factor Z.add app]; rewrite <- ?app_assoc; reflexivity.
Qed.

Lemma analyze_with_database c transaction_id country amount age :
  analyze_transaction_risk float_str (Some c) transaction_id country amount age
  = match database_factors float_str c transaction_id
            (base_score country amount age, base_factors country amount age) with
    | inr f => ([], inr (report (fst f) (snd f)))
    | inl db_error =>
        ([py "Could not query transaction from database: " ++ db_error],
         inr (report (base_score country amount age) (base_factors country amount age)))
    end.
Proof.
  unfold analyze_transaction_risk, report, base_score, base_factors.
  change (high_risk_countries RISK_FACTORS) with [py "NG"; py "IR"; py "RU"; py "KP"].
  change (float_ge amount (float_of_int (high_amount_threshold_usd RISK_FACTORS)))
    with (amount_fires amount).
  change (age <=? suspicious_account_age_days RISK_FACTORS)%Z with (age_fires age).
  fold (country_fires country).
  destruct (country_fires country), (amount_fires amount), (age_fires age);
    unfold add_factor; cbn [fst snd app]; rewrite ?Z.add_0_l, ?Z.add_0_r;
    match goal with |- context [database_factors ?fs ?c ?t ?f] =>
      destruct (database_factors fs c t f) as [e|[s fs']] end;
    cbn [fst snd]; rewrite <- ?app_assoc; reflexivity.
Qed.

(** X9.  The transactions database can only add the device-trust factor.
    A query that raises, or a stored trust score that cannot be compared
    with a float, logs one warning and leaves the report as it is without a
    database; so do, silently, an empty answer, a first document without a
    trust score, and a trust score of at least 0.5.  A trust score below 0.5
    in the first document adds 15 points and one factor line, after the
    other factors. *)
Theorem database_only_adds_the_device_factor (c : container)
    (transaction_id customer_country : pystr) (amount_usd : float) (account_age_days : Z) :
  let without :=
    analyze_transaction_risk float_str None transaction_id customer_country
      amount_usd account_age_days in
  let with_database :=
    analyze_transaction_risk float_str (Some c) transaction_id customer_country
      amount_usd account_age_days in
  let score := base_score customer_country amount_usd account_age_days in
  let factors := base_factors customer_country amount_usd account_age_days in
  let warning e := py "Could not query transaction from database: " ++ e in
  without = ([], inr (report score factors)) /\
  match query_items c (py "SELECT * FROM c WHERE c.id = '" ++ transaction_id ++ py "'") with
  | inl e => with_database = ([warning e], snd without)
  | inr [] => with_database = without
  | inr (txn :: _) =>
      match get txn (py "device_trust_score") with
      | None => with_database = without
      | Some (JOther _) => exists e, with_database = ([warning e], snd without)
      | Some (JNum x) =>
          if PrimFloat.ltb x 0.5
          then with_database
               = ([], inr (report (score + 15)
                             (factors ++ [py "Low device trust score: " ++ float_str x])))
          else with_database = without
      end
  end.
Proof.
  intros without with_database score factors warning.
  subst without with_database.
  rewrite analyze_without_database, analyze_with_database. split; [done|].
  unfold database_factors. fold score factors.
  destruct (query_items c _) as [e|[|txn items]]; cbn [exc_bind]; [done..|].
  unfold device_trust_below.
  change (low_device_trust_threshold RISK_FACTORS) with 0.5%float.
  destruct (get txn (py "device_trust_score")) as [[x|other]|]; cbn [exc_bind].
  - destruct (PrimFloat.ltb x 0.5); done.
  - eauto.
  - done.
Qed.

(** X10.  Without a database, a call for which no factor fires returns
    exactly "Risk Score: 0/100", "Risk Level: Low" and the line
    "  - None identified", with no "Risk Factors:" header; when a factor
    fires the header is printed, followed by one line per factor in the
    order country, amount, account age. *)
Theorem no_factor_prints_no_header
    (transaction_id customer_country : pystr) (amount_usd : float) (account_age_days : Z) :
  let run :=
    analyze_transaction_risk float_str None transaction_id customer_country
      amount_usd account_age_days in
  let score := base_score customer_country amount_usd account_age_days in
  let factors := base_factors customer_country amount_usd account_age_days in
  (factors = [] <->
     country_fires customer_country || amount_fires amount_usd
     || age_fires account_age_days = false) /\
  (factors = [] ->
     run = ([], inr (py "Risk Score: 0/100" ++ nl ++ py "Risk Level: Low" ++ nl
                     ++ py "  - None identified"))) /\
  (factors <> [] ->
     run = ([], inr (py "Risk Score: " ++ str_of_Z score ++ py "/100" ++ nl
                     ++ py "Risk Level: " ++ risk_level_name score ++ nl
                     ++ py "Risk Factors:" ++ nl
                     ++ join nl (map (fun factor => py "  - " ++ factor) factors)))).
Proof.
  intros run score factors. subst run. rewrite analyze_without_database.
  fold score factors. unfold report.
  assert (Hnone : factors = [] <->
            country_fires customer_country || amount_fires amount_usd
            || age_fires account_age_days = false).
  { subst factors. unfold base_factors.
    destruct (country_fires _), (amount_fires _), (age_fires _); cbn; split; done. }
  split_and!; [exact Hnone| |].
  - intros Hf. rewrite Hf. apply Hnone in Hf.
    apply orb_false_iff in Hf as [[Hc Ha]%orb_false_iff Hg].
    subst score. unfold base_score. rewrite Hc, Ha, Hg. reflexivity.
  - intros Hf. destruct factors; [done|reflexivity].
Qed.

Lemma database_factors_score c transaction_id s fs f :
  database_factors float_str c transaction_id (s, fs) = inr f ->
  fst f = s \/ fst f = (s + 15)%Z.
Proof.
  unfold database_factors.
  destruct (query_items c _) as [e|[|txn items]]; cbn [exc_bind]; [done| |].
  - intros [= <-]. by left.
  - destruct (device_trust_below _ _) as [e|[|]]; cbn [exc_bind]; [done| |].
    + intros [= <-]. by right.
    + intros [= <-]. by left.
Qed.

(** Whatever the database does, the call returns a report, with a score
    between 0 and 90. *)
Lemma analyze_reports container transaction_id country amount age :
  exists log score factors,
    analyze_transaction_risk float_str container transaction_id country amount age
      = (log, inr (report score factors)) /\
    (0 <= score <= 90)%Z.
Proof.
  pose proof (base_score_range country amount age) as Hb.
  destruct container as [c|].
  - rewrite analyze_with_database.
    destruct (database_factors _ _ _ _) as [e|f] eqn:E.
    + eexists _, _, _. split; [reflexivity|]. lia.
    + apply database_factors_score in E.
      eexists _, _, _. split; [reflexivity|]. lia.
  - rewrite analyze_without_database. eexists _, _, _. split; [reflexivity|]. lia.
Qed.

End ReportFacts.

Section Parser.
Context {U : Unicode} `{!PyTextFacts.AsciiCompatible U}.
Variable float_str : float -> pystr.

(** X11.  The tool and the workflow agree.  Whatever the database does,
    [analyze_transaction_risk] returns a report that opens with
    "Risk Score: <n>/100" for an n between 0 and 90; the workflow's
    [parse_risk_score] reads n back from that report; and the level the tool
    prints is "High", "Medium" or "Low" exactly when the workflow's level
    for n is "HIGH", "MEDIUM" or "LOW". *)
Theorem workflow_parser_reads_back_the_tool_score (transactions_container : option container)
    (transaction_id customer_country : pystr) (amount_usd : float) (account_age_days : Z) :
  exists score level rest,
    let text :=
      py "Risk Score: " ++ str_of_Z score ++ py "/100" ++ nl
      ++ py "Risk Level: " ++ level ++ nl ++ rest in
    snd (analyze_transaction_risk float_str transactions_container transaction_id
           customer_country amount_usd account_age_days) = inr text /\
    (0 <= score <= 90)%Z /\
    risk_score.parse_risk_score text = inr score /\
    (level = py "High" <-> workflow.risk_level_of score = py "HIGH") /\
    (level = py "Medium" <-> workflow.risk_level_of score = py "MEDIUM") /\
    (level = py "Low" <-> workflow.risk_level_of score = py "LOW").
Proof.
  destruct (analyze_reports float_str transactions_container transaction_id
              customer_country amount_usd account_age_days)
    as (log & score & factors & -> & Hs).
  exists score, (risk_level_name score), (factor_lines factors). cbn zeta.
  split_and!; [reflexivity|lia..| | | |].
  - apply ReFacts.parse_leading_score; [by vm_compute; repeat constructor|reflexivity|lia|].
    by vm_compute.
  - unfold risk_level_name, workflow.risk_level_of.
    destruct (75 <=? score)%Z; [done|].
    destruct (40 <=? score)%Z; split; intros; workflow.py_discr.
  - unfold risk_level_name, workflow.risk_level_of.
    destruct (75 <=? score)%Z; [split; intros; workflow.py_discr|].
    destruct (40 <=? score)%Z; [done|split; intros; workflow.py_discr].
  - unfold risk_level_name, workflow.risk_level_of.
    destruct (75 <=? score)%Z; [split; intros; workflow.py_discr|].
    destruct (40 <=? score)%Z; [split; intros; workflow.py_discr|done].
Qed.

End Parser.

(** The parser on the report of a call with all three factors. *)
Lemma parser_reads_back_witness :
  exists score level rest,
    snd (analyze_transaction_risk (fun _ => py "15000.0") None (py "TX1002") (py "NG")
           15000%float 12)
      = inr (py "Risk Score: " ++ str_of_Z score ++ py "/100" ++ nl
             ++ py "Risk Level: " ++ level ++ nl ++ rest) /\
    @risk_score.parse_risk_score ascii_tables
      (py "Risk Score: " ++ str_of_Z score ++ py "/100" ++ nl
       ++ py "Risk Level: " ++ level ++ nl ++ rest) = inr score.
Proof.
  destruct (@workflow_parser_reads_back_the_tool_score ascii_tables
              PyTextFacts.ascii_tables_compatible
              (fun _ => py "15000.0") None (py "TX1002") (py "NG") 15000%float 12)
    as (score & level & rest & Htext & _ & Hparse & _).
  exists score, level, rest. split; [exact Htext|exact Hparse].
Defined.

End risk_analyser_agent.

(** ** [agents/fraud_alert_agent.py] *)

Module fraud_alert_agent.

Definition SEVERITY_LEVELS : list pystr :=
  [py "LOW"; py "MEDIUM"; py "HIGH"; py "CRITICAL"].
Definition STATUS_VALUES : list pystr :=
  [py "OPEN"; py "INVESTIGATING"; py "RESOLVED"; py "FALSE_POSITIVE"].
Definition DECISION_ACTIONS : list pystr :=
  [py "ALLOW"; py "BLOCK"; py "MONITOR"; py "INVESTIGATE"].

(** The alert document. *)
Record alert := {
  alert_id : pystr;
  alert_transaction_id : pystr;
  alert_customer_id : pystr;
  alert_risk_score : Z;
  alert_severity : pystr;
  alert_status : pystr;
  alert_decision_action : pystr;
  alert_reason : pystr;
  alert_created_at : pystr
}.

(** The alerts container: [upsert_item] raises (with a message) or stores. *)
Record container := {
  upsert_fails : alert -> option pystr
}.

(** What the tool can change: the stored alerts, by id, and the log. *)
Record storage := {
  stored : gmap pystr alert;
  log : list pystr
}.

Definition write_log (line : pystr) (st : storage) : storage :=
  {| stored := stored st; log := log st ++ [line] |}.

(** The check mark U+2705 that opens the confirmation. *)
Definition check_mark : pystr := [9989%N].

Section Tool.

(** [dotenv.datetime.now().isoformat()] when the [dotenv] module has a
    [datetime] attribute, [None] when it has not. *)
Variable dotenv_datetime_now : option pystr.

(** [alerts_container.upsert_item(alert)] inside its own [try]. *)
Definition store_alert (c : container) (a : alert) (st : storage) : storage :=
  match upsert_fails c a with
  | None =>
      write_log (py "Created fraud alert " ++ alert_id a ++ py " in Cosmos DB")
        {| stored := <[alert_id a := a]> (stored st); log := log st |}
  | Some e => write_log (py "Failed to store alert in Cosmos DB: " ++ e) st
  end.

Definition confirmation (a : alert) : pystr :=
  check_mark ++ py " Fraud Alert Created:" ++ nl
  ++ py "Alert ID: " ++ alert_id a ++ nl
  ++ py "Transaction: " ++ alert_transaction_id a ++ nl
  ++ py "Customer: " ++ alert_customer_id a ++ nl
  ++ py "Risk Score: " ++ str_of_Z (alert_risk_score a) ++ py "/100" ++ nl
  ++ py "Severity: " ++ alert_severity a ++ nl
  ++ py "Status: " ++ alert_status a ++ nl
  ++ py "Decision: " ++ alert_decision_action a ++ nl
  ++ py "Reason: " ++ alert_reason a ++ nl.

(** [create_fraud_alert], with the module-level [alerts_container] as its
    first argument. *)
Definition create_fraud_alert (alerts_container : option container)
    (transaction_id customer_id : pystr) (risk_score : Z)
    (severity status decision_action reason : pystr) (st : storage)
    : storage * Exc pystr :=
  let body : storage * Exc pystr :=
    if negb (bool_decide (severity ∈ SEVERITY_LEVELS)) then
      (st, inr (py "Invalid severity: " ++ severity ++ py ". Must be one of "
                ++ repr_str_list SEVERITY_LEVELS))
    else if negb (bool_decide (status ∈ STATUS_VALUES)) then
      (st, inr (py "Invalid status: " ++ status ++ py ". Must be one of "
                ++ repr_str_list STATUS_VALUES))
    else if negb (bool_decide (decision_action ∈ DECISION_ACTIONS)) then
      (st, inr (py "Invalid decision_action: " ++ decision_action
                ++ py ". Must be one of " ++ repr_str_list DECISION_ACTIONS))
    else
      let a :=
        {| alert_id := py "ALERT-" ++ transaction_id;
           alert_transaction_id := transaction_id;
           alert_customer_id := customer_id;
           alert_risk_score := risk_score;
           alert_severity := severity;
           alert_status := status;
           alert_decision_action := decision_action;
           alert_reason := reason;
           alert_created_at := default (py "2024-01-01T00:00:00") dotenv_datetime_now |} in
      let st' :=
        match alerts_container with
        | Some c => store_alert c a st
        | None => st
        end in
      (st', inr (confirmation a)) in
  match body with
  | (st', inr result) => (st', inr result)
  | (st', inl e) =>
      (write_log (py "Error creating fraud alert: " ++ e) st',
       inr (py "Error creating fraud alert: " ++ e))
  end.

(** *** Validation comes first *)

(** C7.  [create_fraud_alert] always returns a string.  A severity outside
    LOW, MEDIUM, HIGH, CRITICAL, else a status outside OPEN, INVESTIGATING,
    RESOLVED, FALSE_POSITIVE, else a decision action outside ALLOW, BLOCK,
    MONITOR, INVESTIGATE gives the matching "Invalid ..." message with the
    storage and the log untouched; with the three values valid the result
    is the confirmation of the alert "ALERT-<transaction_id>". *)
Theorem create_fraud_alert_validates_first (alerts_container : option container)
    (transaction_id customer_id : pystr) (risk_score : Z)
    (severity status decision_action reason : pystr) (st : storage) :
  let run :=
    create_fraud_alert alerts_container transaction_id customer_id risk_score
      severity status decision_action reason st in
  (exists result, snd run = inr result) /\
  (severity ∉ [py "LOW"; py "MEDIUM"; py "HIGH"; py "CRITICAL"] ->
     run = (st, inr (py "Invalid severity: " ++ severity ++ py ". Must be one of "
                     ++ py "['LOW', 'MEDIUM', 'HIGH', 'CRITICAL']"))) /\
  (severity ∈ [py "LOW"; py "MEDIUM"; py "HIGH"; py "CRITICAL"] ->
   status ∉ [py "OPEN"; py "INVESTIGATING"; py "RESOLVED"; py "FALSE_POSITIVE"] ->
     run = (st, inr (py "Invalid status: " ++ status ++ py ". Must be one of "
                     ++ py "['OPEN', 'INVESTIGATING', 'RESOLVED', 'FALSE_POSITIVE']"))) /\
  (severity ∈ [py "LOW"; py "MEDIUM"; py "HIGH"; py "CRITICAL"] ->
   status ∈ [py "OPEN"; py "INVESTIGATING"; py "RESOLVED"; py "FALSE_POSITIVE"] ->
   decision_action ∉ [py "ALLOW"; py "BLOCK"; py "MONITOR"; py "INVESTIGATE"] ->
     run = (st, inr (py "Invalid decision_action: " ++ decision_action
                     ++ py ". Must be one of "
                     ++ py "['ALLOW', 'BLOCK', 'MONITOR', 'INVESTIGATE']"))) /\
  (severity ∈ [py "LOW"; py "MEDIUM"; py "HIGH"; py "CRITICAL"] ->
   status ∈ [py "OPEN"; py "INVESTIGATING"; py "RESOLVED"; py "FALSE_POSITIVE"] ->
   decision_action ∈ [py "ALLOW"; py "BLOCK"; py "MONITOR"; py "INVESTIGATE"] ->
     exists rest,
       snd run = inr (check_mark ++ py " Fraud Alert Created:" ++ nl
                      ++ py "Alert ID: ALERT-" ++ transaction_id ++ nl ++ rest)).
Proof.
  intros run. subst run. unfold create_fraud_alert.
  change [py "LOW"; py "MEDIUM"; py "HIGH"; py "CRITICAL"] with SEVERITY_LEVELS.
  change [py "OPEN"; py "INVESTIGATING"; py "RESOLVED"; py "FALSE_POSITIVE"]
    with STATUS_VALUES.
  change [py "ALLOW"; py "BLOCK"; py "MONITOR"; py "INVESTIGATE"] with DECISION_ACTIONS.
  destruct (bool_decide_reflect (severity ∈ SEVERITY_LEVELS)) as [Hs|Hs];
    [destruct (bool_decide_reflect (status ∈ STATUS_VALUES)) as [Ht|Ht];
     [destruct (bool_decide_reflect (decision_action ∈ DECISION_ACTIONS)) as [Hd|Hd]|]|];
    cbn [negb fst snd]; split_and!; eauto; done.
Qed.

End Tool.

Definition empty_storage : storage := {| stored := ∅; log := [] |}.

(** A working container stores the document under its id. *)
Example create_alert_stores :
  let run :=
    create_fraud_alert None (Some {| upsert_fails := fun _ => None |})
      (py "TX1005") (py "CUST1005") 85 (py "HIGH") (py "OPEN") (py "BLOCK")
      (py "velocity") empty_storage in
  alert_severity <$> stored (fst run) !! py "ALERT-TX1005" = Some (py "HIGH") /\
  startswith (default [] (match snd run with inr s => Some s | inl _ => None end))
    (check_mark ++ py " Fraud Alert Created:" ++ nl ++ py "Alert ID: ALERT-TX1005") = true.
Proof. vm_compute. split; reflexivity. Qed.

(** The severity is checked before the status. *)
Example create_alert_invalid :
  create_fraud_alert None (Some {| upsert_fails := fun _ => None |})
    (py "TX1005") (py "CUST1005") 85 (py "SEVERE") (py "PENDING") (py "BLOCK")
    (py "velocity") empty_storage
  = (empty_storage,
     inr (py "Invalid severity: SEVERE. Must be one of ['LOW', 'MEDIUM', 'HIGH', 'CRITICAL']")).
Proof. vm_compute. reflexivity. Qed.

(** The theorem at an invalid status: the message names the status, and
    nothing is stored. *)
Lemma create_fraud_alert_witness :
  create_fraud_alert None (Some {| upsert_fails := fun _ => None |})
    (py "TX1005") (py "CUST1005") 85 (py "HIGH") (py "PENDING") (py "BLOCK")
    (py "velocity") empty_storage
  = (empty_storage,
     inr (py "Invalid status: " ++ py "PENDING" ++ py ". Must be one of "
          ++ py "['OPEN', 'INVESTIGATING', 'RESOLVED', 'FALSE_POSITIVE']")).
Proof.
  apply (create_fraud_alert_validates_first None
           (Some {| upsert_fails := fun _ => None |})
           (py "TX1005") (py "CUST1005") 85 (py "HIGH") (py "PENDING") (py "BLOCK")
           (py "velocity") empty_storage).
  - refine (bool_decide_unpack _ _). vm_compute. exact I.
  - intros Hin. apply (bool_decide_pack _) in Hin. vm_compute in Hin. exact Hin.
Defined.

(** *** [get_fraud_alert] *)

(** A field of a stored document, as an f-string prints it. *)
Inductive field :=
| FStr (s : pystr)
| FInt (z : Z)
| FOther (printed : pystr).

Definition field_str (v : field) : pystr :=
  match v with
  | FStr s => s
  | FInt z => str_of_Z z
  | FOther printed => printed
  end.

(** A document returned by a query: a dictionary. *)
Abbreviation document := (gmap pystr field).

(** The alert container as [get_fraud_alert] uses it: [query_items] raises
    or returns the documents that answer the query. *)
Record query_container := {
  query_items : pystr -> Exc (list document)
}.

(** [alert[key]]: [KeyError] on a missing key. *)
Definition getitem (d : document) (key : pystr) : Exc field :=
  match d !! key with
  | Some v => inr v
  | None => inl (py "'" ++ key ++ py "'")
  end.

(** The keys that [get_fraud_alert] subscripts, in the order it reads them. *)
Definition required_keys : list pystr :=
  [py "id"; py "transaction_id"; py "customer_id"; py "risk_score"; py "severity";
   py "status"; py "decision_action"; py "reason"].

(** Lines 128-137: the details of a document. *)
Definition alert_details (alert : document) : Exc pystr :=
  let result := py "Fraud Alert Details:" ++ nl in
  exc_bind (getitem alert (py "id")) (fun v =>
  let result := result ++ py "Alert ID: " ++ field_str v ++ nl in
  exc_bind (getitem alert (py "transaction_id")) (fun v =>
  let result := result ++ py "Transaction: " ++ field_str v ++ nl in
  exc_bind (getitem alert (py "customer_id")) (fun v =>
  let result := result ++ py "Customer: " ++ field_str v ++ nl in
  exc_bind (getitem alert (py "risk_score")) (fun v =>
  let result := result ++ py "Risk Score: " ++ field_str v ++ py "/100" ++ nl in
  exc_bind (getitem alert (py "severity")) (fun v =>
  let result := result ++ py "Severity: " ++ field_str v ++ nl in
  exc_bind (getitem alert (py "status")) (fun v =>
  let result := result ++ py "Status: " ++ field_str v ++ nl in
  exc_bind (getitem alert (py "decision_action")) (fun v =>
  let result := result ++ py "Decision: " ++ field_str v ++ nl in
  exc_bind (getitem alert (py "reason")) (fun v =>
  let result := result ++ py "Reason: " ++ field_str v ++ nl in
  let created := default (FStr (py "N/A")) (alert !! py "created_at") in
  inr (result ++ py "Created: " ++ field_str created ++ nl))))))))).

Definition alert_query (alert_id : pystr) : pystr :=
  py "SELECT * FROM c WHERE c.id = '" ++ alert_id ++ py "'".

(** [get_fraud_alert], with the module-level [alerts_container] as its first
    argument: the lines logged and what the call returned. *)
Definition get_fraud_alert (alerts_container : option query_container) (alert_id : pystr)
    : list pystr * Exc pystr :=
  let body : Exc pystr :=
    match alerts_container with
    | None => inr (py "Fraud alerts storage not configured.")
    | Some c =>
        exc_bind (query_items c (alert_query alert_id)) (fun items =>
          match items with
          | alert :: _ => alert_details alert
          | [] => inr (py "No alert found with ID: " ++ alert_id)
          end)
    end in
  match body with
  | inr result => ([], inr result)
  | inl e =>
      ([py "Error retrieving fraud alert: " ++ e],
       inr (py "Error retrieving alert " ++ alert_id ++ py ": " ++ e))
  end.

(** The dictionary literal of [create_fraud_alert] (lines 76-86), as a
    stored document. *)
Definition alert_document (a : alert) : document :=
  <[py "id" := FStr (alert_id a)]>
  (<[py "transaction_id" := FStr (alert_transaction_id a)]>
  (<[py "customer_id" := FStr (alert_customer_id a)]>
  (<[py "risk_score" := FInt (alert_risk_score a)]>
  (<[py "severity" := FStr (alert_severity a)]>
  (<[py "status" := FStr (alert_status a)]>
  (<[py "decision_action" := FStr (alert_decision_action a)]>
  (<[py "reason" := FStr (alert_reason a)]>
  (<[py "created_at" := FStr (alert_created_at a)]> ∅)))))))).

(** The first of the required keys that a document lacks. *)
Definition first_missing (d : document) : option pystr :=
  List.find (fun key => bool_decide (d !! key = None)) required_keys.

(** The eight lines that the confirmation and the details share. *)
Definition alert_lines (a : alert) : pystr :=
  py "Alert ID: " ++ alert_id a ++ nl
  ++ py "Transaction: " ++ alert_transaction_id a ++ nl
  ++ py "Customer: " ++ alert_customer_id a ++ nl
  ++ py "Risk Score: " ++ str_of_Z (alert_risk_score a) ++ py "/100" ++ nl
  ++ py "Severity: " ++ alert_severity a ++ nl
  ++ py "Status: " ++ alert_status a ++ nl
  ++ py "Decision: " ++ alert_decision_action a ++ nl
  ++ py "Reason: " ++ alert_reason a ++ nl.

(** Two key literals differ. *)
Ltac distinct_keys := let E := fresh in intros E; vm_compute in E; discriminate E.

Lemma alert_details_missing (d : document) (key : pystr) :
  first_missing d = Some key -> alert_details d = inl (py "'" ++ key ++ py "'").
Proof.
  unfold first_missing, required_keys, alert_details, getitem. cbn [List.find].
  repeat (match goal with
          | |- context [bool_decide (d !! ?k = None)] =>
              destruct (d !! k) eqn:?;
              [rewrite bool_decide_eq_false_2 by done
              |rewrite bool_decide_eq_true_2 by done; intros [= <-]; reflexivity]
          end; cbn [exc_bind]).
  done.
Qed.

Lemma alert_details_complete (d : document) :
  first_missing d = None -> exists text, alert_details d = inr text.
Proof.
  unfold first_missing, required_keys, alert_details, getitem. cbn [List.find].
  repeat (match goal with
          | |- context [bool_decide (d !! ?k = None)] =>
              destruct (d !! k) eqn:?;
              [rewrite bool_decide_eq_false_2 by done
              |rewrite bool_decide_eq_true_2 by done; intros [=]]
          end; cbn [exc_bind]).
  eauto.
Qed.

(** X14.  [get_fraud_alert] always returns a string.  Without storage it
    says so; an empty answer gives "No alert found with ID: <id>"; a query
    that raises, and a first document that lacks one of the eight keys read
    with a subscript, give "Error retrieving alert <id>: <message>" and one
    error line in the log, the message of a missing key being the quoted
    name of the first key missing in reading order.  A missing
    [created_at] is no failure. *)
Theorem get_fraud_alert_reports_every_failure (c : query_container) (alert_id : pystr) :
  let run := get_fraud_alert (Some c) alert_id in
  let failure e :=
    ([py "Error retrieving fraud alert: " ++ e],
     inr (py "Error retrieving alert " ++ alert_id ++ py ": " ++ e)) in
  get_fraud_alert None alert_id = ([], inr (py "Fraud alerts storage not configured.")) /\
  (exists text, snd run = inr text) /\
  match query_items c (py "SELECT * FROM c WHERE c.id = '" ++ alert_id ++ py "'") with
  | inl e => run = failure e
  | inr [] => run = ([], inr (py "No alert found with ID: " ++ alert_id))
  | inr (alert :: _) =>
      match first_missing alert with
      | Some key => run = failure (py "'" ++ key ++ py "'")
      | None => exists text, run = ([], inr text) /\ alert_details alert = inr text
      end
  end.
Proof.
  intros run failure. subst run failure. unfold get_fraud_alert.
  change (alert_query alert_id)
    with (py "SELECT * FROM c WHERE c.id = '" ++ alert_id ++ py "'").
  split; [done|].
  destruct (query_items c _) as [e|[|alert items]]; cbn [exc_bind]; [eauto..|].
  destruct (first_missing alert) as [key|] eqn:Hm.
  - rewrite (alert_details_missing _ _ Hm). eauto.
  - destruct (alert_details_complete _ Hm) as [text ->]. eauto.
Qed.

(** A key of the document that [create_fraud_alert] builds. *)
Ltac stored_key :=
  unfold alert_document;
  repeat first [apply lookup_insert_eq | rewrite lookup_insert_ne by distinct_keys].

(** The details of a document that holds what [create_fraud_alert] wrote,
    and possibly more (the database adds fields of its own). *)
Lemma alert_document_details (a : alert) (d : document) :
  alert_document a ⊆ d ->
  alert_details d
  = inr (py "Fraud Alert Details:" ++ nl ++ alert_lines a
         ++ py "Created: " ++ alert_created_at a ++ nl).
Proof.
  intros Hsub.
  assert (Hl : forall k v, alert_document a !! k = Some v -> d !! k = Some v)
    by (intros k v Hk; by eapply lookup_weaken).
  unfold alert_details, getitem.
  rewrite (Hl (py "id") (FStr (alert_id a))),
    (Hl (py "transaction_id") (FStr (alert_transaction_id a))),
    (Hl (py "customer_id") (FStr (alert_customer_id a))),
    (Hl (py "risk_score") (FInt (alert_risk_score a))),
    (Hl (py "severity") (FStr (alert_severity a))),
    (Hl (py "status") (FStr (alert_status a))),
    (Hl (py "decision_action") (FStr (alert_decision_action a))),
    (Hl (py "reason") (FStr (alert_reason a))),
    (Hl (py "created_at") (FStr (alert_created_at a))) by stored_key.
  cbn [exc_bind field_str default from_option id]. unfold alert_lines.
  by rewrite <- !app_assoc.
Qed.

Section AlertFacts.
Variable dotenv_datetime_now : option pystr.

(** The alert that a call with valid enumerations builds. *)
Definition new_alert (transaction_id customer_id : pystr) (risk_score : Z)
    (severity status decision_action reason : pystr) : alert :=
  {| alert_id := py "ALERT-" ++ transaction_id;
     alert_transaction_id := transaction_id;
     alert_customer_id := customer_id;
     alert_risk_score := risk_score;
     alert_severity := severity;
     alert_status := status;
     alert_decision_action := decision_action;
     alert_reason := reason;
     alert_created_at := default (py "2024-01-01T00:00:00") dotenv_datetime_now |}.

Definition valid (severity status decision_action : pystr) : Prop :=
  severity ∈ SEVERITY_LEVELS /\ status ∈ STATUS_VALUES /\ decision_action ∈ DECISION_ACTIONS.

Lemma create_valid alerts_container transaction_id customer_id risk_score
    severity status decision_action reason st :
  valid severity status decision_action ->
  let a := new_alert transaction_id customer_id risk_score severity status
             decision_action reason in
  create_fraud_alert dotenv_datetime_now alerts_container transaction_id customer_id
    risk_score severity status decision_action reason st
  = (match alerts_container with
     | Some c => store_alert c a st
     | None => st
     end, inr (confirmation a)).
Proof.
  intros (Hs & Ht & Hd). unfold create_fraud_alert.
  by rewrite !bool_decide_eq_true_2 by done.
Qed.

(** X12.  With valid enumerations [create_fraud_alert] returns the same
    confirmation whether or not storage is configured and whether or not
    the upsert fails.  A successful upsert stores the alert under
    "ALERT-<transaction id>", leaves every other stored alert alone and
    logs one line; a failing upsert changes nothing stored and logs the
    failure; without storage nothing changes. *)
Theorem confirmation_does_not_depend_on_storage (alerts_container : option container)
    (transaction_id customer_id : pystr) (risk_score : Z)
    (severity status decision_action reason : pystr) (st : storage) :
  severity ∈ SEVERITY_LEVELS -> status ∈ STATUS_VALUES ->
  decision_action ∈ DECISION_ACTIONS ->
  let a := new_alert transaction_id customer_id risk_score severity status
             decision_action reason in
  let run :=
    create_fraud_alert dotenv_datetime_now alerts_container transaction_id customer_id
      risk_score severity status decision_action reason st in
  snd run = inr (check_mark ++ py " Fraud Alert Created:" ++ nl ++ alert_lines a) /\
  match alerts_container with
  | None => fst run = st
  | Some c =>
      match upsert_fails c a with
      | None =>
          stored (fst run) !! (py "ALERT-" ++ transaction_id) = Some a /\
          (forall id, id <> py "ALERT-" ++ transaction_id ->
             stored (fst run) !! id = stored st !! id) /\
          log (fst run) = log st ++
            [py "Created fraud alert ALERT-" ++ transaction_id ++ py " in Cosmos DB"]
      | Some e =>
          stored (fst run) = stored st /\
          log (fst run) = log st ++ [py "Failed to store alert in Cosmos DB: " ++ e]
      end
  end.
Proof.
  intros Hs Ht Hd a run. subst run.
  rewrite create_valid by done. fold a. cbn [fst snd]. split; [reflexivity|].
  destruct alerts_container as [c|]; [|done].
  unfold store_alert. destruct (upsert_fails c a) as [e|]; cbn; [done|].
  split_and!.
  - apply lookup_insert_eq.
  - intros id Hid. by apply lookup_insert_ne.
  - by rewrite <- app_assoc.
Qed.

(** X15.  Round trip: when the first document that answers the query for
    an alert's id holds the fields that [create_fraud_alert] wrote for it
    (and possibly others), [get_fraud_alert] logs nothing and returns, under
    the header "Fraud Alert Details:", the same eight lines as the
    confirmation of the creation, followed by the creation time. *)
Theorem stored_alert_reads_back (c : query_container) (a : alert) (d : document)
    (others : list document) :
  alert_document a ⊆ d ->
  query_items c (py "SELECT * FROM c WHERE c.id = '" ++ alert_id a ++ py "'")
    = inr (d :: others) ->
  get_fraud_alert (Some c) (alert_id a)
    = ([], inr (py "Fraud Alert Details:" ++ nl ++ alert_lines a
                ++ py "Created: " ++ alert_created_at a ++ nl)) /\
  confirmation a = check_mark ++ py " Fraud Alert Created:" ++ nl ++ alert_lines a.
Proof.
  intros Hsub Hq. unfold get_fraud_alert, alert_query. rewrite Hq. cbn [exc_bind].
  by rewrite (alert_document_details a d Hsub).
Qed.

End AlertFacts.

(** *** The confirmation, as the workflow reads it *)

Section Recognised.
Context {U : Unicode} `{!PyTextFacts.AsciiCompatible U}.

(** X16.  The confirmation that [create_fraud_alert] returns is recognised
    by the workflow's alert stage: its [alert_created] test is true on it
    whatever the risk score, for every Unicode table that agrees with ASCII
    on the 7-bit characters. *)
Theorem workflow_recognises_the_confirmation (a : alert) (risk_score : Z) :
  workflow.alert_created_of (confirmation a) risk_score = true.
Proof.
  unfold workflow.alert_created_of. apply orb_true_iff. left.
  apply PyTextFacts.contains_spec.
  unfold confirmation.
  assert (Hascii : PyTextFacts.is_ascii (py "Alert Created")) by (by vm_compute; repeat constructor).
  destruct (PyTextFacts.lower_ascii (check_mark ++ py " Fraud ") (py "Alert Created")
              (py ":" ++ nl ++ py "Alert ID: " ++ alert_id a ++ nl
               ++ py "Transaction: " ++ alert_transaction_id a ++ nl
               ++ py "Customer: " ++ alert_customer_id a ++ nl
               ++ py "Risk Score: " ++ str_of_Z (alert_risk_score a) ++ py "/100" ++ nl
               ++ py "Severity: " ++ alert_severity a ++ nl
               ++ py "Status: " ++ alert_status a ++ nl
               ++ py "Decision: " ++ alert_decision_action a ++ nl
               ++ py "Reason: " ++ alert_reason a ++ nl) Hascii)
    as (a' & b' & Hlow & _).
  change (map ascii_lower_char (py "Alert Created")) with (py "alert created") in Hlow.
  exists a', b'. rewrite <- Hlow. reflexivity.
Qed.

End Recognised.

(** *** The facts at sample inputs *)

Definition working_container : container := {| upsert_fails := fun _ => None |}.

Definition sample_alert : alert :=
  new_alert None (py "TX1005") (py "CUST1005") 85 (py "HIGH") (py "OPEN") (py "BLOCK")
    (py "velocity").

Lemma confirmation_witness :
  stored
    (fst (create_fraud_alert None (Some working_container) (py "TX1005") (py "CUST1005") 85
            (py "HIGH") (py "OPEN") (py "BLOCK") (py "velocity") empty_storage))
    !! py "ALERT-TX1005" = Some sample_alert.
Proof.
  destruct (confirmation_does_not_depend_on_storage None (Some working_container)
              (py "TX1005") (py "CUST1005") 85 (py "HIGH") (py "OPEN") (py "BLOCK")
              (py "velocity") empty_storage) as (_ & Hstored & _).
  - refine (bool_decide_unpack _ _). vm_compute. exact I.
  - refine (bool_decide_unpack _ _). vm_compute. exact I.
  - refine (bool_decide_unpack _ _). vm_compute. exact I.
  - exact Hstored.
Defined.

(** The sample alert as the database returns it, with a timestamp of the
    database's own. *)
Definition sample_stored : document :=
  <[py "_ts" := FInt 1762214400]> (alert_document sample_alert).

Lemma reads_back_witness :
  get_fraud_alert (Some {| query_items := fun _ => inr [sample_stored] |})
    (py "ALERT-TX1005")
  = ([], inr (py "Fraud Alert Details:" ++ nl ++ alert_lines sample_alert
              ++ py "Created: " ++ py "2024-01-01T00:00:00" ++ nl)).
Proof.
  destruct (stored_alert_reads_back
              {| query_items := fun _ => inr [sample_stored] |}
              sample_alert sample_stored []) as [Hget _].
  - apply insert_subseteq. reflexivity.
  - reflexivity.
  - exact Hget.
Defined.

Lemma recognised_witness :
  @workflow.alert_created_of ascii_tables (confirmation sample_alert) 0 = true.
Proof.
  exact (@workflow_recognises_the_confirmation ascii_tables
           PyTextFacts.ascii_tables_compatible
           sample_alert 0).
Defined.

End fraud_alert_agent.


(** ** [agents/customer_data_agent.py] *)

Module customer_data_agent.

Section Tools.

(** The values of the stored documents, and [str] on them: the tools only
    print them. *)
Variable V : Type.
Variable value_str : V -> pystr.

(** A customer or transaction document: a dictionary. *)
Definition document : Type := gmap pystr V.

(** A container: [query_items] raises or returns the documents. *)
Record container := {
  query_items : pystr -> Exc (list document)
}.

(** [d.get(key, 'N/A')] inside an f-string. *)
Definition get_or_na (d : document) (key : pystr) : pystr :=
  match d !! key with
  | Some v => value_str v
  | None => py "N/A"
  end.

Definition customer_query (customer_id : pystr) : pystr :=
  py "SELECT * FROM c WHERE c.customer_id = '" ++ customer_id ++ py "'".

(** [get_customer_data], with the module-level [customers_container] as its
    first argument: the lines logged and the string returned. *)
Definition get_customer_data (customers_container : option container)
    (customer_id : pystr) : list pystr * pystr :=
  match customers_container with
  | None =>
      ([], py "Cosmos DB not configured. Cannot fetch customer data. Please set COSMOS_ENDPOINT and COSMOS_KEY.")
  | Some c =>
      match query_items c (customer_query customer_id) with
      | inr (customer :: _) =>
          ([], py "Customer " ++ customer_id ++ py ": Name=" ++ get_or_na customer (py "name")
               ++ py ", Country=" ++ get_or_na customer (py "country")
               ++ py ", Account Age=" ++ get_or_na customer (py "account_age_days")
               ++ py " days, Risk Level=" ++ get_or_na customer (py "risk_level"))
      | inr [] => ([], py "Customer " ++ customer_id ++ py " not found")
      | inl e =>
          ([py "Error fetching customer data: " ++ e],
           py "Error fetching customer " ++ customer_id ++ py ": " ++ e)
      end
  end.

(** One line of the transaction summary. *)
Definition transaction_line (i : nat) (txn : document) : pystr :=
  str_of_N (N.of_nat i) ++ py ". Amount: $" ++ get_or_na txn (py "amount")
  ++ py ", Type: " ++ get_or_na txn (py "transaction_type")
  ++ py ", Date: " ++ get_or_na txn (py "timestamp")
  ++ py ", Status: " ++ get_or_na txn (py "status") ++ nl.

(** [for i, txn in enumerate(txns, start): summary += line] *)
Fixpoint summarize (start : nat) (txns : list document) (summary : pystr) : pystr :=
  match txns with
  | [] => summary
  | txn :: txns' => summarize (S start) txns' (summary ++ transaction_line start txn)
  end.

(** [get_customer_transactions], with the module-level
    [transactions_container] as its first argument. *)
Definition get_customer_transactions (transactions_container : option container)
    (customer_id : pystr) : list pystr * pystr :=
  match transactions_container with
  | None =>
      ([], py "Cosmos DB not configured. Cannot fetch transaction data. Please set COSMOS_ENDPOINT and COSMOS_KEY.")
  | Some c =>
      match query_items c (customer_query customer_id) with
      | inr [] => ([], py "No transactions found for customer " ++ customer_id)
      | inr items =>
          let summary :=
            py "Found " ++ str_of_N (N.of_nat (length items)) ++ py " transactions for "
            ++ customer_id ++ py ":" ++ nl in
          let summary := summarize 1 (take 5 items) summary in
          let summary :=
            if (5 <? length items)%nat
            then summary ++ py "... and " ++ str_of_N (N.of_nat (length items - 5))
                 ++ py " more transactions"
            else summary in
          ([], summary)
      | inl e =>
          ([py "Error fetching transactions: " ++ e],
           py "Error fetching transactions for " ++ customer_id ++ py ": " ++ e)
      end
  end.

Lemma summarize_lines (txns : list document) : forall start summary,
  summarize start txns summary
  = summary ++ concat (imap (fun i txn => transaction_line (start + i) txn) txns).
Proof.
  induction txns as [|txn txns IH]; intros start summary; simpl.
  - by rewrite app_nil_r.
  - rewrite IH, <- app_assoc, Nat.add_0_r. do 3 f_equal.
    apply imap_ext. intros i x _. simpl. f_equal. lia.
Qed.

(** X17.  The transaction summary names the total, lists at most the first
    five transactions, numbered from 1 in the order of the query's answer,
    and says how many it left out exactly when there are more than five. *)
Theorem transaction_summary_lists_the_first_five (c : container) (customer_id : pystr)
    (items : list document) :
  query_items c (py "SELECT * FROM c WHERE c.customer_id = '" ++ customer_id ++ py "'")
    = inr items ->
  items <> [] ->
  let n := length items in
  exists lines,
    get_customer_transactions (Some c) customer_id
      = ([], py "Found " ++ str_of_N (N.of_nat n) ++ py " transactions for "
             ++ customer_id ++ py ":" ++ nl ++ concat lines
             ++ (if (5 <? n)%nat
                 then py "... and " ++ str_of_N (N.of_nat (n - 5)) ++ py " more transactions"
                 else [])) /\
    length lines = Nat.min n 5 /\
    (forall i line, lines !! i = Some line ->
       exists txn, items !! i = Some txn /\ line = transaction_line (S i) txn) /\
    (length lines + (if (5 <? n)%nat then n - 5 else 0) = n)%nat.
Proof.
  intros Hq Hne n. unfold get_customer_transactions, customer_query. rewrite Hq.
  destruct items as [|txn items']; [done|]. clear Hne Hq.
  set (items := txn :: items') in *.
  exists (imap (fun i txn => transaction_line (1 + i) txn) (take 5 items)).
  split_and!.
  - rewrite summarize_lines. fold n.
    destruct (5 <? n)%nat; rewrite <- ?app_assoc; [done|by rewrite app_nil_r].
  - rewrite length_imap, length_take. subst n. lia.
  - intros i line Hi. rewrite list_lookup_imap in Hi.
    destruct (take 5 items !! i) as [t|] eqn:Ht; [|done].
    injection Hi as <-. exists t. split; [|done].
    rewrite lookup_take_Some in Ht. tauto.
  - rewrite length_imap, length_take. fold n. destruct (Nat.ltb_spec 5 n); lia.
Qed.

End Tools.

(** Seven transactions: five are listed and two announced. *)
Lemma transaction_summary_witness :
  exists lines,
    get_customer_transactions pystr (fun s => s)
      (Some {| query_items := fun _ => inr (replicate 7 ∅) |}) (py "CUST1005")
    = ([], py "Found " ++ str_of_N 7 ++ py " transactions for " ++ py "CUST1005" ++ py ":"
           ++ nl ++ concat lines ++ py "... and " ++ str_of_N 2 ++ py " more transactions") /\
    length lines = 5%nat.
Proof.
  destruct (transaction_summary_lists_the_first_five pystr (fun s => s)
              {| query_items := fun _ => inr (replicate 7 ∅) |} (py "CUST1005")
              (replicate 7 ∅) eq_refl) as (lines & Hrun & Hlen & _).
  - discriminate.
  - exists lines. split; [exact Hrun|exact Hlen].
Defined.

End customer_data_agent.

(** ** [batch_run/multi_transaction_simulator.py] *)

Module multi_transaction_simulator.

Import workflow.

(** What [run_fraud_detection_workflow] does when the batch calls it: raise
    (anything inside the [try] of [process_single_transaction] does), or
    return its result. *)
Inductive workflow_outcome :=
| WorkflowRaises (message : pystr)
| WorkflowReturns (result : option FraudAlertResponse).

(** The counters of the reads made so far: of [time.time()], and of the
    workflow. *)
Record sim_state := {
  clock_reads : nat;
  workflow_calls : nat
}.

Section Batch.

(** The floats of the batch (amounts, times, averages) and the operations on
    them that the simulator uses: the float of an integer literal, [+], [-],
    a float and an [int] divided by a length, [<=] and [str].  The
    definitions and the counting facts are stated for any carrier; the
    simulator runs on IEEE binary64, for which the bound on the blocked
    amount is proved after the section. *)
Variable F : Type.
Variable flit : Z -> F.
Variable fadd fsub : F -> F -> F.
Variable fdiv_len : F -> nat -> F.
Variable idiv_len : Z -> nat -> F.
Variable fleb : F -> F -> bool.
Variable float_str : F -> pystr.

(** The builtin [sum] over floats, from the integer 0: a left fold of [+]
    up to CPython 3.11 and a compensated sum from 3.12 on. *)
Variable sum_floats : list F -> F.

(** *** Transactions as dictionaries on a heap *)

(** What a transaction dictionary holds under a key: a [str] or a [float]. *)
Inductive pyval :=
| PStr (s : pystr)
| PFloat (x : F).

(** The services outside the simulator: the workflow (by call number, on the
    four values of the transaction), the wall clock (by read number) and
    [random.shuffle]. *)
Variable run_workflow : nat -> pyval -> pyval -> pyval -> pyval -> workflow_outcome.
Variable wall_clock : nat -> F.
Variable shuffle : list nat -> list nat.

(** The heap of dictionary objects; a reference is an index into it. *)
Abbreviation dict := (gmap pystr pyval).
Abbreviation heap := (list (gmap pystr pyval)).

Definition transaction (transaction_id customer_id : string) (amount : Z)
    (currency : string) : dict :=
  <[py "transaction_id" := PStr (py transaction_id)]>
    (<[py "customer_id" := PStr (py customer_id)]>
       (<[py "amount" := PFloat (flit amount)]>
          (<[py "currency" := PStr (py currency)]> ∅))).

(** The seed data of [AVAILABLE_TRANSACTIONS]. *)
Definition seed_table : list (string * string * Z * string) :=
  [("TX1001", "CUST1001", 5200%Z, "USD"); ("TX1002", "CUST1002", 15000%Z, "INR");
   ("TX1003", "CUST1003", 300%Z, "CNY"); ("TX1004", "CUST1004", 9900%Z, "AED");
   ("TX1005", "CUST1005", 200%Z, "EUR"); ("TX1006", "CUST1006", 70%Z, "GBP");
   ("TX1007", "CUST1007", 1800%Z, "RUB"); ("TX1008", "CUST1008", 40%Z, "SOS");
   ("TX1009", "CUST1009", 90%Z, "ILS"); ("TX1010", "CUST1010", 600%Z, "IRR");
   ("TX1011", "CUST1011", 220%Z, "KRW"); ("TX1012", "CUST1012", 1100%Z, "SYP");
   ("TX1013", "CUST1013", 60%Z, "EUR"); ("TX1014", "CUST1014", 25%Z, "YER");
   ("TX2001", "CUST1005", 9999%Z, "EUR"); ("TX2002", "CUST1005", 9998%Z, "EUR");
   ("TX2003", "CUST1005", 9997%Z, "EUR")]%string.

(** The heap when the module has been loaded: the seventeen dictionaries of
    the list literal, at the references 0 to 16. *)
Definition initial_heap : heap :=
  (fun row => let '(t, c, a, cur) := row in transaction t c a cur) <$> seed_table.

(** [AVAILABLE_TRANSACTIONS]: the list of those seventeen references. *)
Definition AVAILABLE_TRANSACTIONS : list nat := List.seq 0 17.

(** [l[i]], [d[key]] and [d.copy()]. *)
Definition list_getitem {A} (l : list A) (i : nat) : Exc A :=
  match l !! i with
  | Some x => inr x
  | None => inl (py "list index out of range")
  end.

Definition dict_getitem (d : dict) (key : pystr) : Exc pyval :=
  match d !! key with
  | Some v => inr v
  | None => inl (py "'" ++ key ++ py "'")
  end.

Definition dict_copy (h : heap) (r : nat) : Exc (heap * nat) :=
  exc_bind (list_getitem h r) (fun d => inr (h ++ [d], length h)).

(** A value inside an f-string. *)
Definition format_value (v : pyval) : pystr :=
  match v with
  | PStr s => s
  | PFloat x => float_str x
  end.

(** *** Preparing the batch *)

(** The body of [for i in range(num_transactions)]: the state is the heap
    and the list [transactions]. *)
Definition prepare_step (i : nat) (st : heap * list nat) : Exc (heap * list nat) :=
  let '(h, transactions) := st in
  let n := length AVAILABLE_TRANSACTIONS in
  exc_bind (list_getitem AVAILABLE_TRANSACTIONS (i mod n)) (fun source =>
  exc_bind (dict_copy h source) (fun copied =>
  let '(h1, tx) := copied in
  exc_bind
    (if (n <=? i)%nat then
       exc_bind (list_getitem h1 tx) (fun d =>
       exc_bind (dict_getitem d (py "transaction_id")) (fun v =>
       inr (<[tx := <[py "transaction_id" :=
                        PStr (format_value v ++ py "-" ++ str_of_N (N.of_nat (i / n)))]> d]>
              h1)))
     else inr h1)
    (fun h2 => inr (h2, transactions ++ [tx])))).

Fixpoint for_each {S} (body : nat -> S -> Exc S) (indices : list nat) (st : S) : Exc S :=
  match indices with
  | [] => inr st
  | i :: indices' => exc_bind (body i st) (for_each body indices')
  end.

(** [range(n)] for a Python [int]. *)
Definition range (n : Z) : list nat := List.seq 0 (Z.to_nat n).

(** Lines 202-209: the prepared list, before any shuffle. *)
Definition prepare_transactions (num_transactions : Z) (h : heap) : Exc (heap * list nat) :=
  for_each prepare_step (range num_transactions) (h, []).

(** The [transaction_id] of the dictionary behind a reference. *)
Definition transaction_id_of (h : heap) (tx : nat) : option pystr :=
  match h !! tx with
  | Some d =>
      match d !! py "transaction_id" with
      | Some (PStr s) => Some s
      | _ => None
      end
  | None => None
  end.

(** *** Processing one transaction *)

(** The dataclass checks no type: the first four fields hold whatever the
    dictionary held. *)
Record TransactionResult := {
  transaction_id : pyval;
  customer_id : pyval;
  amount : pyval;
  currency : pyval;
  risk_score : Z;
  risk_level : pystr;
  alert_created : bool;
  alert_severity : pystr;
  processing_time : F;
  status : pystr;
  error_message : option pystr
}.

(** The four subscripts that open [process_single_transaction]: a missing
    key raises [KeyError]. *)
Definition read_fields (d : dict) : Exc (pyval * pyval * pyval * pyval) :=
  exc_bind (dict_getitem d (py "transaction_id")) (fun tid =>
  exc_bind (dict_getitem d (py "customer_id")) (fun cid =>
  exc_bind (dict_getitem d (py "amount")) (fun amt =>
  exc_bind (dict_getitem d (py "currency")) (fun cur =>
  inr (tid, cid, amt, cur))))).

(** The severity the batch derives from the score of a created alert. *)
Definition batch_severity (score : Z) : pystr :=
  if (90 <=? score)%Z then py "CRITICAL"
  else if (75 <=? score)%Z then py "HIGH"
  else if (50 <=? score)%Z then py "MEDIUM" else py "LOW".

Definition process_single_transaction (h : heap) (transaction : nat) (st : sim_state)
    : sim_state * Exc TransactionResult :=
  match exc_bind (list_getitem h transaction) read_fields with
  | inl e => (st, inl e)
  | inr (tid, cid, amt, cur) =>
      let start_time := wall_clock (clock_reads st) in
      let outcome := run_workflow (workflow_calls st) tid cid amt cur in
      let end_time := wall_clock (S (clock_reads st)) in
      let st' :=
        {| clock_reads := S (S (clock_reads st));
           workflow_calls := S (workflow_calls st) |} in
      let result score level created severity state error :=
        {| transaction_id := tid; customer_id := cid; amount := amt; currency := cur;
           risk_score := score; risk_level := level; alert_created := created;
           alert_severity := severity; processing_time := fsub end_time start_time;
           status := state; error_message := error |} in
      (st',
       inr match outcome with
           | WorkflowReturns (Some workflow_result) =>
               let created := fa_alert_created workflow_result in
               let score := fa_risk_score workflow_result in
               result score (fa_risk_level workflow_result) created
                 (if created then batch_severity score else py "NONE")
                 (fa_workflow_status workflow_result) None
           | WorkflowReturns None =>
               result 0%Z (py "UNKNOWN") false (py "NONE") (py "NO_RESULT") None
           | WorkflowRaises e =>
               result 0%Z (py "UNKNOWN") false (py "NONE") (py "ERROR") (Some e)
           end)
  end.

(** *** The batch and its summary *)

Record BatchRunSummary := {
  total_transactions : Z;
  successful : Z;
  failed : Z;
  alerts_created : Z;
  total_amount_processed : F;
  total_amount_blocked : F;
  avg_processing_time : F;
  avg_risk_score : F;
  risk_distribution : gmap pystr Z;
  alert_severity_distribution : gmap pystr Z;
  results : list TransactionResult
}.

Definition new_summary (num_transactions : Z) : BatchRunSummary :=
  {| total_transactions := num_transactions; successful := 0; failed := 0;
     alerts_created := 0; total_amount_processed := flit 0;
     total_amount_blocked := flit 0; avg_processing_time := flit 0;
     avg_risk_score := flit 0; risk_distribution := ∅;
     alert_severity_distribution := ∅; results := [] |}.

(** [m[key] = m.get(key, 0) + 1] *)
Definition bump (key : pystr) (m : gmap pystr Z) : gmap pystr Z :=
  <[key := (default 0 (m !! key) + 1)%Z]> m.

Definition is_success (r : TransactionResult) : Prop := status r = py "SUCCESS".

#[global] Instance is_success_dec (r : TransactionResult) : Decision (is_success r).
Proof. unfold is_success. apply _. Defined.

(** [total += v] on a float total: float addition, and [TypeError] for a
    [str]. *)
Definition iadd (total : F) (v : pyval) : Exc F :=
  match v with
  | PFloat x => inr (fadd total x)
  | PStr _ => inl (py "unsupported operand type(s) for +=: 'float' and 'str'")
  end.

(** Lines 228-249: what one result does to the summary.  The two [+=] on the
    amount are the statements that can raise; the summary is local to the
    run, so what the earlier statements did to it is lost with it. *)
Definition record_result (s : BatchRunSummary) (r : TransactionResult)
    : Exc BatchRunSummary :=
  exc_bind
    (if alert_created r then iadd (total_amount_blocked s) (amount r)
     else inr (total_amount_blocked s)) (fun blocked =>
  exc_bind (iadd (total_amount_processed s) (amount r)) (fun processed =>
  inr {| total_transactions := total_transactions s;
         successful :=
           if bool_decide (is_success r) then (successful s + 1)%Z else successful s;
         failed := if bool_decide (is_success r) then failed s else (failed s + 1)%Z;
         alerts_created :=
           if alert_created r then (alerts_created s + 1)%Z else alerts_created s;
         total_amount_processed := processed;
         total_amount_blocked := blocked;
         avg_processing_time := avg_processing_time s;
         avg_risk_score := avg_risk_score s;
         risk_distribution := bump (risk_level r) (risk_distribution s);
         alert_severity_distribution :=
           if alert_created r then bump (alert_severity r) (alert_severity_distribution s)
           else alert_severity_distribution s;
         results := results s ++ [r] |})).

(** The [for i, transaction in enumerate(transactions, 1)] loop.  Printing
    and sleeping between transactions change nothing that is modelled. *)
Fixpoint process_all (h : heap) (transactions : list nat) (st : sim_state)
    (summary : BatchRunSummary) : sim_state * Exc BatchRunSummary :=
  match transactions with
  | [] => (st, inr summary)
  | transaction :: transactions' =>
      match process_single_transaction h transaction st with
      | (st', inr result) =>
          match record_result summary result with
          | inr summary' => process_all h transactions' st' summary'
          | inl e => (st', inl e)
          end
      | (st', inl e) => (st', inl e)
      end
  end.

(** What [total += x] for each [x] in turn leaves in a total that was 0.0. *)
Definition running_total (xs : list F) : F := foldl fadd (flit 0) xs.

(** [sum(...)] over integers, from the integer 0. *)
Definition int_sum (xs : list Z) : Z := foldl Z.add 0%Z xs.

(** Lines 269-273: the averages over the successful results. *)
Definition with_averages (s : BatchRunSummary) : Exc BatchRunSummary :=
  if (0 <? successful s)%Z then
    let successful_results := filter is_success (results s) in
    match length successful_results with
    | O => inl (py "division by zero")
    | S _ =>
        inr {| total_transactions := total_transactions s;
               successful := successful s; failed := failed s;
               alerts_created := alerts_created s;
               total_amount_processed := total_amount_processed s;
               total_amount_blocked := total_amount_blocked s;
               avg_processing_time :=
                 fdiv_len (sum_floats (processing_time <$> successful_results))
                   (length successful_results);
               avg_risk_score :=
                 idiv_len (int_sum (risk_score <$> successful_results))
                   (length successful_results);
               risk_distribution := risk_distribution s;
               alert_severity_distribution := alert_severity_distribution s;
               results := results s |}
    end
  else inr s.

Definition tick (st : sim_state) : sim_state :=
  {| clock_reads := S (clock_reads st); workflow_calls := workflow_calls st |}.

(** [run_batch_simulation], on the heap that holds the seed dictionaries.
    The telemetry events of the batch, the printed report and the delays
    take no part in the summary and are left out. *)
Definition run_batch_simulation (num_transactions : Z) (shuffle_transactions : bool)
    (h : heap) (st : sim_state) : sim_state * Exc (heap * BatchRunSummary) :=
  match prepare_transactions num_transactions h with
  | inl e => (st, inl e)
  | inr (h1, prepared_list) =>
      let transactions :=
        if shuffle_transactions then shuffle prepared_list else prepared_list in
      match process_all h1 transactions (tick st) (new_summary num_transactions) with
      | (st', inl e) => (st', inl e)
      | (st', inr summary) =>
          match with_averages summary with
          | inl e => (tick st', inl e)
          | inr summary' => (tick st', inr (h1, summary'))
          end
      end
  end.

(** *** What the prepared batch is *)

(** The ids of the seed data, and the dictionary and id at position [k]. *)
Definition seed_ids : list pystr :=
  (fun row => let '(t, _, _, _) := row in py t) <$> seed_table.

Definition seed (k : nat) : dict := default ∅ (initial_heap !! k).
Definition seed_id (k : nat) : pystr := default [] (seed_ids !! k).

(** The [i]-th prepared dictionary and its id, as the loop leaves them. *)
Definition id_suffix (i : nat) : pystr :=
  if (17 <=? i)%nat then py "-" ++ str_of_N (N.of_nat (i / 17)) else [].

Definition prepared_id (i : nat) : pystr := seed_id (i mod 17) ++ id_suffix i.

Definition prepared (i : nat) : dict :=
  if (17 <=? i)%nat
  then <[py "transaction_id" := PStr (prepared_id i)]> (seed (i mod 17))
  else seed (i mod 17).

Lemma transaction_lookup_id t c a cur :
  transaction t c a cur !! py "transaction_id" = Some (PStr (py t)).
Proof. unfold transaction. apply lookup_insert_eq. Qed.

Lemma initial_heap_length : length initial_heap = 17%nat.
Proof. reflexivity. Qed.

Lemma seed_lookup k :
  (k < 17)%nat ->
  initial_heap !! k = Some (seed k) /\ seed_ids !! k = Some (seed_id k) /\
  seed k !! py "transaction_id" = Some (PStr (seed_id k)).
Proof.
  intros Hk. unfold seed, seed_id, initial_heap, seed_ids.
  rewrite !list_lookup_fmap.
  destruct (seed_table !! k) as [[[[t c] a] cur]|] eqn:E.
  - simpl. auto using transaction_lookup_id.
  - apply lookup_ge_None in E. simpl in E. lia.
Qed.

Lemma for_each_app {S} (body : nat -> S -> Exc S) l1 l2 st :
  for_each body (l1 ++ l2) st = exc_bind (for_each body l1 st) (for_each body l2).
Proof.
  revert st. induction l1 as [|i l1 IH]; intros st; simpl; [done|].
  destruct (body i st); simpl; auto.
Qed.

Lemma prepare_step_spec k copies transactions :
  length copies = k ->
  prepare_step k (initial_heap ++ copies, transactions)
  = inr (initial_heap ++ copies ++ [prepared k], transactions ++ [(17 + k)%nat]).
Proof.
  intros Hlen. unfold prepare_step.
  change (length AVAILABLE_TRANSACTIONS) with 17%nat.
  assert (Hmod : (k mod 17 < 17)%nat) by (apply Nat.mod_upper_bound; lia).
  destruct (seed_lookup _ Hmod) as (Hseed & _ & Hid).
  unfold list_getitem at 1. unfold AVAILABLE_TRANSACTIONS.
  rewrite lookup_seq_lt by done. cbn [exc_bind Nat.add].
  unfold dict_copy, list_getitem at 1.
  rewrite lookup_app_l by (rewrite initial_heap_length; done).
  rewrite Hseed. cbn [exc_bind].
  rewrite length_app, initial_heap_length, Hlen.
  unfold prepared, prepared_id, id_suffix.
  destruct (17 <=? k)%nat eqn:Hk; cbn [exc_bind].
  - unfold list_getitem.
    rewrite list_lookup_middle by (rewrite length_app, initial_heap_length; lia).
    cbn [exc_bind]. unfold dict_getitem. rewrite Hid. cbn [exc_bind format_value].
    rewrite insert_app_r_alt by (rewrite length_app, initial_heap_length; lia).
    rewrite length_app, initial_heap_length, Hlen, Nat.sub_diag, <- app_assoc.
    reflexivity.
  - rewrite <- app_assoc. reflexivity.
Qed.

Lemma prepare_loop k :
  for_each prepare_step (List.seq 0 k) (initial_heap, [])
  = inr (initial_heap ++ (prepared <$> List.seq 0 k), (fun i => (17 + i)%nat) <$> List.seq 0 k).
Proof.
  induction k as [|k IH].
  - cbn [List.seq for_each fmap list_fmap]. by rewrite app_nil_r.
  - rewrite seq_S, for_each_app, IH. cbn [exc_bind for_each Nat.add].
    rewrite prepare_step_spec by (by rewrite length_fmap, length_seq).
    rewrite !fmap_app. reflexivity.
Qed.

Lemma uint_digits_inj d1 d2 : uint_digits d1 = uint_digits d2 -> d1 = d2.
Proof.
  revert d2. induction d1; intros [] E; simplify_eq/=; f_equal; auto.
Qed.

Lemma str_of_N_inj a b : str_of_N a = str_of_N b -> a = b.
Proof.
  intros E%uint_digits_inj.
  by rewrite <- (DecimalN.Unsigned.of_to a), <- (DecimalN.Unsigned.of_to b), E.
Qed.

Lemma seed_ids_NoDup : NoDup seed_ids.
Proof. refine (bool_decide_unpack _ _). vm_compute. exact I. Qed.

Lemma seed_id_length k : (k < 17)%nat -> length (seed_id k) = 6%nat.
Proof.
  intros Hk. destruct (seed_lookup k Hk) as (_ & Hid & _).
  assert (Hall : Forall (fun id => length id = 6%nat) seed_ids)
    by (refine (bool_decide_unpack _ _); vm_compute; exact I).
  rewrite Forall_lookup in Hall. eauto.
Qed.

Lemma prepared_id_inj i j : prepared_id i = prepared_id j -> i = j.
Proof.
  unfold prepared_id. intros E.
  assert (Hi : (i mod 17 < 17)%nat) by (apply Nat.mod_upper_bound; lia).
  assert (Hj : (j mod 17 < 17)%nat) by (apply Nat.mod_upper_bound; lia).
  pose proof (f_equal (take 6) E) as E6.
  rewrite !take_app_length' in E6 by (symmetry; by apply seed_id_length).
  assert (Hmod : i mod 17 = j mod 17).
  { destruct (seed_lookup _ Hi) as (_ & Ii & _), (seed_lookup _ Hj) as (_ & Ij & _).
    rewrite <- E6 in Ij. exact (NoDup_lookup _ _ _ _ seed_ids_NoDup Ii Ij). }
  rewrite E6 in E. apply app_inv_head in E. unfold id_suffix in E.
  pose proof (Nat.div_mod_eq i 17). pose proof (Nat.div_mod_eq j 17).
  destruct (Nat.leb_spec 17 i), (Nat.leb_spec 17 j).
  - apply app_inv_head, str_of_N_inj, Nat2N.inj in E. lia.
  - change (py "-") with [45%N] in E. discriminate.
  - change (py "-") with [45%N] in E. discriminate.
  - rewrite (Nat.div_small i), (Nat.div_small j) in * by lia. lia.
Qed.

Lemma prepared_lookup_id i :
  prepared i !! py "transaction_id" = Some (PStr (prepared_id i)).
Proof.
  assert (Hi : (i mod 17 < 17)%nat) by (apply Nat.mod_upper_bound; lia).
  destruct (seed_lookup _ Hi) as (_ & _ & Hid).
  unfold prepared, prepared_id, id_suffix.
  destruct (17 <=? i)%nat; [apply lookup_insert_eq|]. by rewrite app_nil_r.
Qed.

(** C9.  For every [num_transactions >= 1] the loop prepares exactly that
    many transactions; the [i]-th is a copy (a new object) of
    [AVAILABLE_TRANSACTIONS[i mod 17]], with ["-<i div 17>"] appended to its
    [transaction_id] when [i >= 17]; so the ids of the prepared batch are
    pairwise distinct, and the seventeen source dictionaries are left as
    they were. *)
Theorem prepared_batch_is_cyclic_copy (num_transactions : Z) :
  (1 <= num_transactions)%Z ->
  exists h transactions,
    prepare_transactions num_transactions initial_heap = inr (h, transactions) /\
    Z.of_nat (length transactions) = num_transactions /\
    (forall i, (i < Z.to_nat num_transactions)%nat ->
       exists tx source d id,
         transactions !! i = Some tx /\
         AVAILABLE_TRANSACTIONS !! (i mod 17) = Some source /\
         initial_heap !! source = Some d /\
         d !! py "transaction_id" = Some (PStr id) /\
         (tx ∉ AVAILABLE_TRANSACTIONS) /\
         h !! tx =
           Some (if (17 <=? i)%nat
                 then <[py "transaction_id" :=
                          PStr (id ++ py "-" ++ str_of_N (N.of_nat (i / 17)))]> d
                 else d)) /\
    (forall i j tx tx' id,
       transactions !! i = Some tx -> transactions !! j = Some tx' ->
       transaction_id_of h tx = Some id -> transaction_id_of h tx' = Some id ->
       i = j) /\
    (forall tx, tx ∈ transactions -> is_Some (transaction_id_of h tx)) /\
    (forall source, source ∈ AVAILABLE_TRANSACTIONS ->
       h !! source = initial_heap !! source).
Proof.
  intros Hn. unfold prepare_transactions, range.
  set (n := Z.to_nat num_transactions).
  rewrite prepare_loop. do 2 eexists. split; [reflexivity|].
  assert (Hcopy : forall i, (i < n)%nat ->
            ((fun i => (17 + i)%nat) <$> List.seq 0 n) !! i = Some (17 + i)%nat /\
            (initial_heap ++ (prepared <$> List.seq 0 n)) !! (17 + i)%nat
              = Some (prepared i)).
  { intros i Hi. rewrite list_lookup_fmap, lookup_seq_lt by done. split; [done|].
    rewrite lookup_app_r by (rewrite initial_heap_length; lia).
    rewrite initial_heap_length, Nat.add_comm, Nat.add_sub.
    by rewrite list_lookup_fmap, lookup_seq_lt. }
  assert (Hid : forall i tx id, (i < n)%nat ->
            ((fun i => (17 + i)%nat) <$> List.seq 0 n) !! i = Some tx ->
            transaction_id_of (initial_heap ++ (prepared <$> List.seq 0 n)) tx = Some id ->
            id = prepared_id i).
  { intros i tx id Hi Htx. destruct (Hcopy i Hi) as [Htx' Hh].
    assert (tx = (17 + i)%nat) as -> by congruence.
    unfold transaction_id_of. rewrite Hh, prepared_lookup_id. congruence. }
  split_and!.
  - rewrite length_fmap, length_seq. subst n. lia.
  - intros i Hi.
    assert (Hmod : (i mod 17 < 17)%nat) by (apply Nat.mod_upper_bound; lia).
    destruct (seed_lookup _ Hmod) as (Hseed & _ & Hsid).
    destruct (Hcopy i Hi) as [Htx Hh].
    exists (17 + i)%nat, (i mod 17)%nat, (seed (i mod 17)), (seed_id (i mod 17)).
    split_and!; try done.
    + unfold AVAILABLE_TRANSACTIONS. by rewrite lookup_seq_lt.
    + unfold AVAILABLE_TRANSACTIONS. rewrite elem_of_seq. lia.
    + rewrite Hh. unfold prepared, prepared_id, id_suffix. by destruct (17 <=? i)%nat.
  - intros i j tx tx' id Hi Hj Hidi Hidj.
    assert (i < n)%nat.
    { apply lookup_lt_Some in Hi. by rewrite length_fmap, length_seq in Hi. }
    assert (j < n)%nat.
    { apply lookup_lt_Some in Hj. by rewrite length_fmap, length_seq in Hj. }
    apply prepared_id_inj.
    rewrite <- (Hid i tx id), <- (Hid j tx' id); done.
  - intros tx (i & Hi)%list_elem_of_lookup.
    assert (i < n)%nat.
    { apply lookup_lt_Some in Hi. by rewrite length_fmap, length_seq in Hi. }
    destruct (Hcopy i) as [Htx Hh]; [done|].
    assert (tx = (17 + i)%nat) as -> by congruence.
    unfold transaction_id_of. rewrite Hh, prepared_lookup_id. by eexists.
  - intros source Hs. unfold AVAILABLE_TRANSACTIONS in Hs. apply elem_of_seq in Hs.
    apply lookup_app_l. rewrite initial_heap_length. lia.
Qed.


(** *** The summary of a batch *)

(** The amount of a result as a float; 0.0 stands in for one that is a
    [str], which the loop does not get past. *)
Definition amount_of (r : TransactionResult) : F :=
  match amount r with
  | PFloat x => x
  | PStr _ => flit 0
  end.

(** The summary that [record_result] returns when the amount is a float. *)
Definition recorded (s : BatchRunSummary) (r : TransactionResult) : BatchRunSummary :=
  {| total_transactions := total_transactions s;
     successful := if bool_decide (is_success r) then (successful s + 1)%Z else successful s;
     failed := if bool_decide (is_success r) then failed s else (failed s + 1)%Z;
     alerts_created := if alert_created r then (alerts_created s + 1)%Z else alerts_created s;
     total_amount_processed := fadd (total_amount_processed s) (amount_of r);
     total_amount_blocked :=
       if alert_created r then fadd (total_amount_blocked s) (amount_of r)
       else total_amount_blocked s;
     avg_processing_time := avg_processing_time s;
     avg_risk_score := avg_risk_score s;
     risk_distribution := bump (risk_level r) (risk_distribution s);
     alert_severity_distribution :=
       if alert_created r then bump (alert_severity r) (alert_severity_distribution s)
       else alert_severity_distribution s;
     results := results s ++ [r] |}.

(** The amounts of the seed data. *)
Definition seed_amounts : list Z :=
  (fun row => let '(_, _, a, _) := row in a) <$> seed_table.

(** A reference behind which the four keys are found, with a float under
    ["amount"]. *)
Definition readable (h : heap) (tx : nat) : Prop :=
  exists tid cid x cur,
    exc_bind (list_getitem h tx) read_fields = inr (tid, cid, PFloat x, cur).

(** The state after [k] transactions have been processed from [st]. *)
Definition after (st : sim_state) (k : nat) : sim_state :=
  {| clock_reads := clock_reads st + 2 * k; workflow_calls := workflow_calls st + k |}.

(** What [process_single_transaction] returns for the transaction [tx] when
    it is the [i]-th of a loop started in state [st]. *)
Definition nth_result (h : heap) (st : sim_state) (i tx : nat) : Exc TransactionResult :=
  snd (process_single_transaction h tx (after st i)).

(** The heap and the order of the transactions of a batch of [n]. *)
Definition batch_heap (n : nat) : heap := initial_heap ++ (prepared <$> List.seq 0 n).

Definition batch_order (n : nat) (shuffle_transactions : bool) : list nat :=
  let prepared_list := (fun i => (17 + i)%nat) <$> List.seq 0 n in
  if shuffle_transactions then shuffle prepared_list else prepared_list.

Lemma record_result_float s r x :
  amount r = PFloat x -> record_result s r = inr (recorded s r).
Proof.
  intros Hx. unfold record_result, recorded, amount_of, iadd. rewrite Hx.
  by destruct (alert_created r).
Qed.

Lemma record_result_str s r text :
  amount r = PStr text ->
  record_result s r = inl (py "unsupported operand type(s) for +=: 'float' and 'str'").
Proof.
  intros Hx. unfold record_result, iadd. rewrite Hx. by destruct (alert_created r).
Qed.

Lemma record_results_spec (rs : list TransactionResult) : forall s,
  let s' := foldl recorded s rs in
  results s' = results s ++ rs /\
  total_transactions s' = total_transactions s /\
  successful s' = (successful s + Z.of_nat (length (filter is_success rs)))%Z /\
  failed s' = (failed s + Z.of_nat (length (filter (fun r => ~ is_success r) rs)))%Z /\
  alerts_created s'
    = (alerts_created s + Z.of_nat (length (filter (fun r => alert_created r = true) rs)))%Z /\
  total_amount_processed s' = foldl fadd (total_amount_processed s) (amount_of <$> rs) /\
  total_amount_blocked s'
    = foldl fadd (total_amount_blocked s)
        (amount_of <$> filter (fun r => alert_created r = true) rs) /\
  avg_processing_time s' = avg_processing_time s /\
  avg_risk_score s' = avg_risk_score s.
Proof.
  induction rs as [|r rs IH]; intros s; cbn zeta.
  - simpl. rewrite app_nil_r. split_and!; try done; lia.
  - cbn [foldl]. destruct (IH (recorded s r)) as (Hr & Ht & Hs & Hf & Ha & Hp & Hb & Hat & Har).
    rewrite Hr, Ht, Hs, Hf, Ha, Hp, Hb, Hat, Har. clear IH Hr Ht Hs Hf Ha Hp Hb Hat Har.
    rewrite !filter_cons. cbn [recorded results total_transactions successful failed
      alerts_created total_amount_processed total_amount_blocked avg_processing_time
      avg_risk_score].
    split_and!; try done.
    + by rewrite <- app_assoc.
    + destruct (decide (is_success r)) as [Hok|Hok].
      * rewrite bool_decide_eq_true_2 by done. cbn [length]. lia.
      * rewrite bool_decide_eq_false_2 by done. lia.
    + destruct (decide (is_success r)) as [Hok|Hok].
      * rewrite bool_decide_eq_true_2, decide_False by auto. lia.
      * rewrite bool_decide_eq_false_2, decide_True by done. cbn [length]. lia.
    + destruct (alert_created r); [rewrite decide_True by done|rewrite decide_False by done];
        cbn [length]; lia.
    + destruct (alert_created r); [rewrite decide_True by done|rewrite decide_False by done];
        reflexivity.
Qed.

Lemma success_or_not (rs : list TransactionResult) :
  (length (filter is_success rs) + length (filter (fun r => ~ is_success r) rs))%nat
  = length rs.
Proof.
  induction rs as [|r rs IH]; [done|].
  rewrite !filter_cons. destruct (decide (is_success r)).
  - rewrite decide_False by auto. simpl. lia.
  - rewrite decide_True by auto. simpl. lia.
Qed.

Lemma transaction_readable t c a cur :
  read_fields (transaction t c a cur)
  = inr (PStr (py t), PStr (py c), PFloat (flit a), PStr (py cur)).
Proof. reflexivity. Qed.

Lemma seed_is_transaction k :
  (k < 17)%nat ->
  exists t c a cur, a ∈ seed_amounts /\ seed k = transaction t c a cur.
Proof.
  intros Hk. unfold seed, initial_heap, seed_amounts. rewrite list_lookup_fmap.
  destruct (seed_table !! k) as [[[[t c] a] cur]|] eqn:E.
  - exists t, c, a, cur. split; [|done].
    apply list_elem_of_fmap. exists (t, c, a, cur). split; [done|].
    by eapply list_elem_of_lookup_2.
  - apply lookup_ge_None in E. simpl in E. lia.
Qed.

(** What the four subscripts read from a prepared transaction. *)
Lemma prepared_fields (i : nat) :
  exists cid a cur,
    a ∈ seed_amounts /\
    read_fields (prepared i)
      = inr (PStr (prepared_id i), PStr cid, PFloat (flit a), PStr cur).
Proof.
  assert (Hi : (i mod 17 < 17)%nat) by (apply Nat.mod_upper_bound; lia).
  destruct (seed_is_transaction _ Hi) as (t & c & a & cur & Ha & Hseed).
  destruct (seed_lookup _ Hi) as (_ & _ & Hid).
  rewrite Hseed, transaction_lookup_id in Hid.
  assert (Hpy : seed_id (i mod 17) = py t) by congruence.
  unfold prepared, prepared_id, id_suffix. rewrite Hseed, Hpy.
  destruct (17 <=? i)%nat; [|rewrite app_nil_r]; eexists _, _, _; (split; [exact Ha|]);
    reflexivity.
Qed.

Lemma batch_lookup n tx :
  tx ∈ (fun i => (17 + i)%nat) <$> List.seq 0 n ->
  exists i, tx = (17 + i)%nat /\ (i < n)%nat /\ batch_heap n !! tx = Some (prepared i).
Proof.
  intros (i & -> & Hi)%list_elem_of_fmap. apply elem_of_seq in Hi.
  exists i. split_and!; [done|lia|]. unfold batch_heap.
  rewrite lookup_app_r by (rewrite initial_heap_length; lia).
  rewrite initial_heap_length, Nat.add_comm, Nat.add_sub.
  rewrite list_lookup_fmap, lookup_seq_lt by lia. done.
Qed.

Lemma prepared_heap_readable n tx :
  tx ∈ (fun i => (17 + i)%nat) <$> List.seq 0 n -> readable (batch_heap n) tx.
Proof.
  intros Htx. destruct (batch_lookup n tx Htx) as (i & -> & Hi & Hh).
  destruct (prepared_fields i) as (cid & a & cur & _ & Hfields).
  exists (PStr (prepared_id i)), (PStr cid), (flit a), (PStr cur).
  unfold list_getitem. rewrite Hh. exact Hfields.
Qed.

(** *** One workflow call per transaction *)

Lemma process_single_steps h tx st r st' :
  process_single_transaction h tx st = (st', inr r) -> st' = after st 1.
Proof.
  unfold process_single_transaction, after.
  destruct (exc_bind _ _) as [e|[[[tid cid] amt] cur]]; [done|].
  intros [= <- _]. f_equal; lia.
Qed.

Lemma after_after st i j : after (after st i) j = after st (i + j).
Proof. unfold after. simpl. f_equal; lia. Qed.

Lemma after_zero st : after st 0 = st.
Proof. destruct st. unfold after. simpl. f_equal; lia. Qed.

(** What a result says about its transaction. *)
Lemma process_single_fields h tx d st st' r :
  h !! tx = Some d ->
  process_single_transaction h tx st = (st', inr r) ->
  read_fields d = inr (transaction_id r, customer_id r, amount r, currency r) /\
  status r =
    match run_workflow (workflow_calls st) (transaction_id r) (customer_id r)
            (amount r) (currency r) with
    | WorkflowRaises _ => py "ERROR"
    | WorkflowReturns None => py "NO_RESULT"
    | WorkflowReturns (Some workflow_result) => fa_workflow_status workflow_result
    end /\
  alert_severity r
    = (if alert_created r then batch_severity (risk_score r) else py "NONE").
Proof.
  intros Hd. unfold process_single_transaction, list_getitem.
  rewrite Hd. cbn [exc_bind].
  destruct (read_fields d) as [e|[[[tid cid] amt] cur]]; [done|].
  intros [= _ <-]. cbn.
  destruct (run_workflow (workflow_calls st) tid cid amt cur) as [e|[out|]] eqn:E;
    cbn; rewrite E; split_and!; done.
Qed.

Lemma nth_result_fields h st i tx d r :
  h !! tx = Some d ->
  nth_result h st i tx = inr r ->
  read_fields d = inr (transaction_id r, customer_id r, amount r, currency r) /\
  status r =
    match run_workflow (workflow_calls st + i) (transaction_id r) (customer_id r)
            (amount r) (currency r) with
    | WorkflowRaises _ => py "ERROR"
    | WorkflowReturns None => py "NO_RESULT"
    | WorkflowReturns (Some workflow_result) => fa_workflow_status workflow_result
    end /\
  alert_severity r
    = (if alert_created r then batch_severity (risk_score r) else py "NONE").
Proof.
  intros Hd. unfold nth_result.
  destruct (process_single_transaction h tx (after st i)) as [st' [e|r']] eqn:E; [done|].
  cbn [snd]. intros [= ->]. exact (process_single_fields _ _ _ _ _ _ Hd E).
Qed.

Lemma process_all_results h transactions : forall st s,
  Forall (readable h) transactions ->
  exists rs,
    process_all h transactions st s
      = (after st (length transactions), inr (foldl recorded s rs)) /\
    length rs = length transactions /\
    forall i tx, transactions !! i = Some tx ->
      exists r, rs !! i = Some r /\ nth_result h st i tx = inr r.
Proof.
  induction transactions as [|tx txs IH]; intros st s Hall.
  - exists []. rewrite after_zero. split_and!; done.
  - apply Forall_cons in Hall as [(tid & cid & x & cur & Hread) Hall].
    cbn [process_all].
    destruct (process_single_transaction h tx st) as [st1 [e|r]] eqn:E.
    { unfold process_single_transaction in E. by rewrite Hread in E. }
    assert (Hx : amount r = PFloat x).
    { unfold process_single_transaction in E. rewrite Hread in E.
      injection E as _ <-. by repeat case_match. }
    rewrite (record_result_float _ _ _ Hx).
    pose proof (process_single_steps _ _ _ _ _ E) as ->.
    destruct (IH (after st 1) (recorded s r) Hall) as (rs & Hrun & Hlen & Hrs).
    exists (r :: rs). split_and!.
    + rewrite Hrun, after_after. reflexivity.
    + simpl. by rewrite Hlen.
    + intros [|i] tx' Htx; simpl in Htx.
      * injection Htx as <-. exists r. split; [done|].
        unfold nth_result. by rewrite after_zero, E.
      * destruct (Hrs i tx' Htx) as (r' & Hr' & Hn). exists r'. split; [done|].
        unfold nth_result in *. by rewrite after_after in Hn.
Qed.

(** X18.  [process_single_transaction] reads the four keys before its [try]
    and checks no type.  A dictionary that lacks one of them makes it raise,
    with the clock not read and the workflow not called.  A dictionary that
    has the four, whatever it holds under them, gives a result that carries
    the four values and the elapsed time, and whatever the workflow does is
    turned into a status: "ERROR" with the message when it raises,
    "NO_RESULT" when it returns [None], and its own status, alert flag,
    score and level otherwise, the severity being that of the workflow's
    alert stage for the same score, or "NONE" without an alert. *)
Theorem workflow_failure_becomes_an_error_result (h : heap) (tx : nat) (d : dict)
    (st : sim_state) :
  h !! tx = Some d ->
  (forall key,
     key ∈ [py "transaction_id"; py "customer_id"; py "amount"; py "currency"] ->
     d !! key = None ->
     exists e, process_single_transaction h tx st = (st, inl e)) /\
  (forall tid cid amt cur,
     d !! py "transaction_id" = Some tid -> d !! py "customer_id" = Some cid ->
     d !! py "amount" = Some amt -> d !! py "currency" = Some cur ->
     exists r,
       process_single_transaction h tx st
         = ({| clock_reads := S (S (clock_reads st));
               workflow_calls := S (workflow_calls st) |}, inr r) /\
       (transaction_id r, customer_id r, amount r, currency r) = (tid, cid, amt, cur) /\
       processing_time r
         = fsub (wall_clock (S (clock_reads st))) (wall_clock (clock_reads st)) /\
       match run_workflow (workflow_calls st) tid cid amt cur with
       | WorkflowRaises e =>
           status r = py "ERROR" /\ error_message r = Some e /\
           alert_created r = false /\ alert_severity r = py "NONE" /\
           risk_score r = 0%Z /\ risk_level r = py "UNKNOWN"
       | WorkflowReturns None =>
           status r = py "NO_RESULT" /\ error_message r = None /\
           alert_created r = false /\ alert_severity r = py "NONE" /\
           risk_score r = 0%Z /\ risk_level r = py "UNKNOWN"
       | WorkflowReturns (Some workflow_result) =>
           status r = fa_workflow_status workflow_result /\ error_message r = None /\
           alert_created r = fa_alert_created workflow_result /\
           alert_severity r =
             (if fa_alert_created workflow_result
              then severity_of (fa_risk_score workflow_result) else py "NONE") /\
           risk_score r = fa_risk_score workflow_result /\
           risk_level r = fa_risk_level workflow_result
       end).
Proof.
  intros Hd. unfold process_single_transaction, list_getitem. rewrite Hd. cbn [exc_bind].
  split.
  - intros key Hkey Hnone.
    assert (exists e, read_fields d = inl e) as [e ->]; [|eauto].
    unfold read_fields, dict_getitem. revert Hkey. rewrite !elem_of_cons, elem_of_nil.
    intros [->|[->|[->|[->|[]]]]]; rewrite ?Hnone; cbn [exc_bind];
      repeat (case_match; cbn [exc_bind]); eauto.
  - intros tid cid amt cur Ht Hc Ha Hu. unfold read_fields, dict_getitem.
    rewrite Ht, Hc, Ha, Hu. cbn [exc_bind]. eexists. split; [reflexivity|].
    destruct (run_workflow _ _ _ _ _) as [e|[out|]]; cbn; split_and!; reflexivity.
Qed.

(** *** The two distributions *)

Lemma bump_lookup (key k : pystr) (m : gmap pystr Z) :
  bump key m !! k = if decide (key = k) then Some (default 0 (m !! k) + 1)%Z else m !! k.
Proof.
  unfold bump. case_decide as E; [subst; apply lookup_insert_eq|by apply lookup_insert_ne].
Qed.

Lemma distributions_count (rs : list TransactionResult) : forall s,
  let s' := foldl recorded s rs in
  forall k,
    default 0%Z (risk_distribution s' !! k)
      = (default 0 (risk_distribution s !! k)
         + Z.of_nat (length (filter (fun r => risk_level r = k) rs)))%Z /\
    default 0%Z (alert_severity_distribution s' !! k)
      = (default 0 (alert_severity_distribution s !! k)
         + Z.of_nat (length (filter (fun r => alert_created r = true /\ alert_severity r = k)
                               rs)))%Z /\
    (risk_distribution s' !! k = None <->
       risk_distribution s !! k = None /\ filter (fun r => risk_level r = k) rs = []) /\
    (alert_severity_distribution s' !! k = None <->
       alert_severity_distribution s !! k = None /\
       filter (fun r => alert_created r = true /\ alert_severity r = k) rs = []).
Proof.
  induction rs as [|r rs IH]; intros s; cbn zeta; intros k.
  - simpl. split_and!; try lia; tauto.
  - cbn [foldl]. destruct (IH (recorded s r) k) as (Hr & Ha & Hrn & Han).
    rewrite Hr, Ha, Hrn, Han. clear IH Hr Ha Hrn Han.
    cbn [recorded risk_distribution alert_severity_distribution].
    rewrite !filter_cons, bump_lookup.
    assert (Hsev : (if alert_created r
                    then bump (alert_severity r) (alert_severity_distribution s)
                    else alert_severity_distribution s) !! k
                   = if decide (alert_created r = true /\ alert_severity r = k)
                     then Some (default 0 (alert_severity_distribution s !! k) + 1)%Z
                     else alert_severity_distribution s !! k).
    { destruct (alert_created r); [rewrite bump_lookup|];
        repeat case_decide; intuition congruence. }
    rewrite Hsev. clear Hsev.
    split_and!.
    + repeat case_decide; cbn [default from_option id length]; unfold id;
        try lia; congruence.
    + repeat case_decide; cbn [default from_option id length]; unfold id;
        try lia; intuition congruence.
    + repeat case_decide; intuition congruence.
    + repeat case_decide; intuition congruence.
Qed.

Lemma with_averages_keeps s s' :
  with_averages s = inr s' ->
  results s' = results s /\ risk_distribution s' = risk_distribution s /\
  alert_severity_distribution s' = alert_severity_distribution s /\
  total_transactions s' = total_transactions s.
Proof.
  unfold with_averages. destruct (0 <? successful s)%Z; [|by intros [= <-]].
  destruct (length _); [done|]. by intros [= <-].
Qed.

Lemma with_averages_returns s :
  successful s = Z.of_nat (length (filter is_success (results s))) ->
  exists s', with_averages s = inr s'.
Proof.
  intros Hs. unfold with_averages. destruct (0 <? successful s)%Z eqn:Hpos; [|eauto].
  destruct (length _) eqn:Hk; [|eauto]. apply Z.ltb_lt in Hpos. lia.
Qed.

Lemma record_results_total (rs : list TransactionResult) : forall s,
  total_transactions (foldl recorded s rs) = total_transactions s /\
  results (foldl recorded s rs) = results s ++ rs.
Proof.
  induction rs as [|r rs IH]; intros s; simpl; [by rewrite app_nil_r|].
  destruct (IH (recorded s r)) as [-> ->]. simpl. by rewrite <- app_assoc.
Qed.

(** What [random.shuffle] does to a list. *)
Hypothesis shuffle_perm : forall l, shuffle l ≡ₚ l.

Lemma batch_order_perm n shuffle_transactions :
  batch_order n shuffle_transactions ≡ₚ (fun i => (17 + i)%nat) <$> List.seq 0 n.
Proof. unfold batch_order. destruct shuffle_transactions; [apply shuffle_perm|done]. Qed.

(** What a batch run returns: the state after two more clock reads than the
    loop made, and the summary of the loop with its averages; the results
    are those of the loop, one per transaction. *)
Lemma run_batch_results (num_transactions : Z) (shuffle_transactions : bool)
    (st : sim_state) :
  let n := Z.to_nat num_transactions in
  exists rs s,
    run_batch_simulation num_transactions shuffle_transactions initial_heap st
      = (tick (after (tick st) n), inr (batch_heap n, s)) /\
    with_averages (foldl recorded (new_summary num_transactions) rs) = inr s /\
    results s = rs /\
    total_transactions s = num_transactions /\
    risk_distribution s
      = risk_distribution (foldl recorded (new_summary num_transactions) rs) /\
    alert_severity_distribution s
      = alert_severity_distribution (foldl recorded (new_summary num_transactions) rs) /\
    length rs = n /\
    forall i tx, batch_order n shuffle_transactions !! i = Some tx ->
      exists r, rs !! i = Some r /\ nth_result (batch_heap n) (tick st) i tx = inr r.
Proof.
  intros n. unfold run_batch_simulation, prepare_transactions, range.
  rewrite prepare_loop. fold n. fold (batch_heap n).
  change (if shuffle_transactions
          then shuffle ((fun i => (17 + i)%nat) <$> List.seq 0 n)
          else (fun i => (17 + i)%nat) <$> List.seq 0 n)
    with (batch_order n shuffle_transactions).
  pose proof (batch_order_perm n shuffle_transactions) as Hperm.
  assert (Hreadable : Forall (readable (batch_heap n)) (batch_order n shuffle_transactions)).
  { apply Forall_forall. intros tx Htx. rewrite Hperm in Htx.
    by apply prepared_heap_readable. }
  destruct (process_all_results (batch_heap n) _ (tick st) (new_summary num_transactions)
              Hreadable) as (rs & -> & Hlen & Hrs).
  assert (Hl : length (batch_order n shuffle_transactions) = n)
    by (by rewrite Hperm, length_fmap, length_seq).
  rewrite Hl in Hlen. rewrite Hl.
  destruct (record_results_total rs (new_summary num_transactions)) as [Ht Hr].
  destruct (with_averages_returns (foldl recorded (new_summary num_transactions) rs))
    as [s' Ha].
  { destruct (record_results_spec rs (new_summary num_transactions))
      as (_ & _ & Hs & _).
    rewrite Hs, Hr. simpl. lia. }
  rewrite Ha.
  destruct (with_averages_keeps _ _ Ha) as (Hres & Hrd & Had & Htt).
  exists rs, s'. split_and!; try done.
  - by rewrite Hres, Hr.
  - by rewrite Htt, Ht.
Qed.

(** The result of the [i]-th transaction of a batch and the prepared
    transaction it belongs to. *)
Lemma batch_result n shuffle_transactions st rs i r :
  length rs = n ->
  (forall i tx, batch_order n shuffle_transactions !! i = Some tx ->
     exists r, rs !! i = Some r /\ nth_result (batch_heap n) st i tx = inr r) ->
  rs !! i = Some r ->
  exists j,
    batch_order n shuffle_transactions !! i = Some (17 + j)%nat /\
    (j < n)%nat /\
    batch_heap n !! (17 + j)%nat = Some (prepared j) /\
    nth_result (batch_heap n) st i (17 + j)%nat = inr r.
Proof.
  intros Hlen Hrs Hr.
  pose proof (batch_order_perm n shuffle_transactions) as Hperm.
  destruct (lookup_lt_is_Some_2 (batch_order n shuffle_transactions) i) as [tx Htx].
  { rewrite Hperm, length_fmap, length_seq, <- Hlen. by eapply lookup_lt_Some. }
  destruct (Hrs i tx Htx) as (r' & Hr' & Hn).
  assert (r' = r) as -> by congruence.
  destruct (batch_lookup n tx) as (j & -> & Hj & Hh).
  { rewrite <- Hperm. by eapply list_elem_of_lookup_2. }
  by exists j.
Qed.

(** The summary of a batch, for any floats: every result is counted once,
    the amounts are those of the seed data, the two totals are the running
    totals of the amounts, and the averages are over the successful
    results. *)
Lemma batch_summary (num_transactions : Z) (shuffle_transactions : bool)
    (st : sim_state) :
  (0 <= num_transactions)%Z ->
  exists st' h s,
    run_batch_simulation num_transactions shuffle_transactions initial_heap st
      = (st', inr (h, s)) /\
    let rs := results s in
    let ok := filter is_success rs in
    let alerted := filter (fun r => alert_created r = true) rs in
    length rs = Z.to_nat num_transactions /\
    successful s = Z.of_nat (length ok) /\
    failed s = Z.of_nat (length (filter (fun r => ~ is_success r) rs)) /\
    (successful s + failed s)%Z = num_transactions /\
    alerts_created s = Z.of_nat (length alerted) /\
    Forall (fun r => exists a, a ∈ seed_amounts /\ amount r = PFloat (flit a)) rs /\
    total_amount_processed s = running_total (amount_of <$> rs) /\
    total_amount_blocked s = running_total (amount_of <$> alerted) /\
    (if (0 <? successful s)%Z
     then avg_processing_time s
            = fdiv_len (sum_floats (processing_time <$> ok)) (length ok) /\
          avg_risk_score s = idiv_len (int_sum (risk_score <$> ok)) (length ok)
     else avg_processing_time s = flit 0 /\ avg_risk_score s = flit 0).
Proof.
  intros Hn.
  destruct (run_batch_results num_transactions shuffle_transactions st)
    as (rs & s & Hrun & Havg & Hres & _ & _ & _ & Hlen & Hrs).
  exists (tick (after (tick st) (Z.to_nat num_transactions))),
    (batch_heap (Z.to_nat num_transactions)), s.
  split; [exact Hrun|]. cbn zeta. rewrite Hres.
  assert (Hseed : Forall (fun r => exists a, a ∈ seed_amounts /\ amount r = PFloat (flit a)) rs).
  { apply Forall_lookup. intros i r Hr.
    destruct (batch_result _ _ _ _ _ _ Hlen Hrs Hr) as (j & _ & _ & Hh & Hnth).
    destruct (nth_result_fields _ _ _ _ _ _ Hh Hnth) as (Hf & _).
    destruct (prepared_fields j) as (cid & a & cur & Ha & Hp).
    rewrite Hp in Hf. injection Hf as _ _ Hamount _. by exists a. }
  destruct (record_results_spec rs (new_summary num_transactions))
    as (Hr & Ht & Hs & Hf & Ha & Hp & Hb & Hat & Har).
  cbn [new_summary results total_transactions successful failed alerts_created
       total_amount_processed total_amount_blocked avg_processing_time avg_risk_score
       app Z.add] in Hr, Ht, Hs, Hf, Ha, Hp, Hb, Hat, Har.
  pose proof (success_or_not rs) as Hcount.
  rewrite Z.add_0_l in Hs, Hf, Ha.
  unfold with_averages in Havg. rewrite Hs, Hr in Havg.
  destruct (0 <? Z.of_nat (length (filter is_success rs)))%Z eqn:Hpos;
    [destruct (length (filter is_success rs)) as [|k] eqn:Hk; [done|]|];
    injection Havg as <-;
    cbn [results successful failed alerts_created total_amount_processed
         total_amount_blocked avg_processing_time avg_risk_score];
    rewrite ?Hs, ?Hf, ?Ha, ?Hp, ?Hb, ?Hat, ?Har, ?Hk, ?Hpos;
    split_and!; try done; lia.
Qed.

(** X19.  A batch calls the workflow once per transaction, in the order of
    the (possibly shuffled) list, and reads the clock twice per transaction
    and twice more around the loop; the [i]-th result carries the data of
    the [i]-th transaction and the status of the [i]-th call. *)
Theorem one_workflow_call_per_transaction (num_transactions : Z)
    (shuffle_transactions : bool) (st : sim_state) :
  let n := Z.to_nat num_transactions in
  exists st' h s,
    run_batch_simulation num_transactions shuffle_transactions initial_heap st
      = (st', inr (h, s)) /\
    workflow_calls st' = (workflow_calls st + n)%nat /\
    clock_reads st' = (clock_reads st + 2 * n + 2)%nat /\
    total_transactions s = num_transactions /\
    length (results s) = n /\
    forall i r, results s !! i = Some r ->
      exists tx d,
        batch_order n shuffle_transactions !! i = Some tx /\
        h !! tx = Some d /\
        read_fields d = inr (transaction_id r, customer_id r, amount r, currency r) /\
        status r =
          match run_workflow (workflow_calls st + i) (transaction_id r) (customer_id r)
                  (amount r) (currency r) with
          | WorkflowRaises _ => py "ERROR"
          | WorkflowReturns None => py "NO_RESULT"
          | WorkflowReturns (Some workflow_result) => fa_workflow_status workflow_result
          end.
Proof.
  intros n.
  destruct (run_batch_results num_transactions shuffle_transactions st)
    as (rs & s & Hrun & _ & Hres & Htotal & _ & _ & Hlen & Hrs).
  fold n in Hrun, Hlen, Hrs.
  eexists _, _, s. split; [exact Hrun|]. rewrite Hres.
  split_and!; [simpl; lia..|done|done|].
  intros i r Hr.
  destruct (batch_result _ _ _ _ _ _ Hlen Hrs Hr) as (j & Htx & _ & Hh & Hn).
  exists (17 + j)%nat, (prepared j). split_and!; [done..| |].
  - by destruct (nth_result_fields _ _ _ _ _ _ Hh Hn) as (? & _).
  - destruct (nth_result_fields _ _ _ _ _ _ Hh Hn) as (_ & Hs & _).
    rewrite Hs. cbn [tick workflow_calls]. done.
Qed.

(** X20.  Whatever the shuffle, every prepared transaction is processed
    exactly once: the ids of the results are the prepared ids, in the
    prepared order when the batch is not shuffled, and no id occurs twice. *)
Theorem every_prepared_transaction_is_processed_once (num_transactions : Z)
    (shuffle_transactions : bool) (st : sim_state) :
  let n := Z.to_nat num_transactions in
  exists st' h s,
    run_batch_simulation num_transactions shuffle_transactions initial_heap st
      = (st', inr (h, s)) /\
    transaction_id <$> results s ≡ₚ PStr <$> (prepared_id <$> List.seq 0 n) /\
    NoDup (transaction_id <$> results s) /\
    (shuffle_transactions = false ->
       transaction_id <$> results s = PStr <$> (prepared_id <$> List.seq 0 n)).
Proof.
  intros n.
  destruct (run_batch_results num_transactions shuffle_transactions st)
    as (rs & s & Hrun & _ & Hres & _ & _ & _ & Hlen & Hrs).
  fold n in Hrun, Hlen, Hrs.
  eexists _, _, s. split; [exact Hrun|]. rewrite Hres.
  pose proof (batch_order_perm n shuffle_transactions) as Hperm.
  assert (Hids : transaction_id <$> rs
                 = (fun tx => PStr (prepared_id (tx - 17)))
                     <$> batch_order n shuffle_transactions).
  { apply list_eq. intros i. rewrite !list_lookup_fmap.
    destruct (batch_order n shuffle_transactions !! i) as [tx|] eqn:Htx.
    - destruct (Hrs i tx Htx) as (r & -> & Hn).
      destruct (batch_lookup n tx) as (j & -> & Hj & Hh).
      { rewrite <- Hperm. by eapply list_elem_of_lookup_2. }
      destruct (nth_result_fields _ _ _ _ _ _ Hh Hn) as (Hf & _).
      destruct (prepared_fields j) as (cid & a & cur & _ & Hp).
      rewrite Hp in Hf. injection Hf as Hid _ _ _.
      cbn [fmap option_fmap option_map]. rewrite <- Hid. do 3 f_equal. lia.
    - apply lookup_ge_None in Htx. rewrite Hperm, length_fmap, length_seq in Htx.
      rewrite lookup_ge_None_2; [done|lia]. }
  assert (Hseq : (fun tx => PStr (prepared_id (tx - 17)))
                   <$> ((fun i => (17 + i)%nat) <$> List.seq 0 n)
                 = PStr <$> (prepared_id <$> List.seq 0 n)).
  { rewrite <- !list_fmap_compose. apply list_fmap_ext. intros _ i _. simpl.
    do 2 f_equal. lia. }
  rewrite Hids. split_and!.
  - by rewrite Hperm, Hseq.
  - rewrite Hperm, Hseq. apply NoDup_fmap_2; [by intros a b [= ->]|].
    apply NoDup_fmap_2; [|apply NoDup_seq].
    intros i j. apply prepared_id_inj.
  - intros ->. exact Hseq.
Qed.

(** X21.  The two dictionaries of the summary count the results: under each
    risk level the number of results with that level, under each severity
    the number of results with an alert of that severity, and no entry for
    a level or severity that no result has.  An alert's severity is one of
    the four names, so "NONE" is never a key. *)
Theorem distributions_count_the_results (num_transactions : Z)
    (shuffle_transactions : bool) (st : sim_state) :
  exists st' h s,
    run_batch_simulation num_transactions shuffle_transactions initial_heap st
      = (st', inr (h, s)) /\
    (forall level,
       let hits := filter (fun r => risk_level r = level) (results s) in
       default 0%Z (risk_distribution s !! level) = Z.of_nat (length hits) /\
       (risk_distribution s !! level = None <-> hits = [])) /\
    (forall severity,
       let hits :=
         filter (fun r => alert_created r = true /\ alert_severity r = severity)
           (results s) in
       default 0%Z (alert_severity_distribution s !! severity) = Z.of_nat (length hits) /\
       (alert_severity_distribution s !! severity = None <-> hits = [])) /\
    (forall severity,
       is_Some (alert_severity_distribution s !! severity) ->
       severity ∈ [py "CRITICAL"; py "HIGH"; py "MEDIUM"; py "LOW"]).
Proof.
  destruct (run_batch_results num_transactions shuffle_transactions st)
    as (rs & s & Hrun & _ & Hres & _ & Hrd & Had & Hlen & Hrs).
  eexists _, _, s. split; [exact Hrun|]. rewrite Hres, Hrd, Had.
  pose proof (distributions_count rs (new_summary num_transactions)) as Hcount.
  cbn zeta in Hcount.
  assert (Hsev : forall severity,
            filter (fun r => alert_created r = true /\ alert_severity r = severity) rs <> [] ->
            severity ∈ [py "CRITICAL"; py "HIGH"; py "MEDIUM"; py "LOW"]).
  { intros severity Hne.
    destruct (filter _ rs) as [|r hits] eqn:Hf; [done|].
    assert (Hr : r ∈ filter (fun r => alert_created r = true /\ alert_severity r = severity) rs)
      by (rewrite Hf; left).
    apply list_elem_of_filter in Hr as [[Hc <-] (i & Hi)%list_elem_of_lookup].
    destruct (batch_result _ _ _ _ _ _ Hlen Hrs Hi) as (j & _ & _ & Hh & Hn).
    destruct (nth_result_fields _ _ _ _ _ _ Hh Hn) as (_ & _ & ->).
    rewrite Hc. unfold batch_severity.
    repeat case_match; rewrite !elem_of_cons; auto. }
  split_and!.
  - intros level. destruct (Hcount level) as (H1 & _ & H3 & _).
    cbn [new_summary risk_distribution] in H1, H3. rewrite lookup_empty in H1, H3.
    split; [rewrite H1; simpl; lia|]. rewrite H3. tauto.
  - intros severity. destruct (Hcount severity) as (_ & H2 & _ & H4).
    cbn [new_summary alert_severity_distribution] in H2, H4. rewrite lookup_empty in H2, H4.
    split; [rewrite H2; simpl; lia|]. rewrite H4. tauto.
  - intros severity Hsome. apply Hsev. intros Hnil.
    destruct (Hcount severity) as (_ & _ & _ & H4).
    cbn [new_summary alert_severity_distribution] in H4. rewrite lookup_empty in H4.
    destruct Hsome as [x Hx]. rewrite (proj2 H4) in Hx; [done|]. done.
Qed.

(** *** The blocked amount and the processed amount *)

Section Bound.

(** Two laws of the order of the floats: on the non-negative floats,
    addition is monotone and does not go below a summand. *)
Hypothesis fleb_zero : fleb (flit 0) (flit 0) = true.
Hypothesis fadd_mono : forall b p a,
  fleb (flit 0) b = true -> fleb b p = true -> fleb (flit 0) a = true ->
  fleb (fadd b a) (fadd p a) = true.
Hypothesis fadd_incr : forall b p a,
  fleb (flit 0) b = true -> fleb b p = true -> fleb (flit 0) a = true ->
  fleb b (fadd p a) = true.

(** Under them a total to which some of the amounts were added stays at or
    below the total to which all of them were. *)
Lemma blocked_le_processed (rs : list TransactionResult) : forall b p,
  fleb (flit 0) b = true -> fleb b p = true ->
  Forall (fun r => fleb (flit 0) (amount_of r) = true) rs ->
  fleb (foldl fadd b (amount_of <$> filter (fun r => alert_created r = true) rs))
       (foldl fadd p (amount_of <$> rs)) = true.
Proof.
  induction rs as [|r rs IH]; intros b p Hb Hbp Hall; [done|].
  apply Forall_cons in Hall as [Hr Hall].
  rewrite filter_cons. destruct (decide (alert_created r = true)); cbn [fmap list_fmap foldl].
  - apply IH; eauto.
  - apply IH; eauto.
Qed.

End Bound.

End Batch.

(** *** The simulator on binary64 floats *)

Arguments PStr {F}.
Arguments PFloat {F}.
Arguments transaction_id {F}.
Arguments amount {F}.
Arguments status {F}.
Arguments risk_score {F}.
Arguments processing_time {F}.
Arguments alert_created {F}.
Arguments is_success {F}.
Arguments amount_of {F}.
Arguments running_total {F}.
Arguments results {F}.
Arguments successful {F}.
Arguments failed {F}.
Arguments alerts_created {F}.
Arguments total_amount_processed {F}.
Arguments total_amount_blocked {F}.
Arguments avg_processing_time {F}.
Arguments avg_risk_score {F}.

Lemma float_of_int_zero : float_of_int 0 = 0%float.
Proof. reflexivity. Qed.

(** No amount of the seed data is negative. *)
Lemma seed_amounts_nonneg (a : Z) :
  a ∈ seed_amounts -> PrimFloat.leb 0 (float_of_int a) = true.
Proof.
  assert (Hall : Forall (fun a => PrimFloat.leb 0 (float_of_int a) = true) seed_amounts)
    by (repeat constructor).
  rewrite Forall_forall in Hall. apply Hall.
Qed.

Section OnBinary64.

(** What stays outside: [int / int], [str] of a float, the builtin [sum],
    the workflow, the clock and the shuffle. *)
Variable idiv_len : Z -> nat -> float.
Variable float_str : float -> pystr.
Variable sum_floats : list float -> float.
Variable run_workflow :
  nat -> pyval float -> pyval float -> pyval float -> pyval float -> workflow_outcome.
Variable wall_clock : nat -> float.
Variable shuffle : list nat -> list nat.

Hypothesis shuffle_perm : forall l, shuffle l ≡ₚ l.


End OnBinary64.

(** A workflow that rejects a transaction whose ids are not strings or whose
    amount is not a float, raises on every fifth call and otherwise
    succeeds, with a score that grows with the amount and an alert from
    9000 on. *)
Definition sample_workflow (call : nat)
    (transaction_id customer_id amount currency : pyval float) : workflow_outcome :=
  match transaction_id, customer_id, amount with
  | PStr tid, PStr cid, PFloat x =>
      if (call mod 5 =? 4)%nat then WorkflowRaises (py "timeout")
      else
        let large := PrimFloat.leb 9000 x in
        WorkflowReturns
          (Some {| fa_transaction_id := tid; fa_customer_id := cid;
                   fa_alert_response := py "ok"; fa_alert_created := large;
                   fa_workflow_status := py "SUCCESS";
                   fa_risk_score := if large then 80 else 20;
                   fa_risk_level := if large then py "HIGH" else py "LOW" |})
  | _, _, _ => WorkflowRaises (py "validation error")
  end.

(** [sum] over floats as CPython up to 3.11 computes it. *)
Definition sum_left_to_right (xs : list float) : float :=
  foldl PrimFloat.add (float_of_int 0) xs.

(** [run_batch_simulation] on IEEE binary64, with the sample workflow, a
    clock that advances by one second per read and a shuffle that reverses. *)
Definition run_batch_binary64 (num_transactions : Z) (shuffle_transactions : bool) :=
  run_batch_simulation float float_of_int PrimFloat.add PrimFloat.sub
    (fun x n => PrimFloat.div x (float_of_int (Z.of_nat n)))
    (fun a n => int_truediv a (Z.of_nat n))
    (fun _ => py "<float>") sum_left_to_right
    sample_workflow
    (fun n => float_of_int (Z.of_nat n)) (@rev nat)
    num_transactions shuffle_transactions (initial_heap float float_of_int)
    {| clock_reads := 0; workflow_calls := 0 |}.

(** Nineteen transactions wrap around the seventeen seeds: the last two
    are TX1001-1 and TX1002-1. *)
Example prepared_ids_wrap :
  match prepare_transactions float (fun _ => py "<float>") 19
          (initial_heap float float_of_int) with
  | inr (h, transactions) =>
      drop 16 (transaction_id_of float h <$> transactions)
  | inl _ => []
  end
  = [Some (py "TX2003"); Some (py "TX1001-1"); Some (py "TX1002-1")].
Proof. vm_compute. reflexivity. Qed.

(** Six transactions in order: the second (15000.0) and the fourth (9900.0)
    raise alerts, the fifth call fails. *)
Example batch_of_six :
  match snd (run_batch_binary64 6 false) with
  | inr (_, s) =>
      (successful s, failed s, alerts_created s, total_amount_processed s,
       total_amount_blocked s, avg_risk_score s)
  | inl _ => (0%Z, 0%Z, 0%Z, 0%float, 0%float, 0%float)
  end
  = (5%Z, 1%Z, 2%Z, 30670%float, 24900%float, 44%float).
Proof. vm_compute. reflexivity. Qed.

(** A transaction whose amount is a string gets through
    [process_single_transaction] and stops the batch loop at the first
    [+=] on its amount. *)
Example text_amount_stops_the_loop :
  let d : gmap pystr (pyval float) :=
    <[py "amount" := PStr (py "5200")]>
      (transaction float float_of_int "TX1001" "CUST1001" 5200 "USD") in
  snd (process_all float PrimFloat.add PrimFloat.sub sample_workflow
         (fun n => float_of_int (Z.of_nat n)) [d] [0%nat]
         {| clock_reads := 0; workflow_calls := 0 |} (new_summary float float_of_int 1))
  = inl (py "unsupported operand type(s) for +=: 'float' and 'str'").
Proof. vm_compute. reflexivity. Qed.

(** *** The theorems at sample inputs *)

Lemma prepared_batch_witness :
  exists h transactions,
    prepare_transactions float (fun _ => py "<float>") 20 (initial_heap float float_of_int)
      = inr (h, transactions) /\
    Z.of_nat (length transactions) = 20%Z.
Proof.
  destruct (prepared_batch_is_cyclic_copy float float_of_int (fun _ => py "<float>") 20)
    as (h & transactions & Hrun & Hlen & _); [lia|].
  exists h, transactions. split; [exact Hrun|exact Hlen].
Defined.

Lemma rev_perm (l : list nat) : rev l ≡ₚ l.
Proof. symmetry. apply Permutation_rev. Qed.


(** *** The batch facts at sample inputs *)

(** The fifth call of the sample workflow fails: the first seed transaction,
    processed as that call, ends as an "ERROR" result. *)
Lemma workflow_failure_witness :
  exists r,
    snd (process_single_transaction float PrimFloat.sub
           sample_workflow
           (fun n => float_of_int (Z.of_nat n))
           (initial_heap float float_of_int) 0
           {| clock_reads := 0; workflow_calls := 4 |}) = inr r /\
    status r = py "ERROR" /\ alert_created r = false.
Proof.
  destruct (workflow_failure_becomes_an_error_result float PrimFloat.sub
              sample_workflow
              (fun n => float_of_int (Z.of_nat n))
              (initial_heap float float_of_int) 0
              (transaction float float_of_int "TX1001" "CUST1001" 5200 "USD")
              {| clock_reads := 0; workflow_calls := 4 |} eq_refl) as [_ Hpresent].
  destruct (Hpresent (PStr (py "TX1001")) (PStr (py "CUST1001")) (PFloat 5200%float)
              (PStr (py "USD")) eq_refl eq_refl eq_refl eq_refl)
    as (r & Hrun & _ & _ & Hstatus & _ & Hcreated & _).
  exists r. rewrite Hrun. split_and!; [reflexivity|exact Hstatus|exact Hcreated].
Defined.

Lemma one_workflow_call_witness :
  exists st' h s,
    run_batch_simulation float float_of_int PrimFloat.add PrimFloat.sub
      (fun x n => PrimFloat.div x (float_of_int (Z.of_nat n)))
      (fun a n => int_truediv a (Z.of_nat n))
      (fun _ => py "<float>") sum_left_to_right
      sample_workflow
      (fun n => float_of_int (Z.of_nat n)) (@rev nat)
      20 true (initial_heap float float_of_int) {| clock_reads := 0; workflow_calls := 0 |}
      = (st', inr (h, s)) /\
    workflow_calls st' = 20%nat /\ clock_reads st' = 42%nat.
Proof.
  destruct (one_workflow_call_per_transaction float float_of_int PrimFloat.add PrimFloat.sub
              (fun x n => PrimFloat.div x (float_of_int (Z.of_nat n)))
              (fun a n => int_truediv a (Z.of_nat n))
              (fun _ => py "<float>") sum_left_to_right
              sample_workflow
              (fun n => float_of_int (Z.of_nat n)) (@rev nat) rev_perm
              20 true {| clock_reads := 0; workflow_calls := 0 |})
    as (st' & h & s & Hrun & Hcalls & Hreads & _).
  exists st', h, s. split_and!; [exact Hrun|exact Hcalls|exact Hreads].
Defined.

Lemma every_prepared_transaction_witness :
  exists st' h s,
    run_batch_simulation float float_of_int PrimFloat.add PrimFloat.sub
      (fun x n => PrimFloat.div x (float_of_int (Z.of_nat n)))
      (fun a n => int_truediv a (Z.of_nat n))
      (fun _ => py "<float>") sum_left_to_right
      sample_workflow
      (fun n => float_of_int (Z.of_nat n)) (@rev nat)
      20 true (initial_heap float float_of_int) {| clock_reads := 0; workflow_calls := 0 |}
      = (st', inr (h, s)) /\
    NoDup (transaction_id <$> results s).
Proof.
  destruct (every_prepared_transaction_is_processed_once float float_of_int
              PrimFloat.add PrimFloat.sub
              (fun x n => PrimFloat.div x (float_of_int (Z.of_nat n)))
              (fun a n => int_truediv a (Z.of_nat n))
              (fun _ => py "<float>") sum_left_to_right
              sample_workflow
              (fun n => float_of_int (Z.of_nat n)) (@rev nat) rev_perm
              20 true {| clock_reads := 0; workflow_calls := 0 |})
    as (st' & h & s & Hrun & _ & Hnodup & _).
  exists st', h, s. split; [exact Hrun|exact Hnodup].
Defined.

Lemma distributions_witness :
  exists st' h s,
    run_batch_simulation float float_of_int PrimFloat.add PrimFloat.sub
      (fun x n => PrimFloat.div x (float_of_int (Z.of_nat n)))
      (fun a n => int_truediv a (Z.of_nat n))
      (fun _ => py "<float>") sum_left_to_right
      sample_workflow
      (fun n => float_of_int (Z.of_nat n)) (@rev nat)
      20 true (initial_heap float float_of_int) {| clock_reads := 0; workflow_calls := 0 |}
      = (st', inr (h, s)) /\
    alert_severity_distribution float s !! py "NONE" = None.
Proof.
  destruct (distributions_count_the_results float float_of_int
              PrimFloat.add PrimFloat.sub
              (fun x n => PrimFloat.div x (float_of_int (Z.of_nat n)))
              (fun a n => int_truediv a (Z.of_nat n))
              (fun _ => py "<float>") sum_left_to_right
              sample_workflow
              (fun n => float_of_int (Z.of_nat n)) (@rev nat) rev_perm
              20 true {| clock_reads := 0; workflow_calls := 0 |})
    as (st' & h & s & Hrun & _ & _ & Hnames).
  exists st', h, s. split; [exact Hrun|].
  destruct (alert_severity_distribution float s !! py "NONE") as [count|] eqn:Hnone;
    [|reflexivity].
  exfalso. specialize (Hnames (py "NONE") (ex_intro _ count Hnone)).
  apply (bool_decide_pack _) in Hnames. vm_compute in Hnames. exact Hnames.
Defined.

End multi_transaction_simulator.
